(** * Gateway link and OTA engine of the earthquake sensor backend

    A shallow embedding of [backend_api_server.py]: the version comparator,
    the manifest lookup, the per-node OTA session store of
    [GatewayConnection], the chunked transfer, the protocol handlers, the
    manual trigger [ota_update_core] and the background [auto_ota_worker].

    Conventions of the embedding.
    - Python [int] is [Z]; [bytes] is [list byte]; [str] is [string]
      (ASCII); a [dict] used as a map is a [gmap]; the global [nodes] and
      [ota_history] lists are lists of records, updated in place at the
      first matching position, as the source's [next(...)] and [for ...
      break] do.
    - The module globals and the one [GatewayConnection] object form one
      record [World]; every function takes the world and returns the next
      one.  Frames written to the serial port and events passed to
      [socketio.emit] are appended to the logs [written] and [emitted].
    - What the environment decides (the wall clock, the outcome of an HTTP
      request, a failing read or write) is an explicit argument.
    - Wall-clock readings ([time.time()], [datetime.now().isoformat()]) are
      integers, one reading per call; the percentage of a progress event, a
      floating-point number in the source, is left out of the event.
    - A call runs from start to end without interleaving: a worker thread
      is recorded when it is started and runs as one step.  Writes to the
      log files ([log_event]) and [print] are left out.
    - An exception that a function catches is a branch of the function.
      One that escapes is part of the result: [None] for a built-in or a
      function that returns a value, a flag beside the world for a handler
      that returns nothing.
    - The [node_id] of a request body is any JSON value; messages from the
      gateway and the other fields of a request have the types the code
      expects of them.

    Part I is the program, Part II the vocabulary of the statements and the
    concrete worlds they are tried on, Part III the properties. *)

From Stdlib Require Import ZArith NArith Ascii String List Lia DecimalString.
From Stdlib.Strings Require Import Byte.
From stdpp Require Import gmap strings list.

Local Open Scope Z_scope.

(* ===================================================================== *)
(** * Part I.  The program *)
(* ===================================================================== *)

(* ===================================================================== *)
(** ** Python built-ins used by the source *)
(* ===================================================================== *)

Module Py.

(** [l[start:stop]] for a sequence [l] and integer bounds: a negative
    bound counts from the end, and both are clamped to [0, len(l)]. *)
Definition clamp_index (len i : Z) : Z :=
  if i <? 0 then Z.max (i + len) 0 else Z.min i len.

Definition slice {A} (l : list A) (start stop : Z) : list A :=
  let len := Z.of_nat (length l) in
  let lo := clamp_index len start in
  let hi := clamp_index len stop in
  take (Z.to_nat (hi - lo)) (drop (Z.to_nat lo) l).

(** Truthiness of a [str]: the empty string is falsy. *)
Definition truthy (s : string) : bool :=
  match s with EmptyString => false | String _ _ => true end.

(** [s.split(sep)] for a one-character separator: never the empty list. *)
Fixpoint split (sep : ascii) (s : string) : list string :=
  match s with
  | EmptyString => [EmptyString]
  | String c rest =>
      if Ascii.eqb c sep then EmptyString :: split sep rest
      else match split sep rest with
           | [] => [String c EmptyString]
           | w :: ws => String c w :: ws
           end
  end.

(** [zip(xs, ys)]: pairs up to the shorter list. *)
Fixpoint zip {A B} (xs : list A) (ys : list B) : list (A * B) :=
  match xs, ys with
  | x :: xs', y :: ys' => (x, y) :: zip xs' ys'
  | _, _ => []
  end.

(** ** [s.strip()] on an ASCII string

    The white space of [str.strip] and [str.isspace]: tab to carriage
    return, the four separators 0x1c to 0x1f, and the space. *)
Definition is_space (c : ascii) : bool :=
  let n := N_of_ascii c in
  ((9 <=? n) && (n <=? 13) || (28 <=? n) && (n <=? 32))%N.

Fixpoint lstrip (l : list ascii) : list ascii :=
  match l with
  | c :: l' => if is_space c then lstrip l' else l
  | [] => []
  end.

Definition strip (l : list ascii) : list ascii :=
  rev (lstrip (rev (lstrip l))).

(** ** [int(s)] on an ASCII string

    The blanks at both ends are skipped, one sign is allowed, and the
    digits may be separated by single underscores.  The blanks are those
    of C's [isspace] (tab to carriage return, and the space): the
    separators 0x1c to 0x1f, which [strip] removes, are no blanks for
    [int], and [int] rejects a string that holds one.  A literal of more
    than 4300 digits is rejected as well: this is the interpreter's
    default limit ([sys.int_info.default_max_str_digits]), which the
    program never changes; signs, underscores and blanks do not count.
    [None] stands for [ValueError].  Digits outside ASCII are not part of
    the embedding. *)
Definition is_blank (c : ascii) : bool :=
  let n := N_of_ascii c in
  ((9 <=? n) && (n <=? 13) || (n =? 32))%N.

Definition digit_of (c : ascii) : option Z :=
  let n := N_of_ascii c in
  if ((48 <=? n) && (n <=? 57))%N then Some (Z.of_N n - 48) else None.

Definition is_underscore (c : ascii) : bool := Ascii.eqb c "_"%char.

Fixpoint skip_blanks (l : list ascii) : list ascii :=
  match l with
  | c :: l' => if is_blank c then skip_blanks l' else l
  | [] => []
  end.

Definition trim_blanks (l : list ascii) : list ascii :=
  rev (skip_blanks (rev (skip_blanks l))).

(** [digits acc after_digit l]: the digits of [l] in base ten, continuing
    from [acc]; [after_digit] tells whether the previous character was a
    digit, which is where an underscore may stand. *)
Fixpoint digits (acc : Z) (after_digit : bool) (l : list ascii) : option Z :=
  match l with
  | [] => if after_digit then Some acc else None
  | c :: l' =>
      match digit_of c with
      | Some d => digits (10 * acc + d) true l'
      | None =>
          if is_underscore c && after_digit then digits acc false l'
          else None
      end
  end.

Definition MAX_STR_DIGITS : nat := 4300.

(** The number of digits of a literal, underscores left out. *)
Fixpoint count_digits (l : list ascii) : nat :=
  match l with
  | [] => 0
  | c :: l' =>
      match digit_of c with
      | Some _ => S (count_digits l')
      | None => count_digits l'
      end
  end.

(** The literal after the sign: it must be well formed and within the
    limit. *)
Definition unsigned (l : list ascii) : option Z :=
  match digits 0 false l with
  | Some n => if (MAX_STR_DIGITS <? count_digits l)%nat then None else Some n
  | None => None
  end.

Definition int (s : string) : option Z :=
  match trim_blanks (list_ascii_of_string s) with
  | c :: l' =>
      if Ascii.eqb c "-"%char then Z.opp <$> unsigned l'
      else if Ascii.eqb c "+"%char then unsigned l'
      else unsigned (c :: l')
  | [] => None
  end.

(** [all] of a comprehension [[int(x) for x in xs]]: the first failure
    aborts the whole list. *)
Fixpoint ints (xs : list string) : option (list Z) :=
  match xs with
  | [] => Some []
  | x :: xs' =>
      match int x with
      | Some n => match ints xs' with
                  | Some ns => Some (n :: ns)
                  | None => None
                  end
      | None => None
      end
  end.

(** [s.lower()] on ASCII. *)
Definition lower_char (c : ascii) : ascii :=
  let n := N_of_ascii c in
  if ((65 <=? n) && (n <=? 90))%N then ascii_of_N (n + 32) else c.

Fixpoint lower (s : string) : string :=
  match s with
  | EmptyString => EmptyString
  | String c rest => String (lower_char c) (lower rest)
  end.

(** [str(n)] for an integer, as an f-string prints it. *)
Definition str_of_int (n : Z) : string :=
  NilZero.string_of_int (Z.to_int n).

End Py.

(* ===================================================================== *)
(** ** Base64, as [base64.b64encode(...).decode('ascii')] produces it *)
(* ===================================================================== *)

Module Base64.

(** The character of a six-bit value in the standard alphabet. *)
Definition char_of (n : N) : ascii :=
  if (n <? 26)%N then ascii_of_N (65 + n)
  else if (n <? 52)%N then ascii_of_N (97 + (n - 26))
  else if (n <? 62)%N then ascii_of_N (48 + (n - 52))
  else if (n =? 62)%N then "+"%char
  else "/"%char.

(** The six-bit value of a character of the alphabet. *)
Definition index_of (c : ascii) : option N :=
  let n := N_of_ascii c in
  if ((65 <=? n) && (n <=? 90))%N then Some (n - 65)%N
  else if ((97 <=? n) && (n <=? 122))%N then Some (n - 97 + 26)%N
  else if ((48 <=? n) && (n <=? 57))%N then Some (n - 48 + 52)%N
  else if (n =? 43)%N then Some 62%N
  else if (n =? 47)%N then Some 63%N
  else None.

Definition pad : ascii := "="%char.

(** Three bytes make four characters; one or two trailing bytes make two
    or three characters and padding. *)
Fixpoint encode (bs : list byte) : list ascii :=
  match bs with
  | [] => []
  | [a] =>
      let x := Byte.to_N a in
      [char_of (x / 4); char_of (x mod 4 * 16); pad; pad]
  | [a; b] =>
      let x := Byte.to_N a in
      let y := Byte.to_N b in
      [char_of (x / 4); char_of (x mod 4 * 16 + y / 16);
       char_of (y mod 16 * 4); pad]
  | a :: b :: c :: rest =>
      let x := Byte.to_N a in
      let y := Byte.to_N b in
      let z := Byte.to_N c in
      char_of (x / 4) :: char_of (x mod 4 * 16 + y / 16)
        :: char_of (y mod 16 * 4 + z / 64) :: char_of (z mod 64)
        :: encode rest
  end.

Definition b64encode (bs : list byte) : string :=
  string_of_list_ascii (encode bs).

(** The receiving side: groups of four characters, padding only in the
    last group.  [None] stands for a rejected input. *)
Definition byte1 (s1 s2 : N) : option byte := Byte.of_N (s1 * 4 + s2 / 16).
Definition byte2 (s2 s3 : N) : option byte := Byte.of_N (s2 mod 16 * 16 + s3 / 4).
Definition byte3 (s3 s4 : N) : option byte := Byte.of_N (s3 mod 4 * 64 + s4).

Fixpoint decode (cs : list ascii) : option (list byte) :=
  match cs with
  | [] => Some []
  | c1 :: c2 :: c3 :: c4 :: rest =>
      s1 ← index_of c1;
      s2 ← index_of c2;
      a ← byte1 s1 s2;
      if Ascii.eqb c3 pad then
        if Ascii.eqb c4 pad then
          match rest with [] => Some [a] | _ => None end
        else None
      else
        s3 ← index_of c3;
        b ← byte2 s2 s3;
        if Ascii.eqb c4 pad then
          match rest with [] => Some [a; b] | _ => None end
        else
          s4 ← index_of c4;
          c ← byte3 s3 s4;
          tl ← decode rest;
          Some (a :: b :: c :: tl)
  | _ => None
  end.

Definition b64decode (s : string) : option (list byte) :=
  decode (list_ascii_of_string s).

End Base64.

(* ===================================================================== *)
(** ** The values of a JSON request body *)
(* ===================================================================== *)

(** A [float].  A finite one is given by a fraction [num/den] equal to
    it; the others are [nan] and the two infinities, which [json.loads]
    reads from [NaN], [Infinity] and [-Infinity]. *)
Inductive Float :=
| finite (num : Z) (den : positive)
| not_finite.

(** What [data.get(key)] returns for the body of a request: the Python
    value of a JSON value; [JNull] is [None], for [null] and for a key
    that is absent. *)
#[local] Unset Elimination Schemes.
Inductive Json :=
| JNull
| JBool (b : bool)
| JInt (n : Z)
| JFloat (x : Float)
| JStr (s : string)
| JArray (items : list Json)
| JObject (members : list (string * Json)).
#[local] Set Elimination Schemes.

(** [bool(v)], which [all([...])] applies to every field. *)
Definition json_truthy (v : Json) : bool :=
  match v with
  | JNull => false
  | JBool b => b
  | JInt n => negb (n =? 0)
  | JFloat (finite num _) => negb (num =? 0)
  | JFloat not_finite => true
  | JStr s => Py.truthy s
  | JArray items => match items with [] => false | _ :: _ => true end
  | JObject members => match members with [] => false | _ :: _ => true end
  end.

(** [int(v)], [None] when it raises: [TypeError] for [None], a list or a
    dict, [ValueError] for a string that is no integer literal and for
    [nan], [OverflowError] for an infinity.  [True] is 1 and [False] is
    0; a finite float is cut towards zero. *)
Definition json_int (v : Json) : option Z :=
  match v with
  | JBool b => Some (if b then 1 else 0)
  | JInt n => Some n
  | JFloat (finite num den) => Some (Z.quot num (Z.pos den))
  | JStr s => Py.int s
  | JFloat not_finite | JNull | JArray _ | JObject _ => None
  end.

(* ===================================================================== *)
(** ** Version comparison *)
(* ===================================================================== *)

(** The [for c, l in zip(...)] loop of [compare_versions]: the first pair
    that differs returns; running off the end returns [False]. *)
Fixpoint compare_loop (pairs : list (Z * Z)) : bool :=
  match pairs with
  | [] => false
  | (c, l) :: rest =>
      if l >? c then true
      else if l <? c then false
      else compare_loop rest
  end.

(** [compare_versions(current, latest)].  Both comprehensions are
    evaluated in full before the loop starts, so a component that [int]
    rejects anywhere in either string sends the call to the [except]
    branch. *)
Definition compare_versions (current latest : string) : bool :=
  match Py.ints (Py.split "."%char current) with
  | Some current_parts =>
      match Py.ints (Py.split "."%char latest) with
      | Some latest_parts => compare_loop (Py.zip current_parts latest_parts)
      | None => negb (String.eqb current latest)
      end
  | None => negb (String.eqb current latest)
  end.

(* ===================================================================== *)
(** ** Data model *)
(* ===================================================================== *)

(** The ['status'] strings of a node record and of a history entry. *)
Inductive NodeStatus := offline | online | updating.
Inductive OtaStatus := initiated | completed | failed.

Definition OtaStatus_eqb (a b : OtaStatus) : bool :=
  match a, b with
  | initiated, initiated | completed, completed | failed, failed => true
  | _, _ => false
  end.

(** An element of the global list [nodes].  ['role'] is only present on a
    record created by an OTA check. *)
Record Node := {
  n_id : Z;
  n_name : string;
  n_token : string;
  n_version : string;
  n_role : option string;
  n_type : string;
  n_status : NodeStatus;
  n_lastSeen : option Z;
  n_rssi : Z;
  n_temperature : Z
}.

(** An element of the global list [ota_history]; ['completed_at'] is
    absent until the entry is closed. *)
Record OtaEvent := {
  h_id : Z;
  h_node_id : Z;
  h_node_name : string;
  h_version : string;
  h_status : OtaStatus;
  h_initiated_by : string;
  h_timestamp : Z;
  h_file_size : Z;
  h_completed_at : option Z
}.

(** A value of [GatewayConnection.ota_sessions].  Both places that create
    a session set every key, so the defaults of [session.get('chunk_size',
    1024)] and [session.get('auto', False)] never apply. *)
Record Session := {
  firmware_data : list byte;
  s_version : string;
  s_size : Z;
  chunk_size : Z;
  started_at : Z;
  s_node_name : string;
  auto : bool
}.

(** Frames written to the gateway, before [json.dumps]. *)
Inductive Frame :=
| ota_offer (target_node : Z) (version : string) (size chunk : Z)
| ota_chunk (target_node idx : Z) (data : string)
| ota_end (target_node : Z).

(** Frames read from the gateway, after [json.loads], for the OTA part of
    the catalogue. *)
Inductive Message :=
| ota_check_forward (source_node : Z) (role fw_version : string)
| ota_accept (source_node : Z) (device_name : string)
| ota_next (source_node idx : Z)
| ota_result (source_node : Z) (ok : bool) (msg new_version : string)
| ota_error (source_node : Z) (message : string).

(** The text of an ['auto_ota_failed'] event. *)
Inductive Failure :=
| download_failed
| sha256_verification_failed
| send_failed.

(** Events handed to [socketio.emit].  The progress, completion and error
    events carry the [auto] flag that selects between the [auto_ota_*] and
    the [ota_*] event name. *)
Inductive Event :=
| ev_auto_ota_started (node_id : Z) (node_name version : string) (timestamp : Z)
| ev_auto_ota_failed (node_id : Z) (error : Failure) (timestamp : Z)
| ev_node_status_change (node_id : Z) (status : NodeStatus)
| ev_ota_progress (is_auto : bool) (node_id chunk bytes_sent total_bytes : Z)
| ev_ota_complete (is_auto : bool) (node_id : Z) (success : bool)
    (message new_version : string) (timestamp : Z)
| ev_ota_error (is_auto : bool) (node_id : Z) (error : string) (timestamp : Z)
| ev_gateway_message (data : Message).

(** The serial port: [write_fails] says that [write] or [flush] raises
    (the device is gone); [written] is what went out so far. *)
Record Serial := {
  write_fails : bool;
  written : list Frame
}.

Record GatewayConnection := {
  connected : bool;
  ser : option Serial;
  ota_sessions : gmap Z Session
}.

(** The manifest document [{version, assets: {role: url}, sha256: {role:
    hex}}].  A role missing from [assets] or [sha256] is a missing key of
    the map, which is all that [manifest.get('assets', {}).get(role)] can
    tell. *)
Record Manifest := {
  m_version : string;
  m_assets : gmap string string;
  m_sha256 : gmap string string
}.

(** The arguments of a started [auto_ota_worker] thread. *)
Record WorkerArgs := {
  wa_node_id : Z;
  wa_node_name : string;
  wa_firmware_url : string;
  wa_sha256_hash : option string;
  wa_version : string
}.

(** The globals of the module, the gateway object, the temporary and
    upload files, and the two output logs.  A missing gateway object
    ([gateway_connection is None]) behaves in [ota_update_core] as one that
    is not connected, and is modelled so. *)
Record World := {
  gateway_connection : GatewayConnection;
  nodes : list Node;
  ota_history : list OtaEvent;
  last_auto_ota : gmap Z Z;
  manifest_cache : option Manifest;
  manifest_last_fetch : Z;
  AUTO_OTA_ENABLED : bool;
  files : gmap string (list byte);
  threads : list WorkerArgs;
  emitted : list Event
}.

(** ** Field updates *)

Definition set_status (st : NodeStatus) (n : Node) : Node :=
  {| n_id := n_id n; n_name := n_name n; n_token := n_token n;
     n_version := n_version n; n_role := n_role n; n_type := n_type n;
     n_status := st; n_lastSeen := n_lastSeen n; n_rssi := n_rssi n;
     n_temperature := n_temperature n |}.

Definition set_version (v : string) (n : Node) : Node :=
  {| n_id := n_id n; n_name := n_name n; n_token := n_token n;
     n_version := v; n_role := n_role n; n_type := n_type n;
     n_status := n_status n; n_lastSeen := n_lastSeen n; n_rssi := n_rssi n;
     n_temperature := n_temperature n |}.

Definition close_entry (st : OtaStatus) (now : Z) (e : OtaEvent) : OtaEvent :=
  {| h_id := h_id e; h_node_id := h_node_id e; h_node_name := h_node_name e;
     h_version := h_version e; h_status := st;
     h_initiated_by := h_initiated_by e; h_timestamp := h_timestamp e;
     h_file_size := h_file_size e; h_completed_at := Some now |}.

Definition with_gateway (f : GatewayConnection -> GatewayConnection) (w : World) : World :=
  {| gateway_connection := f (gateway_connection w); nodes := nodes w;
     ota_history := ota_history w; last_auto_ota := last_auto_ota w;
     manifest_cache := manifest_cache w;
     manifest_last_fetch := manifest_last_fetch w;
     AUTO_OTA_ENABLED := AUTO_OTA_ENABLED w; files := files w;
     threads := threads w; emitted := emitted w |}.

Definition with_sessions (f : gmap Z Session -> gmap Z Session) : World -> World :=
  with_gateway (fun g =>
    {| connected := connected g; ser := ser g;
       ota_sessions := f (ota_sessions g) |}).

Definition with_written (f : list Frame -> list Frame) : World -> World :=
  with_gateway (fun g =>
    {| connected := connected g;
       ser := (fun p => {| write_fails := write_fails p;
                           written := f (written p) |}) <$> ser g;
       ota_sessions := ota_sessions g |}).

Definition with_nodes (f : list Node -> list Node) (w : World) : World :=
  {| gateway_connection := gateway_connection w; nodes := f (nodes w);
     ota_history := ota_history w; last_auto_ota := last_auto_ota w;
     manifest_cache := manifest_cache w;
     manifest_last_fetch := manifest_last_fetch w;
     AUTO_OTA_ENABLED := AUTO_OTA_ENABLED w; files := files w;
     threads := threads w; emitted := emitted w |}.

Definition with_history (f : list OtaEvent -> list OtaEvent) (w : World) : World :=
  {| gateway_connection := gateway_connection w; nodes := nodes w;
     ota_history := f (ota_history w); last_auto_ota := last_auto_ota w;
     manifest_cache := manifest_cache w;
     manifest_last_fetch := manifest_last_fetch w;
     AUTO_OTA_ENABLED := AUTO_OTA_ENABLED w; files := files w;
     threads := threads w; emitted := emitted w |}.

Definition with_last_auto_ota (f : gmap Z Z -> gmap Z Z) (w : World) : World :=
  {| gateway_connection := gateway_connection w; nodes := nodes w;
     ota_history := ota_history w; last_auto_ota := f (last_auto_ota w);
     manifest_cache := manifest_cache w;
     manifest_last_fetch := manifest_last_fetch w;
     AUTO_OTA_ENABLED := AUTO_OTA_ENABLED w; files := files w;
     threads := threads w; emitted := emitted w |}.

Definition with_manifest (m : Manifest) (fetched : Z) (w : World) : World :=
  {| gateway_connection := gateway_connection w; nodes := nodes w;
     ota_history := ota_history w; last_auto_ota := last_auto_ota w;
     manifest_cache := Some m; manifest_last_fetch := fetched;
     AUTO_OTA_ENABLED := AUTO_OTA_ENABLED w; files := files w;
     threads := threads w; emitted := emitted w |}.

Definition with_files (f : gmap string (list byte) -> gmap string (list byte))
    (w : World) : World :=
  {| gateway_connection := gateway_connection w; nodes := nodes w;
     ota_history := ota_history w; last_auto_ota := last_auto_ota w;
     manifest_cache := manifest_cache w;
     manifest_last_fetch := manifest_last_fetch w;
     AUTO_OTA_ENABLED := AUTO_OTA_ENABLED w; files := f (files w);
     threads := threads w; emitted := emitted w |}.

Definition start_thread (a : WorkerArgs) (w : World) : World :=
  {| gateway_connection := gateway_connection w; nodes := nodes w;
     ota_history := ota_history w; last_auto_ota := last_auto_ota w;
     manifest_cache := manifest_cache w;
     manifest_last_fetch := manifest_last_fetch w;
     AUTO_OTA_ENABLED := AUTO_OTA_ENABLED w; files := files w;
     threads := threads w ++ [a]; emitted := emitted w |}.

(** [socketio.emit(...)]. *)
Definition emit (e : Event) (w : World) : World :=
  {| gateway_connection := gateway_connection w; nodes := nodes w;
     ota_history := ota_history w; last_auto_ota := last_auto_ota w;
     manifest_cache := manifest_cache w;
     manifest_last_fetch := manifest_last_fetch w;
     AUTO_OTA_ENABLED := AUTO_OTA_ENABLED w; files := files w;
     threads := threads w; emitted := emitted w ++ [e] |}.

(** Shorthands for the parts of the world the statements speak about. *)
Definition sessions (w : World) : gmap Z Session :=
  ota_sessions (gateway_connection w).

Definition wire (w : World) : list Frame :=
  match ser (gateway_connection w) with
  | Some port => written port
  | None => []
  end.

(* ===================================================================== *)
(** ** The gateway link *)
(* ===================================================================== *)

(** [GatewayConnection.send_command]: [False] when the link is down or the
    write raises, otherwise the frame goes out and the result is [True]. *)
Definition send_command (command : Frame) (w : World) : World * bool :=
  let g := gateway_connection w in
  if negb (connected g) then (w, false)
  else match ser g with
       | None => (w, false)
       | Some port =>
           if write_fails port then (w, false)
           else (with_written (fun out => out ++ [command]) w, true)
       end.

(** [next((n for n in nodes if n['id'] == node_id), None)]. *)
Fixpoint find_node (node_id : Z) (ns : list Node) : option Node :=
  match ns with
  | [] => None
  | n :: rest => if n_id n =? node_id then Some n else find_node node_id rest
  end.

(** Assignments to keys of the record that [find_node] returned: the list
    holds that very object, so its first match changes. *)
Fixpoint update_node (node_id : Z) (f : Node -> Node) (ns : list Node) : list Node :=
  match ns with
  | [] => []
  | n :: rest =>
      if n_id n =? node_id then f n :: rest
      else n :: update_node node_id f rest
  end.

(** The loop over [ota_history] in [handle_ota_result]: the first entry of
    the node that is still ['initiated'] is closed, then [break]. *)
Fixpoint close_first_open (node_id : Z) (st : OtaStatus) (now : Z)
    (history : list OtaEvent) : list OtaEvent :=
  match history with
  | [] => []
  | ota_event :: rest =>
      if (h_node_id ota_event =? node_id)
         && OtaStatus_eqb (h_status ota_event) initiated
      then close_entry st now ota_event :: rest
      else ota_event :: close_first_open node_id st now rest
  end.

(** [self.ota_sessions.get(node_id, {}).get('auto', False)]. *)
Definition session_is_auto (node_id : Z) (w : World) : bool :=
  match sessions w !! node_id with
  | Some session => auto session
  | None => false
  end.

(* ===================================================================== *)
(** ** Chunked transfer *)
(* ===================================================================== *)

(** [GatewayConnection.send_ota_chunk(node_id, chunk_idx)].  The result of
    sending [ota_end] is dropped, as in the source.  The percentage of the
    progress event, [(bytes_sent / total_size) * 100], is left out of the
    event, but not its division: when the chunk frame has gone out and
    [total_size] is zero (an empty firmware asked for at a negative
    index), [ZeroDivisionError] escapes from the call before anything is
    emitted.  The result is [None] then, and [Some] of the returned
    value otherwise. *)
Definition send_ota_chunk (node_id chunk_idx : Z) (w : World)
    : World * option bool :=
  match sessions w !! node_id with
  | None => (w, Some false)
  | Some session =>
      let firmware := firmware_data session in
      let total_size := Z.of_nat (length firmware) in
      let is_auto := auto session in
      let start := chunk_idx * chunk_size session in
      let end_ := Z.min (start + chunk_size session) total_size in
      if start >=? total_size then
        let '(w1, _) := send_command (ota_end node_id) w in
        (w1, Some true)
      else
        let chunk_data := Py.slice firmware start end_ in
        let chunk_b64 := Base64.b64encode chunk_data in
        let '(w1, success) :=
          send_command (ota_chunk node_id chunk_idx chunk_b64) w in
        if success then
          let bytes_sent := Z.min end_ total_size in
          if total_size =? 0 then (w1, None)
          else
            (emit (ev_ota_progress is_auto node_id chunk_idx bytes_sent total_size)
                  w1,
             Some true)
        else (w1, Some false)
  end.

(* ===================================================================== *)
(** ** Protocol handlers *)
(* ===================================================================== *)

(** The protocol handlers return nothing: each function below gives the
    world after the call, whether the call returned or an exception
    escaped from it; [handler_raises], further down, tells which. *)

(** [GatewayConnection.handle_ota_accept]. *)
Definition handle_ota_accept (source_node : Z) (device_name : string)
    (w : World) : World :=
  match sessions w !! source_node with
  | None => w
  | Some _ => fst (send_ota_chunk source_node 0 w)
  end.

(** [GatewayConnection.handle_ota_next]. *)
Definition handle_ota_next (source_node next_idx : Z) (w : World) : World :=
  match sessions w !! source_node with
  | None => w
  | Some _ => fst (send_ota_chunk source_node next_idx w)
  end.

(** [GatewayConnection.handle_ota_result].  The registry and the history
    are only touched under [if success and new_version:], and the history
    only when the node record was found. *)
Definition handle_ota_result (now : Z) (node_id : Z) (success : bool)
    (msg_text new_version : string) (w : World) : World :=
  let is_auto := session_is_auto node_id w in
  let w1 :=
    if success && Py.truthy new_version then
      match find_node node_id (nodes w) with
      | Some node =>
          let w' :=
            with_nodes (update_node node_id
              (fun n => set_status online (set_version new_version n))) w in
          with_history
            (close_first_open node_id (if success then completed else failed) now)
            w'
      | None => w
      end
    else w in
  let w2 :=
    match sessions w1 !! node_id with
    | Some _ => with_sessions (delete node_id) w1
    | None => w1
    end in
  emit (ev_ota_complete is_auto node_id success msg_text new_version now) w2.

(** [GatewayConnection.handle_ota_error]. *)
Definition handle_ota_error (now : Z) (node_id : Z) (error_msg : string)
    (w : World) : World :=
  let is_auto := session_is_auto node_id w in
  let w1 :=
    match sessions w !! node_id with
    | Some _ => with_sessions (delete node_id) w
    | None => w
    end in
  emit (ev_ota_error is_auto node_id error_msg now) w1.

(* ===================================================================== *)
(** ** Manifest cache and the auto-update decision *)
(* ===================================================================== *)

Definition AUTO_OTA_COOLDOWN : Z := 300.

(** [fetch_manifest()].  [now] is [time.time()]; [net] is what the HTTP
    request would return, [None] when it raises.  A failed request leaves
    the cache as it was and returns [None]. *)
Definition fetch_manifest (now : Z) (net : option Manifest) (w : World)
    : World * option Manifest :=
  let request :=
    match net with
    | Some m => (with_manifest m now w, Some m)
    | None => (w, None)
    end in
  match manifest_cache w with
  | Some cached =>
      if now - manifest_last_fetch w <? 300 then (w, Some cached) else request
  | None => request
  end.

(** [get_firmware_url_for_role(role)]: [(url, sha256, version)], or [None]
    for the source's [(None, None, None)]. *)
Definition get_firmware_url_for_role (now : Z) (net : option Manifest)
    (role : string) (w : World)
    : World * option (string * option string * string) :=
  let '(w1, manifest) := fetch_manifest now net w in
  match manifest with
  | None => (w1, None)
  | Some m =>
      match m_assets m !! role with
      | Some firmware_url =>
          if Py.truthy firmware_url
          then (w1, Some (firmware_url, m_sha256 m !! role, m_version m))
          else (w1, None)
      | None => (w1, None)
      end
  end.

(** The node record that an OTA check creates for an unknown id. *)
Definition new_checked_node (now node_id : Z) (current_fw node_role : string) : Node :=
  {| n_id := node_id;
     n_name := String.append "Node_" (Py.str_of_int node_id);
     n_token := ""; n_version := current_fw; n_role := Some node_role;
     n_type := "ESP32-C3"; n_status := online; n_lastSeen := Some now;
     n_rssi := 0; n_temperature := 0 |}.

(** [GatewayConnection.handle_ota_check_auto].  The worker thread is
    started, not run: it is recorded in [threads].  The cooldown time is
    written by the last statement of the function. *)
Definition handle_ota_check_auto (now : Z) (net : option Manifest)
    (node_id : Z) (node_role current_fw : string) (w : World) : World :=
  if negb (AUTO_OTA_ENABLED w) then w
  else
    let last_update := default 0 (last_auto_ota w !! node_id) in
    if now - last_update <? AUTO_OTA_COOLDOWN then w
    else
      let '(w1, info) := get_firmware_url_for_role now net node_role w in
      match info with
      | None => w1
      | Some (firmware_url, sha256_hash, latest_version) =>
          let needs_update := compare_versions current_fw latest_version in
          if negb needs_update then w1
          else
            let '(w2, node) :=
              match find_node node_id (nodes w1) with
              | Some node => (w1, node)
              | None =>
                  let node := new_checked_node now node_id current_fw node_role in
                  (with_nodes (fun ns => ns ++ [node]) w1, node)
              end in
            let w3 :=
              start_thread
                {| wa_node_id := node_id; wa_node_name := n_name node;
                   wa_firmware_url := firmware_url;
                   wa_sha256_hash := sha256_hash;
                   wa_version := latest_version |} w2 in
            with_last_auto_ota (insert node_id now) w3
      end.

(* ===================================================================== *)
(** ** Triggers *)
(* ===================================================================== *)

(** The session and the offer of a trigger, and the history entry it
    writes after a successful send. *)
Definition new_session (now : Z) (firmware : list byte) (version node_name : string)
    (is_auto : bool) : Session :=
  {| firmware_data := firmware; s_version := version;
     s_size := Z.of_nat (length firmware); chunk_size := 1024;
     started_at := now; s_node_name := node_name; auto := is_auto |}.

Definition new_ota_event (now node_id : Z) (node_name version initiated_by : string)
    (file_size : Z) (history : list OtaEvent) : OtaEvent :=
  {| h_id := Z.of_nat (length history) + 1; h_node_id := node_id;
     h_node_name := node_name; h_version := version; h_status := initiated;
     h_initiated_by := initiated_by; h_timestamp := now;
     h_file_size := file_size; h_completed_at := None |}.

(** What the HTTP layer gets back from [ota_update_core]. *)
Inductive Response :=
| http_error (status : Z) (error : string)
| http_ok (ota_id : Z).

(** [ota_update_core(node_id, version, filepath, initiated_by)], for an
    integer [node_id].  The session is stored before the offer is sent,
    whatever the store held for the node. *)
Definition ota_update_core (now : Z) (node_id : Z) (version filepath initiated_by : string)
    (w : World) : World * Response :=
  match files w !! filepath with
  | None => (w, http_error 404 "Firmware not found")
  | Some firmware_data =>
      match find_node node_id (nodes w) with
      | None => (w, http_error 404 "Node not found")
      | Some node =>
          if negb (connected (gateway_connection w))
          then (w, http_error 503 "Gateway not connected")
          else
            let file_size := Z.of_nat (length firmware_data) in
            let w1 :=
              with_sessions
                (insert node_id
                   (new_session now firmware_data version (n_name node) false)) w in
            let '(w2, success) :=
              send_command (ota_offer node_id version file_size 1024) w1 in
            if negb success then
              (with_sessions (delete node_id) w2,
               http_error 500 "Failed to send OTA offer")
            else
              let ota_event :=
                new_ota_event now node_id (n_name node) version initiated_by
                  file_size (ota_history w2) in
              let w3 := with_history (fun h => h ++ [ota_event]) w2 in
              let w4 := with_nodes (update_node node_id (set_status updating)) w3 in
              (emit (ev_node_status_change node_id updating) w4,
               http_ok (h_id ota_event))
      end
  end.

(** [ota_update_core] as the endpoints call it, with the [node_id] of the
    request body, which is any JSON value.  The test of the file comes
    first; then [int(node_id)], whose failure, whatever it raises, is
    answered with 400; from there on the function runs on the integer, as
    [ota_update_core] above does, where [int] of an integer is that
    integer. *)
Definition ota_update_core_json (now : Z) (node_id : Json)
    (version filepath initiated_by : string) (w : World) : World * Response :=
  match files w !! filepath with
  | None => (w, http_error 404 "Firmware not found")
  | Some _ =>
      match json_int node_id with
      | None => (w, http_error 400 "Invalid node_id")
      | Some node_id => ota_update_core now node_id version filepath initiated_by w
      end
  end.

(** What the environment decides during one run of the worker. *)
Inductive Download :=
| request_fails
| stream_breaks (received : list byte)
| stream_ends (body : list byte).

Record WorkerEnv := {
  temp_path : string;
  download : Download;
  digest_raises : bool;
  read_raises : bool
}.

Section AutoOta.

(** [hashlib.sha256(data).hexdigest()]. *)
Variable sha256_hexdigest : list byte -> string.

(** The [try ... finally] that sends the offer.  [os.remove(temp_path)] of
    the [finally] clause runs on every way out. *)
Definition auto_ota_send (env : WorkerEnv) (now : Z) (node_id : Z)
    (node_name version : string) (w : World) : World :=
  let w' :=
    match files w !! temp_path env with
    | Some firmware_data =>
        if read_raises env then
          emit (ev_auto_ota_failed node_id send_failed now) w
        else
          let file_size := Z.of_nat (length firmware_data) in
          let w1 :=
            with_sessions
              (insert node_id
                 (new_session now firmware_data version node_name true)) w in
          let '(w2, success) :=
            send_command (ota_offer node_id version file_size 1024) w1 in
          if success then
            let ota_event :=
              new_ota_event now node_id node_name version "AUTO_OTA"
                file_size (ota_history w2) in
            let w3 := with_history (fun h => h ++ [ota_event]) w2 in
            let w4 := with_nodes (update_node node_id (set_status updating)) w3 in
            emit (ev_node_status_change node_id updating) w4
          else with_sessions (delete node_id) w2
    | None => emit (ev_auto_ota_failed node_id send_failed now) w
    end in
  with_files (delete (temp_path env)) w'.

(** The SHA256 gate, entered when [sha256_hash] is truthy. *)
Definition auto_ota_verify (env : WorkerEnv) (now : Z) (node_id : Z)
    (node_name version expected_hash : string) (w : World) : World :=
  match files w !! temp_path env with
  | Some content =>
      if digest_raises env then with_files (delete (temp_path env)) w
      else
        let got := Py.lower (sha256_hexdigest content) in
        let expected := Py.lower expected_hash in
        if negb (String.eqb got expected) then
          emit (ev_auto_ota_failed node_id sha256_verification_failed now)
            (with_files (delete (temp_path env)) w)
        else auto_ota_send env now node_id node_name version w
  | None => w
  end.

(** [GatewayConnection.auto_ota_worker].  [request_fails]: the request or
    [raise_for_status] raises before [mkstemp].  [stream_breaks received]:
    the temporary file exists and holds [received] when the download
    raises.  [stream_ends body]: the whole body is in the file. *)
Definition auto_ota_worker (env : WorkerEnv) (now : Z) (node_id : Z)
    (node_name firmware_url : string) (sha256_hash : option string)
    (version : string) (w : World) : World :=
  let w0 := emit (ev_auto_ota_started node_id node_name version now) w in
  match download env with
  | request_fails => emit (ev_auto_ota_failed node_id download_failed now) w0
  | stream_breaks received =>
      emit (ev_auto_ota_failed node_id download_failed now)
        (with_files (insert (temp_path env) received) w0)
  | stream_ends body =>
      let w1 := with_files (insert (temp_path env) body) w0 in
      match sha256_hash with
      | Some h =>
          if Py.truthy h
          then auto_ota_verify env now node_id node_name version h w1
          else auto_ota_send env now node_id node_name version w1
      | None => auto_ota_send env now node_id node_name version w1
      end
  end.

End AutoOta.

(** Whether an exception escapes from the handler of a message.  On the
    messages of the embedding the only statement of the handlers that can
    raise is the division in [send_ota_chunk]. *)
Definition handler_raises (data : Message) (w : World) : bool :=
  let chunk_raises node_id chunk_idx :=
    match sessions w !! node_id with
    | None => false
    | Some _ =>
        match snd (send_ota_chunk node_id chunk_idx w) with
        | None => true
        | Some _ => false
        end
    end in
  match data with
  | ota_accept source_node _ => chunk_raises source_node 0
  | ota_next source_node idx => chunk_raises source_node idx
  | _ => false
  end.

(** The OTA branches of [GatewayConnection.process_gateway_message]: the
    handler of the message type, then the mirror event.  The function
    catches [json.JSONDecodeError] only: an exception that escapes from
    the handler skips the mirror event and escapes from the function as
    well. *)
Definition process_gateway_message (now : Z) (net : option Manifest)
    (data : Message) (w : World) : World :=
  let w1 :=
    match data with
    | ota_check_forward source_node role fw_version =>
        handle_ota_check_auto now net source_node role fw_version w
    | ota_accept source_node device_name =>
        handle_ota_accept source_node device_name w
    | ota_next source_node idx => handle_ota_next source_node idx w
    | ota_result source_node ok msg new_version =>
        handle_ota_result now source_node ok msg new_version w
    | ota_error source_node message =>
        handle_ota_error now source_node message w
    end in
  if handler_raises data w then w1 else emit (ev_gateway_message data) w1.

(* ===================================================================== *)
(** ** The read loop: framing of the serial stream *)
(* ===================================================================== *)

(** The line feed that ends a frame. *)
Definition LF : ascii := "010"%char.

(** [s.strip()]. *)
Definition str_strip (s : string) : string :=
  string_of_list_ascii (Py.strip (list_ascii_of_string s)).

(** [buffer.split('\n', 1)] when ['\n' in buffer]: the text before the
    first separator and the text after it; [None] when the separator does
    not occur. *)
Fixpoint split_once (sep : ascii) (s : string) : option (string * string) :=
  match s with
  | EmptyString => None
  | String c rest =>
      if Ascii.eqb c sep then Some (EmptyString, rest)
      else match split_once sep rest with
           | Some (line, buffer) => Some (String c line, buffer)
           | None => None
           end
  end.

(** What one turn of the outer loop of [read_loop] leaves behind: the
    lines passed to the handler, in order; the [buffer] after the turn;
    the state after the handler's calls; and whether the turn ended in
    the [except Exception] of the loop. *)
Record Reading (State : Type) := {
  handed : list string;
  kept : string;
  state_after : State;
  raised : bool
}.

Arguments handed {State} _.
Arguments kept {State} _.
Arguments state_after {State} _.
Arguments raised {State} _.

Section ReadLoop.

Context {State : Type}.

(** [self.process_gateway_message(line)] as the loop sees it: the state
    after the call, and whether an exception escaped from it.  The handler
    catches [json.JSONDecodeError] itself; every other exception escapes,
    whatever the handler had done by then. *)
Variable handler : string -> State -> State * bool.

Definition push (line : string) (r : Reading State) : Reading State :=
  {| handed := line :: handed r; kept := kept r;
     state_after := state_after r; raised := raised r |}.

(** The inner [while '\n' in buffer] loop of [read_loop].  [buffer] is
    assigned before the handler is called, so an exception that escapes
    from the handler leaves the loop with the rest of the buffer, complete
    lines included, still in place: the [try] encloses the whole loop.
    Every turn removes a character from the buffer, so the length of the
    buffer bounds the number of turns; [fuel] counts them. *)
Fixpoint drain (fuel : nat) (buffer : string) (st : State) : Reading State :=
  match fuel with
  | O => {| handed := []; kept := buffer; state_after := st; raised := false |}
  | S fuel' =>
      match split_once LF buffer with
      | None =>
          {| handed := []; kept := buffer; state_after := st; raised := false |}
      | Some (line, buffer) =>
          let line := str_strip line in
          if Py.truthy line then
            let '(st, exception) := handler line st in
            if exception then
              {| handed := [line]; kept := buffer; state_after := st;
                 raised := true |}
            else push line (drain fuel' buffer st)
          else drain fuel' buffer st
      end
  end.

(** One turn of the outer loop of [read_loop] with [data] waiting on the
    port, already decoded: [buffer += data], then the inner loop.  A turn
    with nothing waiting does not enter the inner loop at all. *)
Definition read_chunk (buffer data : string) (st : State) : Reading State :=
  let buffer := String.append buffer data in
  drain (String.length buffer) buffer st.

End ReadLoop.

(* ===================================================================== *)
(** ** Manifest refresh and the auto-OTA switch *)
(* ===================================================================== *)

Definition with_manifest_cache (cache : option Manifest) (fetched : Z)
    (w : World) : World :=
  {| gateway_connection := gateway_connection w; nodes := nodes w;
     ota_history := ota_history w; last_auto_ota := last_auto_ota w;
     manifest_cache := cache; manifest_last_fetch := fetched;
     AUTO_OTA_ENABLED := AUTO_OTA_ENABLED w; files := files w;
     threads := threads w; emitted := emitted w |}.

Definition with_auto_ota_enabled (enabled : bool) (w : World) : World :=
  {| gateway_connection := gateway_connection w; nodes := nodes w;
     ota_history := ota_history w; last_auto_ota := last_auto_ota w;
     manifest_cache := manifest_cache w;
     manifest_last_fetch := manifest_last_fetch w;
     AUTO_OTA_ENABLED := enabled; files := files w;
     threads := threads w; emitted := emitted w |}.

(** [refresh_manifest()]: the cache is dropped before the fetch.  The
    result is the manifest version of the answer, [None] for the 500
    answer. *)
Definition refresh_manifest (now : Z) (net : option Manifest) (w : World)
    : World * option string :=
  let '(w1, manifest) := fetch_manifest now net (with_manifest_cache None 0 w) in
  (w1, m_version <$> manifest).

(** [toggle_auto_ota()]: the new value of the switch is the answer. *)
Definition toggle_auto_ota (w : World) : World * bool :=
  let enabled := negb (AUTO_OTA_ENABLED w) in
  (with_auto_ota_enabled enabled w, enabled).

(* ===================================================================== *)
(** ** The registry and the mesh report *)
(* ===================================================================== *)

(** An element of ['active_nodes'] in a [mesh_status] frame; an absent key
    is [None]. *)
Record NodeReport := {
  r_node_id : Z;
  r_is_active : bool;
  r_fw_version : option string;
  r_signal_strength : option Z;
  r_device_name : option string;
  r_access_token : option string
}.

Definition report_status (r : NodeReport) : NodeStatus :=
  if r_is_active r then online else offline.

(** The four assignments to a record that is already in the registry. *)
Definition apply_report (now : Z) (r : NodeReport) (n : Node) : Node :=
  {| n_id := n_id n; n_name := n_name n; n_token := n_token n;
     n_version := default "unknown"%string (r_fw_version r);
     n_role := n_role n; n_type := n_type n;
     n_status := report_status r; n_lastSeen := Some now;
     n_rssi := default 0 (r_signal_strength r);
     n_temperature := n_temperature n |}.

(** The record appended for an id that the registry does not hold. *)
Definition new_reported_node (now : Z) (r : NodeReport) : Node :=
  {| n_id := r_node_id r;
     n_name := default (String.append "Node_" (Py.str_of_int (r_node_id r)))
                       (r_device_name r);
     n_token := default ""%string (r_access_token r);
     n_version := default "unknown"%string (r_fw_version r);
     n_role := None; n_type := "ESP32-C3";
     n_status := report_status r; n_lastSeen := Some now;
     n_rssi := default 0 (r_signal_strength r); n_temperature := 0 |}.

(** [GatewayConnection.update_nodes_from_gateway]: the registry after the
    loop over ['active_nodes'], and the payloads of the [node_added]
    events in the order they are emitted. *)
Fixpoint update_nodes_from_gateway (now : Z) (active_nodes : list NodeReport)
    (ns : list Node) : list Node * list Node :=
  match active_nodes with
  | [] => (ns, [])
  | node_data :: rest =>
      match find_node (r_node_id node_data) ns with
      | Some existing =>
          update_nodes_from_gateway now rest
            (update_node (r_node_id node_data) (apply_report now node_data) ns)
      | None =>
          let new_node := new_reported_node now node_data in
          let '(ns', added) :=
            update_nodes_from_gateway now rest (ns ++ [new_node]) in
          (ns', new_node :: added)
      end
  end.

(* ===================================================================== *)
(** ** Connecting and disconnecting the gateway *)
(* ===================================================================== *)

(** [GatewayConnection.disconnect].  Closing the port is not visible in
    the embedding: [send_command] looks at [connected] first, and only
    [connect] sets it again, with a new port. *)
Definition disconnect (g : GatewayConnection) : GatewayConnection :=
  {| connected := false; ser := ser g; ota_sessions := ota_sessions g |}.

(** [disconnect_gateway()]. *)
Definition disconnect_gateway (w : World) : World := with_gateway disconnect w.

(** [GatewayConnection(port, baudrate)] followed by [connect()]: a new
    object with an empty session store; [port_opens] tells whether
    [serial.Serial(...)] succeeds. *)
Definition connect_new (port_opens : bool) : GatewayConnection :=
  {| connected := port_opens;
     ser := if port_opens
            then Some {| write_fails := false; written := [] |}
            else None;
     ota_sessions := ∅ |}.

(** [connect_gateway()]: the HTTP status of the answer.  The global is
    assigned before [connect()] is tried. *)
Definition connect_gateway (port_opens : bool) (w : World) : World * Z :=
  if connected (gateway_connection w) then (w, 400)
  else
    let w1 := with_gateway (fun _ => connect_new port_opens) w in
    (w1, if port_opens then 200 else 500).

(** ['active_ota_sessions'] of [gateway_status()] and [get_stats()]. *)
Definition active_ota_sessions (w : World) : nat := size (sessions w).

(* ===================================================================== *)
(** ** The manual OTA endpoints *)
(* ===================================================================== *)

(** The fields of the request body.  [node_id] is any JSON value, and
    the endpoints treat it as [all] and [int] do.  The other fields are
    JSON strings, or absent ([None]); [truthy_str] is the truthiness of
    such a field, as [all([...])] tests it. *)
Definition truthy_str (x : option string) : bool :=
  match x with Some s => Py.truthy s | None => false end.

Section Endpoints.

(** [os.path.join]. *)
Variable path_join : string -> string -> string.

(** [hashlib.sha256(data).hexdigest()]. *)
Variable sha256_hexdigest : list byte -> string.

Definition UPLOAD_FOLDER : string := "firmware_uploads".

(** [initiate_ota()] with the fields of the request body. *)
Definition initiate_ota (now : Z) (current_user : string) (node_id : Json)
    (firmware_file version : option string) (w : World) : World * Response :=
  if json_truthy node_id && truthy_str firmware_file && truthy_str version then
    let filepath := path_join UPLOAD_FOLDER (default ""%string firmware_file) in
    ota_update_core_json now node_id
      (str_strip (default ""%string version)) filepath current_user w
  else (w, http_error 400 "Missing required fields").

(** [ota_from_github()].  The download is the one of the worker, without
    the progress output; the digest is compared after both sides are put
    in lower case and the expected one is stripped. *)
Definition ota_from_github (env : WorkerEnv) (now : Z) (current_user : string)
    (node_id : Json) (version firmware_url sha256 : option string)
    (w : World) : World * Response :=
  let version := str_strip (default ""%string version) in
  let firmware_url := str_strip (default ""%string firmware_url) in
  let expected_sha256 :=
    if truthy_str sha256
    then str_strip (Py.lower (default ""%string sha256))
    else ""%string in
  if negb (json_truthy node_id && Py.truthy version && Py.truthy firmware_url)
  then (w, http_error 400 "Missing required fields")
  else
    match download env with
    | request_fails => (w, http_error 502 "Download failed")
    | stream_breaks received =>
        (with_files (insert (temp_path env) received) w,
         http_error 502 "Download failed")
    | stream_ends body =>
        let w1 := with_files (insert (temp_path env) body) w in
        let core :=
          let '(w2, resp) :=
            ota_update_core_json now node_id version (temp_path env)
              current_user w1 in
          (with_files (delete (temp_path env)) w2, resp) in
        if Py.truthy expected_sha256 then
          if digest_raises env then
            (with_files (delete (temp_path env)) w1,
             http_error 500 "SHA256 error")
          else if negb (String.eqb (Py.lower (sha256_hexdigest body))
                                   expected_sha256) then
            (with_files (delete (temp_path env)) w1,
             http_error 400 "SHA256 mismatch")
          else core
        else core
    end.

End Endpoints.

(* ===================================================================== *)
(** ** The packaging script: names of the artifacts *)
(* ===================================================================== *)

(** The characters that [_sanitize] keeps: [[A-Za-z0-9_.-]]. *)
Definition keeps (c : ascii) : bool :=
  let n := N_of_ascii c in
  ((65 <=? n) && (n <=? 90) || (97 <=? n) && (n <=? 122) ||
   (48 <=? n) && (n <=? 57) || (n =? 95) || (n =? 46) || (n =? 45))%N.

(** [re.sub(r"[^A-Za-z0-9_.-]+", "_", s)] on the characters: every
    maximal run of other characters becomes one underscore; [in_run] says
    that the previous character was replaced. *)
Fixpoint sanitize_chars (in_run : bool) (l : list ascii) : list ascii :=
  match l with
  | [] => []
  | c :: l' =>
      if keeps c then c :: sanitize_chars false l'
      else if in_run then sanitize_chars true l'
      else "_"%char :: sanitize_chars true l'
  end.

(** [_sanitize(s)] of [rename_firmware.py]. *)
Definition _sanitize (s : string) : string :=
  string_of_list_ascii (sanitize_chars false (list_ascii_of_string s)).

(** The two file names that [package_one] writes into [dist/<env>], for a
    non-empty [fw_version]. *)
Definition package_names (env_name fw_version : string) : string * string :=
  let env_name := _sanitize env_name in
  let fw_version := _sanitize fw_version in
  (String.append env_name (String.append "_v" (String.append fw_version ".bin")),
   String.append env_name "_latest.bin").

(* ===================================================================== *)
(** * Part II.  Vocabulary of the statements *)
(* ===================================================================== *)

(** The link is connected and its port accepts writes. *)
Definition link_up (w : World) : Prop :=
  connected (gateway_connection w) = true /\
  exists port, ser (gateway_connection w) = Some port /\ write_fails port = false.

(** [".".join(xs)]. *)
Fixpoint dotted (xs : list string) : string :=
  match xs with
  | [] => ""
  | x :: xs' =>
      match xs' with
      | [] => x
      | _ :: _ => String.append x (String "." (dotted xs'))
      end
  end.

(** The components of [s]: the pieces between its dots. *)
Definition components (s : string) (xs : list string) : Prop :=
  s = dotted xs /\ xs <> [] /\
  Forall (fun x => ~ In "."%char (list_ascii_of_string x)) xs.

(** The blanks that may stand before and after an integer literal: tab,
    line feed, vertical tab, form feed, carriage return and the space. *)
Definition int_blank (c : ascii) : Prop :=
  In c ["009"; "010"; "011"; "012"; "013"; " "]%char.

(** The ten digits and their values. *)
Definition decimal_digit (c : ascii) (d : Z) : Prop :=
  In (c, d) [("0", 0); ("1", 1); ("2", 2); ("3", 3); ("4", 4);
             ("5", 5); ("6", 6); ("7", 7); ("8", 8); ("9", 9)]%char.

(** The number written by the digits [ds], most significant first. *)
Definition decimal_value (ds : list Z) : Z :=
  foldl (fun acc d => 10 * acc + d) 0 ds.

(** Groups of characters, each after an underscore. *)
Definition underscored (groups : list (list ascii)) : list ascii :=
  concat (map (cons "_"%char) groups).

(** [s] is an integer literal of value [n]: blanks, at most one sign,
    one or more non-empty groups of digits separated by single
    underscores, blanks; no more than 4300 digits in all. *)
Definition int_literal (s : string) (n : Z) : Prop :=
  exists (lead trail sign first : list ascii) (more : list (list ascii))
         (factor : Z) (ds : list Z),
    list_ascii_of_string s = lead ++ sign ++ first ++ underscored more ++ trail /\
    Forall int_blank lead /\ Forall int_blank trail /\
    In (sign, factor) [([], 1); (["+"%char], 1); (["-"%char], -1)] /\
    Forall (fun g => g <> []) (first :: more) /\
    Forall2 decimal_digit (first ++ concat more) ds /\
    (length ds <= 4300)%nat /\
    n = factor * decimal_value ds.

(** The components of [s] are all integer literals, and [ns] are their
    values. *)
Definition parses_to (s : string) (ns : list Z) : Prop :=
  exists xs, components s xs /\ Forall2 int_literal xs ns.

(** Some component of [s] is not an integer literal. *)
Definition has_non_numeric (s : string) : Prop :=
  exists xs, components s xs /\ Exists (fun x => forall n, ~ int_literal x n) xs.

(** Position [i] is the first one where the two lists differ, and there
    the second list holds the larger number. *)
Definition first_difference_favours_latest (cs ls : list Z) : Prop :=
  exists (i : nat) (c l : Z),
    cs !! i = Some c /\ ls !! i = Some l /\ c < l /\
    forall j : nat, (j < i)%nat -> cs !! j = ls !! j.

(** No position present in both lists holds two different numbers. *)
Definition no_difference_in_prefix (cs ls : list Z) : Prop :=
  forall (i : nat) (c l : Z), cs !! i = Some c -> ls !! i = Some l -> c = l.

(** Bytes [[idx*C, min((idx+1)*C, len(F)))] of [F]. *)
Definition chunk_bytes (F : list byte) (C idx : Z) : list byte :=
  let len := Z.of_nat (length F) in
  take (Z.to_nat (Z.min ((idx + 1) * C) len - idx * C))
       (drop (Z.to_nat (idx * C)) F).

(** [ceil(len(F) / C)]. *)
Definition chunk_count (F : list byte) (C : Z) : nat :=
  Z.to_nat ((Z.of_nat (length F) + C - 1) / C).

(** The node asking for the chunks [idxs] one after the other. *)
Definition request_chunks (node_id : Z) (idxs : list Z) (w : World) : World :=
  foldl (fun w idx => handle_ota_next node_id idx w) w idxs.

(** The receiving side: decode the payload of each chunk frame and
    append; anything but a chunk frame is rejected. *)
Definition payload (f : Frame) : option string :=
  match f with
  | ota_chunk _ _ data => Some data
  | _ => None
  end.

Definition reassemble (frames : list Frame) : option (list byte) :=
  chunks ← mapM (fun f => payload f ≫= Base64.b64decode) frames;
  Some (concat chunks).

(** The frame that carries chunk [idx] of the session. *)
Definition chunk_frame (nid : Z) (s : Session) (idx : Z) : Frame :=
  ota_chunk nid idx
    (Base64.b64encode (chunk_bytes (firmware_data s) (chunk_size s) idx)).

(** The gate of the worker lets the body through: no digest is given, or
    the digest is computed and equals the expected one up to case. *)
Definition sha256_gate_open (sha256_hexdigest : list byte -> string)
    (env : WorkerEnv) (sha256_hash : option string) (body : list byte) : Prop :=
  match sha256_hash with
  | Some h =>
      Py.truthy h = true ->
      digest_raises env = false /\
      Py.lower (sha256_hexdigest body) = Py.lower h
  | None => True
  end.

(** [if node_id in self.ota_sessions: del self.ota_sessions[node_id]]. *)
Definition drop_session (node_id : Z) (w : World) : World :=
  match sessions w !! node_id with
  | Some _ => with_sessions (delete node_id) w
  | None => w
  end.

(** An entry of the node that is still open. *)
Definition is_open_for (node_id : Z) (e : OtaEvent) : Prop :=
  h_node_id e = node_id /\ h_status e = initiated.

(** The node a protocol message comes from. *)
Definition source_of (m : Message) : Z :=
  match m with
  | ota_check_forward source_node _ _ => source_node
  | ota_accept source_node _ => source_node
  | ota_next source_node _ => source_node
  | ota_result source_node _ _ _ => source_node
  | ota_error source_node _ => source_node
  end.

(** The four acknowledgements of the transfer protocol. *)
Definition is_ack (m : Message) : Prop :=
  match m with
  | ota_check_forward _ _ _ => False
  | _ => True
  end.

(* ===================================================================== *)
(** ** Concrete worlds *)
(* ===================================================================== *)

(** A firmware of five bytes, sent to node 7 in chunks of two over a link
    that accepts writes: the last chunk is short. *)
Definition demo_firmware : list byte := [x01; x02; x03; xfe; xff].

Definition demo_session : Session :=
  {| firmware_data := demo_firmware; s_version := "2.1.0"; s_size := 5;
     chunk_size := 2; started_at := 0; s_node_name := "Node_7";
     auto := false |}.

Definition demo_world : World :=
  {| gateway_connection :=
       {| connected := true;
          ser := Some {| write_fails := false; written := [] |};
          ota_sessions := {[ 7 := demo_session ]} |};
     nodes := []; ota_history := []; last_auto_ota := ∅;
     manifest_cache := None; manifest_last_fetch := 0;
     AUTO_OTA_ENABLED := true; files := ∅; threads := []; emitted := [] |}.


Definition demo_node : Node :=
  {| n_id := 7; n_name := "Node_7"; n_token := ""; n_version := "2.0.0";
     n_role := None; n_type := "ESP32-C3"; n_status := online;
     n_lastSeen := None; n_rssi := 0; n_temperature := 0 |}.

(** Node 7 is in the middle of a transfer of [demo_firmware] when another
    firmware file is uploaded. *)
Definition busy_world : World :=
  with_files (insert "firmware_uploads/new.bin"%string [xaa; xbb])
    (with_nodes (fun _ => [demo_node]) demo_world).

Definition demo_env : WorkerEnv :=
  {| temp_path := "/tmp/auto_ota_demo.bin"; download := stream_ends [xaa; xbb];
     digest_raises := false; read_raises := false |}.

Definition raising_env : WorkerEnv :=
  {| temp_path := "/tmp/auto_ota_demo.bin"; download := stream_ends [xaa; xbb];
     digest_raises := true; read_raises := false |}.

(** Node 7 is being updated: one open history entry, status [updating]. *)
Definition pending_entry : OtaEvent :=
  new_ota_event 100 7 "Node_7" "2.1.0" "admin" 5 [].

Definition pending_world : World :=
  with_history (fun _ => [pending_entry])
    (with_nodes (fun _ => [set_status updating demo_node]) demo_world).

(** Two open entries of node 7, an older and a newer one. *)
Definition older_entry : OtaEvent :=
  new_ota_event 100 7 "Node_7" "2.1.0" "admin" 5 [].

Definition newer_entry : OtaEvent :=
  new_ota_event 150 7 "Node_7" "2.1.0" "AUTO_OTA" 5 [older_entry].

Definition twice_triggered_world : World :=
  with_history (fun _ => [older_entry; newer_entry]) pending_world.

(** Node 9 has a session and an open entry but no record in the registry. *)
Definition unregistered_world : World :=
  with_history
    (fun _ => [new_ota_event 100 9 "Node_9" "2.1.0" "AUTO_OTA" 5 []])
    (with_sessions (insert 9 demo_session) demo_world).

(** Node 7 is in the registry with an open history entry, and no session
    is active. *)
Definition idle_world : World :=
  with_sessions (fun _ => ∅) pending_world.

(** A manifest that knows the role [sensor_node] only. *)
Definition demo_manifest : Manifest :=
  {| m_version := "2.1.0";
     m_assets := {[ "sensor_node"%string := "https://example.org/sensor.bin"%string ]};
     m_sha256 := ∅ |}.


(** A line as it travels on the serial link: the text and a line feed. *)
Definition frame (text : string) : string := String.append text (String LF "").

(** A handler that counts its calls, and from which an exception escapes
    on the line [5]: that text is valid JSON but no object, so [data.get]
    raises [AttributeError] in [process_gateway_message]. *)
Definition counting_handler (line : string) (calls : nat) : nat * bool :=
  (S calls, String.eqb line "5").

(** The module right after import: nothing known, nothing connected. *)
Definition initial_world : World :=
  {| gateway_connection := {| connected := false; ser := None; ota_sessions := ∅ |};
     nodes := []; ota_history := []; last_auto_ota := ∅;
     manifest_cache := None; manifest_last_fetch := 0;
     AUTO_OTA_ENABLED := true; files := ∅; threads := []; emitted := [] |}.

(** One call of an operation of the program, with whatever arguments and
    whatever the environment decides. *)
Inductive step : World -> World -> Prop :=
| step_message now net m w :
    step w (process_gateway_message now net m w)
| step_mesh_status now active_nodes w :
    step w (with_nodes
              (fun ns => fst (update_nodes_from_gateway now active_nodes ns)) w)
| step_ota_update_core now node_id version filepath initiated_by w :
    step w (fst (ota_update_core now node_id version filepath initiated_by w))
| step_auto_ota_worker sha env now node_id node_name url sha256_hash version w :
    step w (auto_ota_worker sha env now node_id node_name url sha256_hash
              version w)
| step_initiate_ota path_join now user node_id firmware_file version w :
    step w (fst (initiate_ota path_join now user node_id firmware_file version w))
| step_ota_from_github sha env now user node_id version url sha256 w :
    step w (fst (ota_from_github sha env now user node_id version url sha256 w))
| step_refresh_manifest now net w :
    step w (fst (refresh_manifest now net w))
| step_toggle_auto_ota w :
    step w (fst (toggle_auto_ota w))
| step_disconnect_gateway w :
    step w (disconnect_gateway w)
| step_connect_gateway port_opens w :
    step w (fst (connect_gateway port_opens w)).

(** What an operation can do to the history log: nothing, append an open
    entry numbered after the length of the log, or close the first open
    entry of a node as completed. *)
Inductive history_move (h : list OtaEvent) : list OtaEvent -> Prop :=
| history_same : history_move h h
| history_append now node_id node_name version initiated_by file_size :
    history_move h
      (h ++ [new_ota_event now node_id node_name version initiated_by
               file_size h])
| history_close node_id now :
    history_move h (close_first_open node_id completed now h).

(** What an operation can do to the session store. *)
Inductive sessions_move (m : gmap Z Session) : gmap Z Session -> Prop :=
| sessions_same : sessions_move m m
| sessions_insert node_id now firmware version node_name is_auto :
    sessions_move m
      (<[node_id := new_session now firmware version node_name is_auto]> m)
| sessions_delete node_id : sessions_move m (delete node_id m)
| sessions_reset : sessions_move m ∅.

(** What an operation can do to the registry, one record at a time:
    rewrite the first record of an id without touching the id, or append
    a record whose id is not yet there. *)
Inductive nodes_move (ns : list Node) : list Node -> Prop :=
| nodes_same : nodes_move ns ns
| nodes_update node_id f ns' :
    (forall n, n_id (f n) = n_id n) ->
    nodes_move (update_node node_id f ns) ns' ->
    nodes_move ns ns'
| nodes_append n ns' :
    find_node (n_id n) ns = None ->
    nodes_move (ns ++ [n]) ns' ->
    nodes_move ns ns'.

(** The entries of the log are numbered 1, 2, 3, ... in log order. *)
Definition history_numbered (w : World) : Prop :=
  h_id <$> ota_history w
  = (fun i => Z.of_nat i) <$> seq 1 (length (ota_history w)).

(** No entry of the log has the status ['failed']. *)
Definition history_without_failed (w : World) : Prop :=
  Forall (fun e => h_status e <> failed) (ota_history w).

(** Every session has chunks of 1024 bytes and a size field that is the
    length of its firmware. *)
Definition sessions_well_formed (w : World) : Prop :=
  map_Forall (fun _ s => chunk_size s = 1024 /\
                         s_size s = Z.of_nat (length (firmware_data s)))
             (sessions w).

(** No two records of the registry have the same id. *)
Definition registry_unique (w : World) : Prop := NoDup (n_id <$> nodes w).

(** The fields of an entry that are written once: everything but the
    status and the time of completion. *)
Definition same_identity (e e' : OtaEvent) : Prop :=
  h_id e' = h_id e /\ h_node_id e' = h_node_id e /\
  h_node_name e' = h_node_name e /\ h_version e' = h_version e /\
  h_initiated_by e' = h_initiated_by e /\ h_timestamp e' = h_timestamp e /\
  h_file_size e' = h_file_size e.

(** A world whose manifest cache is fresh at time 1000 and knows the role
    [sensor_node]. *)
Definition cached_world : World := with_manifest demo_manifest 900 busy_world.

(** The link does not take a frame: it is not connected, has no port, or
    its port fails on write. *)
Definition link_down (w : World) : Prop :=
  connected (gateway_connection w) = false \/
  ser (gateway_connection w) = None \/
  exists port, ser (gateway_connection w) = Some port /\ write_fails port = true.

(** The progress event of chunk [idx] of a session. *)
Definition progress_event (nid : Z) (s : Session) (idx : Z) : Event :=
  let len := Z.of_nat (length (firmware_data s)) in
  ev_ota_progress (auto s) nid idx (Z.min ((idx + 1) * chunk_size s) len) len.

(** A whole transfer as the node drives it: [ota_accept], then [ota_next]
    for the indices 1 to [n]. *)
Definition protocol_run (node_id : Z) (device_name : string) (n : nat)
    (w : World) : World :=
  foldl (fun w idx => handle_ota_next node_id idx w)
        (handle_ota_accept node_id device_name w)
        ((fun i => Z.of_nat i) <$> seq 1 n).

(** Node 7 is in the middle of a transfer, a new file is uploaded, and the
    port has started to fail on write. *)
Definition failing_port_world : World :=
  with_gateway
    (fun g => {| connected := true;
                 ser := Some {| write_fails := true; written := [] |};
                 ota_sessions := ota_sessions g |})
    busy_world.


(** A mesh report of two nodes: node 7, known, and node 12, new. *)
Definition demo_reports : list NodeReport :=
  [ {| r_node_id := 7; r_is_active := false; r_fw_version := Some "2.0.1"%string;
       r_signal_strength := Some (-61); r_device_name := Some "Cellar"%string;
       r_access_token := None |};
    {| r_node_id := 12; r_is_active := true; r_fw_version := None;
       r_signal_strength := None; r_device_name := None;
       r_access_token := None |} ].

(** Every character of the string is one that [_sanitize] keeps. *)
Definition all_kept (s : string) : Prop :=
  Forall (fun c => keeps c = true) (list_ascii_of_string s).

(* ===================================================================== *)
(** * Part III.  Properties *)
(* ===================================================================== *)

(* ===================================================================== *)
(** ** Python built-ins and Base64 *)
(* ===================================================================== *)

Example py_split_version : Py.split "."%char "2.1.0" = ["2"; "1"; "0"]%string.
Proof. reflexivity. Qed.

Example py_split_empty : Py.split "."%char "" = [""]%string.
Proof. reflexivity. Qed.

Example py_int_plain : Py.int "10" = Some 10.
Proof. reflexivity. Qed.

Example py_int_signed_spaced : Py.int " -1_0 " = Some (-10).
Proof. reflexivity. Qed.

Example py_int_rejects : Py.int "1a" = None /\ Py.int "" = None /\ Py.int "1__0" = None.
Proof. repeat split; reflexivity. Qed.

(** The separator 0x1c is white space for [strip] and none for [int]. *)
Example py_int_separator :
  Py.int (String "028" "2") = None /\ str_strip (String "028" "2") = "2"%string.
Proof. split; reflexivity. Qed.

(** 4300 digits are read, 4301 are not; a sign and underscores do not
    count. *)
Example py_int_limit :
  Py.int (string_of_list_ascii (repeat "0"%char 4300)) = Some 0 /\
  Py.int (string_of_list_ascii (repeat "0"%char 4301)) = None /\
  Py.int (string_of_list_ascii
            ("-"%char :: concat (repeat ["0"; "_"]%char 4299) ++ ["0"%char]))
    = Some 0.
Proof. repeat split; vm_compute; reflexivity. Qed.

Example py_slice_tail : Py.slice [1; 2; 3; 4; 5] 3 5 = [4; 5].
Proof. reflexivity. Qed.

Example py_slice_negative : Py.slice [1; 2; 3; 4; 5] (-2) 5 = [4; 5].
Proof. reflexivity. Qed.

Example py_str_of_int : Py.str_of_int 42 = "42"%string.
Proof. reflexivity. Qed.

Example b64encode_Man : Base64.b64encode [x4d; x61; x6e] = "TWFu"%string.
Proof. reflexivity. Qed.

Example b64encode_Ma : Base64.b64encode [x4d; x61] = "TWE="%string.
Proof. reflexivity. Qed.

Example b64encode_M : Base64.b64encode [x4d] = "TQ=="%string.
Proof. reflexivity. Qed.

Example b64encode_high : Base64.b64encode [xfb; xff; xbf] = "+/+/"%string.
Proof. reflexivity. Qed.

Example b64decode_Ma : Base64.b64decode "TWE=" = Some [x4d; x61].
Proof. reflexivity. Qed.

Section Base64Lemmas.

Import Base64.

Lemma below_64_cases (P : N -> Prop) :
  Forall P (map N.of_nat (seq 0 64)) -> forall n, (n < 64)%N -> P n.
Proof.
  intros Hall n Hn. rewrite Forall_forall in Hall. apply Hall.
  apply list_elem_of_In, in_map_iff. exists (N.to_nat n). split; [lia|].
  apply in_seq. lia.
Qed.

Lemma index_of_char_of (n : N) :
  (n < 64)%N -> index_of (char_of n) = Some n /\ Ascii.eqb (char_of n) pad = false.
Proof.
  revert n. apply below_64_cases.
  repeat (apply Forall_cons; split; [split; reflexivity|]). apply Forall_nil.
  exact I.
Qed.

Lemma index_char (n : N) : (n < 64)%N -> index_of (char_of n) = Some n.
Proof. intros H. apply index_of_char_of, H. Qed.

Lemma char_not_pad (n : N) : (n < 64)%N -> Ascii.eqb (char_of n) pad = false.
Proof. intros H. apply index_of_char_of, H. Qed.

Ltac sextet := zify; Z.to_euclidean_division_equations; (lia || nia).

(** Six-bit groups of one, two and three bytes stay below 64. *)
Lemma top6 (x : N) : (x <= 255 -> x / 4 < 64)%N.
Proof. intros. sextet. Qed.

Lemma mid6 (x q : N) : (q < 16 -> x mod 4 * 16 + q < 64)%N.
Proof. intros. sextet. Qed.

Lemma mid6_pad (x : N) : (x mod 4 * 16 < 64)%N.
Proof. sextet. Qed.

Lemma low6 (y q : N) : (q < 4 -> y mod 16 * 4 + q < 64)%N.
Proof. intros. sextet. Qed.

Lemma low6_pad (y : N) : (y mod 16 * 4 < 64)%N.
Proof. sextet. Qed.

Lemma last6 (z : N) : (z mod 64 < 64)%N.
Proof. sextet. Qed.

Lemma nibble (y : N) : (y <= 255 -> y / 16 < 16)%N.
Proof. intros. sextet. Qed.

Lemma crumb (z : N) : (z <= 255 -> z / 64 < 4)%N.
Proof. intros. sextet. Qed.

(** Putting the groups back together gives the bytes. *)
Lemma join1 (x q : N) : (q < 16 -> x / 4 * 4 + (x mod 4 * 16 + q) / 16 = x)%N.
Proof. intros. sextet. Qed.

Lemma join1_pad (x : N) : (x / 4 * 4 + (x mod 4 * 16) / 16 = x)%N.
Proof. sextet. Qed.

Lemma join2 (x y q : N) :
  (y <= 255 -> q < 4 ->
   (x mod 4 * 16 + y / 16) mod 16 * 16 + (y mod 16 * 4 + q) / 4 = y)%N.
Proof. intros. sextet. Qed.

Lemma join2_pad (x y : N) :
  (y <= 255 -> (x mod 4 * 16 + y / 16) mod 16 * 16 + (y mod 16 * 4) / 4 = y)%N.
Proof. intros. sextet. Qed.

Lemma join3 (y z : N) :
  (z <= 255 -> (y mod 16 * 4 + z / 64) mod 4 * 64 + z mod 64 = z)%N.
Proof. intros. sextet. Qed.

Create HintDb sextets.
#[local] Hint Resolve top6 mid6 mid6_pad low6 low6_pad last6 nibble crumb
  Byte.to_N_bounded : sextets.

Ltac six := auto with sextets.

(** One step of the decoder on an encoded group: look a character up,
    tell it from the padding, or reassemble a byte. *)
Ltac regroup :=
  repeat (cbn [mbind option_bind];
          first [ rewrite index_char by six
                | rewrite char_not_pad by six
                | rewrite Ascii.eqb_refl
                | rewrite join1_pad
                | rewrite join1 by six
                | rewrite join2_pad by six
                | rewrite join2 by six
                | rewrite join3 by six
                | rewrite Byte.of_to_N ]);
  cbn [mbind option_bind].

Lemma decode_encode_below (n : nat) (bs : list byte) :
  (length bs < n)%nat -> decode (encode bs) = Some bs.
Proof.
  revert bs. induction n as [|n IH]; intros bs Hlen; [lia|].
  destruct bs as [|a [|b [|c rest]]]; [reflexivity| | |];
    cbn [encode decode]; unfold byte1, byte2, byte3, pad.
  - regroup. reflexivity.
  - regroup. reflexivity.
  - regroup. rewrite IH by (simpl in Hlen; lia). reflexivity.
Qed.

Lemma decode_encode (bs : list byte) : decode (encode bs) = Some bs.
Proof. apply (decode_encode_below (S (length bs))). lia. Qed.

Lemma b64decode_b64encode (bs : list byte) : b64decode (b64encode bs) = Some bs.
Proof.
  unfold b64decode, b64encode. rewrite list_ascii_of_string_of_list_ascii.
  apply decode_encode.
Qed.

End Base64Lemmas.

(* ===================================================================== *)
(** ** Version comparison *)
(* ===================================================================== *)

(** [int] and the integer literals. *)
Section IntLemmas.

Lemma is_blank_spec (c : ascii) : Py.is_blank c = true <-> int_blank c.
Proof.
  unfold int_blank. split.
  - destruct c as [[|] [|] [|] [|] [|] [|] [|] [|]]; vm_compute;
      intros H; try discriminate; tauto.
  - intros H. repeat (destruct H as [<-|H]; [reflexivity|]). destruct H.
Qed.

Lemma digit_of_spec (c : ascii) (d : Z) :
  Py.digit_of c = Some d <-> decimal_digit c d.
Proof.
  unfold decimal_digit. split.
  - destruct c as [[|] [|] [|] [|] [|] [|] [|] [|]]; vm_compute;
      intros H; try discriminate; injection H as <-; tauto.
  - intros H. repeat (destruct H as [[= <- <-]|H]; [reflexivity|]). destruct H.
Qed.


Lemma digit_not_blank c d : decimal_digit c d -> Py.is_blank c = false.
Proof.
  unfold decimal_digit. intros H.
  repeat (destruct H as [[= <- <-]|H]; [reflexivity|]). destruct H.
Qed.

Lemma digit_not_sign c d :
  decimal_digit c d -> Ascii.eqb c "-" = false /\ Ascii.eqb c "+" = false.
Proof.
  unfold decimal_digit. intros H.
  repeat (destruct H as [[= <- <-]|H]; [split; reflexivity|]). destruct H.
Qed.

Lemma skip_blanks_split (l : list ascii) :
  exists p, l = p ++ Py.skip_blanks l /\ Forall int_blank p.
Proof.
  induction l as [|c l (p & IH & Hp)]; simpl.
  - exists []. split; [reflexivity|constructor].
  - destruct (Py.is_blank c) eqn:Hc.
    + exists (c :: p). split; [simpl; congruence|].
      constructor; [apply is_blank_spec, Hc|exact Hp].
    + exists []. split; [reflexivity|constructor].
Qed.

Lemma skip_blanks_app (p l : list ascii) :
  Forall int_blank p -> Py.skip_blanks (p ++ l) = Py.skip_blanks l.
Proof.
  induction 1 as [|c p Hc _ IH]; simpl; [reflexivity|].
  apply is_blank_spec in Hc. rewrite Hc. exact IH.
Qed.

Lemma trim_blanks_split (l : list ascii) :
  exists lead trail,
    l = lead ++ Py.trim_blanks l ++ trail /\
    Forall int_blank lead /\ Forall int_blank trail.
Proof.
  unfold Py.trim_blanks.
  destruct (skip_blanks_split l) as (p & Hl & Hp).
  destruct (skip_blanks_split (rev (Py.skip_blanks l))) as (q & Hm & Hq).
  exists p, (rev q). split; [|split; [exact Hp|]].
  - rewrite <- rev_app_distr, <- Hm, rev_involutive. exact Hl.
  - apply Forall_rev. exact Hq.
Qed.

Lemma trim_blanks_framed (lead trail body : list ascii) (c y : ascii) (z x : list ascii) :
  Forall int_blank lead -> Forall int_blank trail ->
  body = c :: z -> body = x ++ [y] ->
  Py.is_blank c = false -> Py.is_blank y = false ->
  Py.trim_blanks (lead ++ body ++ trail) = body.
Proof.
  intros Hlead Htrail Hhead Hlast Hc Hy. unfold Py.trim_blanks.
  rewrite skip_blanks_app by exact Hlead.
  assert (Py.skip_blanks (body ++ trail) = body ++ trail) as ->.
  { rewrite Hhead. simpl. rewrite Hc. reflexivity. }
  rewrite rev_app_distr, skip_blanks_app by (apply Forall_rev; exact Htrail).
  assert (Py.skip_blanks (rev body) = rev body) as ->.
  { rewrite Hlast, rev_app_distr. simpl. rewrite Hy. reflexivity. }
  apply rev_involutive.
Qed.

(** What [digits] accepts: a run of digits, then groups that each start
    with an underscore. *)
Lemma digits_sound (l : list ascii) : forall (acc : Z) (after : bool) (v : Z),
  Py.digits acc after l = Some v ->
  exists (g : list ascii) (gs : list (list ascii)) (ds : list Z),
    l = g ++ underscored gs /\
    (after = false -> g <> []) /\
    Forall (fun g => g <> []) gs /\
    Forall2 decimal_digit (g ++ concat gs) ds /\
    v = foldl (fun acc d => 10 * acc + d) acc ds /\
    Py.count_digits l = length ds.
Proof.
  induction l as [|c l IH]; intros acc after v H; simpl in H.
  - destruct after; [|discriminate]. injection H as <-.
    exists [], [], []. repeat split; try constructor. discriminate.
  - destruct (Py.digit_of c) as [d|] eqn:Hd.
    + destruct (IH _ _ _ H) as (g & gs & ds & -> & _ & Hgs & Hds & -> & Hn).
      exists (c :: g), gs, (d :: ds). repeat split.
      * discriminate.
      * exact Hgs.
      * simpl. constructor; [apply digit_of_spec, Hd|exact Hds].
      * simpl. rewrite Hd, Hn. reflexivity.
    + destruct (Py.is_underscore c) eqn:Hu; [|discriminate].
      destruct after; [|discriminate]. simpl in H.
      apply Ascii.eqb_eq in Hu. subst c.
      destruct (IH _ _ _ H) as (g & gs & ds & -> & Hg & Hgs & Hds & -> & Hn).
      exists [], (g :: gs), ds. repeat split.
      * discriminate.
      * constructor; [apply Hg; reflexivity|exact Hgs].
      * exact Hds.
      * simpl. rewrite Hn. reflexivity.
Qed.

Lemma digits_run (g : list ascii) : forall (ds : list Z) (rest : list ascii) (acc : Z) (after : bool),
  Forall2 decimal_digit g ds ->
  Py.digits acc after (g ++ rest) =
    Py.digits (foldl (fun acc d => 10 * acc + d) acc ds)
              (match g with [] => after | _ :: _ => true end) rest.
Proof.
  induction g as [|c g IH]; intros ds rest acc after H; inversion H as [|? d ? ds' Hc Hg]; subst.
  - reflexivity.
  - simpl. apply digit_of_spec in Hc. rewrite Hc.
    rewrite (IH ds' rest _ true Hg). destruct g; reflexivity.
Qed.

Lemma count_digits_run (g : list ascii) (ds : list Z) (rest : list ascii) :
  Forall2 decimal_digit g ds ->
  Py.count_digits (g ++ rest) = (length ds + Py.count_digits rest)%nat.
Proof.
  induction 1 as [|c d g ds Hc _ IH]; simpl; [reflexivity|].
  apply digit_of_spec in Hc. rewrite Hc, IH. reflexivity.
Qed.

Lemma digits_complete (gs : list (list ascii)) : forall (g : list ascii) (ds : list Z) (acc : Z) (after : bool),
  (after = false -> g <> []) ->
  Forall (fun g => g <> []) gs ->
  Forall2 decimal_digit (g ++ concat gs) ds ->
  Py.digits acc after (g ++ underscored gs)
    = Some (foldl (fun acc d => 10 * acc + d) acc ds) /\
  Py.count_digits (g ++ underscored gs) = length ds.
Proof.
  induction gs as [|g' gs IH]; intros g ds acc after Hg Hgs Hds.
  - simpl in Hds. rewrite app_nil_r in Hds.
    change (underscored []) with (@nil ascii).
    rewrite (digits_run g ds [] acc after Hds).
    rewrite (count_digits_run g ds [] Hds).
    split; [|simpl; lia].
    simpl. destruct g; [|reflexivity].
    destruct after; [reflexivity|]. exfalso. apply Hg; reflexivity.
  - simpl in Hds. apply Forall2_app_inv_l in Hds.
    destruct Hds as (ds1 & ds2 & Hds1 & Hds2 & ->).
    inversion Hgs as [|? ? Hg' Hgs']; subst.
    unfold underscored. simpl. fold (underscored gs).
    rewrite (digits_run g ds1 _ acc after Hds1).
    rewrite (count_digits_run g ds1 _ Hds1).
    assert ((match g with [] => after | _ :: _ => true end) = true) as ->.
    { destruct g; [|reflexivity]. destruct after; [reflexivity|].
      exfalso. apply Hg; reflexivity. }
    simpl.
    destruct (IH g' ds2 (foldl (fun acc d => 10 * acc + d) acc ds1) false
                (fun _ => Hg') Hgs' Hds2) as [Hrun Hcount].
    rewrite Hrun, Hcount, foldl_app, length_app. split; reflexivity.
Qed.


Lemma unsigned_sound (l : list ascii) (v : Z) :
  Py.unsigned l = Some v ->
  exists (first : list ascii) (more : list (list ascii)) (ds : list Z),
    l = first ++ underscored more /\
    Forall (fun g => g <> []) (first :: more) /\
    Forall2 decimal_digit (first ++ concat more) ds /\
    (length ds <= 4300)%nat /\
    v = decimal_value ds.
Proof.
  unfold Py.unsigned. destruct (Py.digits 0 false l) as [n|] eqn:Hrun; [|discriminate].
  destruct (Nat.ltb_spec Py.MAX_STR_DIGITS (Py.count_digits l)) as [|Hle];
    [discriminate|]. intros [= <-].
  destruct (digits_sound l _ _ _ Hrun) as (g & gs & ds & Hl & Hg & Hgs & Hds & Hv & Hn).
  exists g, gs, ds. repeat split; try assumption.
  - constructor; [apply Hg; reflexivity|exact Hgs].
  - rewrite <- Hn. exact Hle.
Qed.

Lemma unsigned_complete (first : list ascii) (more : list (list ascii)) (ds : list Z) :
  Forall (fun g => g <> []) (first :: more) ->
  Forall2 decimal_digit (first ++ concat more) ds ->
  (length ds <= 4300)%nat ->
  Py.unsigned (first ++ underscored more) = Some (decimal_value ds).
Proof.
  intros Hgroups Hds Hlen. inversion Hgroups as [|? ? Hfirst Hmore]; subst.
  destruct (digits_complete more first ds 0 false (fun _ => Hfirst) Hmore Hds)
    as [Hrun Hcount].
  unfold Py.unsigned. rewrite Hrun, Hcount.
  destruct (Nat.ltb_spec Py.MAX_STR_DIGITS (length ds)) as [Hlt|]; [|reflexivity].
  unfold Py.MAX_STR_DIGITS in Hlt. lia.
Qed.

Lemma all_digits (l : list ascii) (ds : list Z) (c : ascii) :
  Forall2 decimal_digit l ds -> In c l -> exists d, decimal_digit c d.
Proof.
  induction 1 as [|x d l ds Hx _ IH]; simpl; [intros []|intros [<-|Hin]].
  - exists d. exact Hx.
  - apply IH, Hin.
Qed.

Lemma last_of_nonempty {A} (l : list A) : l <> [] -> exists x y, l = x ++ [y].
Proof.
  intros H. destruct (exists_last H) as (x & y & ->). exists x, y. reflexivity.
Qed.

(** A literal without its sign starts and ends with a digit. *)
Lemma literal_ends (first : list ascii) (more : list (list ascii)) (ds : list Z) :
  Forall (fun g => g <> []) (first :: more) ->
  Forall2 decimal_digit (first ++ concat more) ds ->
  (exists c d z, first ++ underscored more = c :: z /\ decimal_digit c d) /\
  (exists y d x, first ++ underscored more = x ++ [y] /\ decimal_digit y d).
Proof.
  intros Hgroups Hds. inversion Hgroups as [|? ? Hfirst Hmore]; subst.
  pose proof (fun c => all_digits _ ds c Hds) as Hall.
  split.
  - destruct first as [|c z]; [contradiction|].
    destruct (Hall c) as [d Hd]; [left; reflexivity|].
    exists c, d, (z ++ underscored more). split; [reflexivity|exact Hd].
  - destruct more as [|g more _] using rev_ind.
    + destruct (last_of_nonempty first Hfirst) as (x & y & ->).
      destruct (Hall y) as [d Hd].
      { simpl. rewrite app_nil_r. apply in_app_iff. right. left. reflexivity. }
      exists y, d, x. split; [|exact Hd].
      change (underscored []) with (@nil ascii). rewrite app_nil_r. reflexivity.
    + apply Forall_app in Hmore. destruct Hmore as [_ Hg].
      inversion Hg as [|? ? Hg' _]; subst.
      destruct (last_of_nonempty g Hg') as (x & y & ->).
      destruct (Hall y) as [d Hd].
      { rewrite concat_app. simpl. rewrite app_nil_r, !in_app_iff.
        right. right. right. left. reflexivity. }
      exists y, d, (first ++ underscored more ++ "_"%char :: x).
      split; [|exact Hd].
      unfold underscored. rewrite map_app, concat_app. simpl.
      rewrite app_nil_r, <- !app_assoc. reflexivity.
Qed.

(** [int] accepts exactly the integer literals, with their values. *)
Lemma int_spec (s : string) (n : Z) : Py.int s = Some n <-> int_literal s n.
Proof.
  unfold Py.int, int_literal. split.
  - destruct (trim_blanks_split (list_ascii_of_string s))
      as (lead & trail & Hs & Hlead & Htrail).
    destruct (Py.trim_blanks (list_ascii_of_string s)) as [|c l]; [discriminate|].
    destruct (Ascii.eqb_spec c "-") as [->|Hminus];
      [|destruct (Ascii.eqb_spec c "+") as [->|Hplus]]; intros H.
    + destruct (Py.unsigned l) as [v|] eqn:Hv; [|discriminate].
      injection H as <-.
      destruct (unsigned_sound l v Hv) as (first & more & ds & -> & Hg & Hds & Hlen & ->).
      exists lead, trail, ["-"%char], first, more, (-1), ds.
      split; [rewrite Hs; simpl; rewrite <- ?app_assoc; reflexivity|].
      repeat (split; [first [assumption | simpl; tauto]|]). lia.
    + destruct (unsigned_sound l n H) as (first & more & ds & -> & Hg & Hds & Hlen & ->).
      exists lead, trail, ["+"%char], first, more, 1, ds.
      split; [rewrite Hs; simpl; rewrite <- ?app_assoc; reflexivity|].
      repeat (split; [first [assumption | simpl; tauto]|]). lia.
    + destruct (unsigned_sound _ n H) as (first & more & ds & Hl & Hg & Hds & Hlen & ->).
      exists lead, trail, [], first, more, 1, ds.
      split; [rewrite Hs, Hl; simpl; rewrite <- ?app_assoc; reflexivity|].
      repeat (split; [first [assumption | simpl; tauto]|]). lia.
  - intros (lead & trail & sign & first & more & factor & ds
            & Hs & Hlead & Htrail & Hsign & Hg & Hds & Hlen & ->).
    destruct (literal_ends first more ds Hg Hds)
      as [(c & d & z & Hhead & Hc) (y & e & x & Hlast & Hy)].
    pose proof (unsigned_complete first more ds Hg Hds Hlen) as Hrun.
    assert (Py.trim_blanks (list_ascii_of_string s)
            = sign ++ first ++ underscored more) as ->.
    { rewrite Hs.
      replace (lead ++ sign ++ first ++ underscored more ++ trail)
        with (lead ++ (sign ++ first ++ underscored more) ++ trail)
        by (rewrite <- !app_assoc; reflexivity).
      destruct Hsign as [[= <- <-]|[[= <- <-]|[[= <- <-]|[]]]].
      - apply (trim_blanks_framed _ _ _ c y z x); try assumption.
        + eapply digit_not_blank, Hc.
        + eapply digit_not_blank, Hy.
      - apply (trim_blanks_framed _ _ _ "+"%char y (first ++ underscored more)
                 ("+"%char :: x)); try assumption; try reflexivity.
        + simpl. rewrite Hlast. reflexivity.
        + eapply digit_not_blank, Hy.
      - apply (trim_blanks_framed _ _ _ "-"%char y (first ++ underscored more)
                 ("-"%char :: x)); try assumption; try reflexivity.
        + simpl. rewrite Hlast. reflexivity.
        + eapply digit_not_blank, Hy. }
    destruct Hsign as [[= <- <-]|[[= <- <-]|[[= <- <-]|[]]]]; simpl.
    + rewrite Hhead in *. destruct (digit_not_sign c d Hc) as [-> ->].
      rewrite Hrun. f_equal. lia.
    + rewrite Hrun. first [reflexivity | f_equal; lia].
    + rewrite Hrun. simpl. first [reflexivity | f_equal; lia].
Qed.

End IntLemmas.

(** [split] and the components of a dotted string. *)
Section SplitLemmas.

Lemma split_not_nil (sep : ascii) (s : string) : Py.split sep s <> [].
Proof.
  destruct s as [|c s]; simpl; [discriminate|].
  destruct (Ascii.eqb c sep); [discriminate|].
  destruct (Py.split sep s); discriminate.
Qed.

Lemma split_components (s : string) : components s (Py.split "." s).
Proof.
  unfold components. split; [|split; [apply split_not_nil|]].
  - induction s as [|c s IH]; simpl; [reflexivity|].
    destruct (Ascii.eqb_spec c ".") as [->|Hc].
    + pose proof (split_not_nil "." s) as Hne.
      destruct (Py.split "." s) as [|w ws]; [contradiction|].
      simpl. rewrite IH at 1. reflexivity.
    + pose proof (split_not_nil "." s) as Hne.
      destruct (Py.split "." s) as [|w ws]; [contradiction|].
      rewrite IH at 1. destruct ws; reflexivity.
  - induction s as [|c s IH]; simpl.
    + constructor; [intros []|constructor].
    + destruct (Ascii.eqb_spec c ".") as [->|Hc].
      * constructor; [intros []|exact IH].
      * pose proof (split_not_nil "." s) as Hne.
        destruct (Py.split "." s) as [|w ws]; [contradiction|].
        inversion IH as [|? ? Hw Hws]; subst.
        constructor; [|exact Hws].
        simpl. intros [->|Hin]; [apply Hc; reflexivity|apply Hw, Hin].
Qed.

Lemma split_piece (x : string) (tail : string) :
  ~ In "."%char (list_ascii_of_string x) ->
  Py.split "." (String.append x (String "." tail)) = x :: Py.split "." tail.
Proof.
  induction x as [|c x IH]; simpl; intros Hx; [reflexivity|].
  destruct (Ascii.eqb_spec c ".") as [->|Hc]; [exfalso; apply Hx; left; reflexivity|].
  rewrite IH by (intros Hin; apply Hx; right; exact Hin). reflexivity.
Qed.

Lemma split_last (x : string) :
  ~ In "."%char (list_ascii_of_string x) -> Py.split "." x = [x].
Proof.
  induction x as [|c x IH]; simpl; intros Hx; [reflexivity|].
  destruct (Ascii.eqb_spec c ".") as [->|Hc]; [exfalso; apply Hx; left; reflexivity|].
  rewrite IH by (intros Hin; apply Hx; right; exact Hin). reflexivity.
Qed.

(** [split] gives the components, and nothing else does. *)
Lemma split_spec (s : string) (xs : list string) :
  Py.split "." s = xs <-> components s xs.
Proof.
  split; [intros <-; apply split_components|].
  intros (-> & Hne & Hfree).
  induction xs as [|x xs IH]; [contradiction|].
  inversion Hfree as [|? ? Hx Hxs]; subst.
  destruct xs as [|x' xs]; [apply split_last, Hx|].
  change (dotted (x :: x' :: xs))
    with (String.append x (String "." (dotted (x' :: xs)))).
  rewrite (split_piece x _ Hx), IH; [reflexivity|discriminate|exact Hxs].
Qed.

End SplitLemmas.

Section VersionLemmas.

Lemma ints_Some (xs : list string) (ns : list Z) :
  Py.ints xs = Some ns <-> Forall2 (fun x n => Py.int x = Some n) xs ns.
Proof.
  revert ns. induction xs as [|x xs IH]; intros ns; simpl.
  - split.
    + intros [= <-]. constructor.
    + intros H. inversion H. reflexivity.
  - split.
    + destruct (Py.int x) as [n|] eqn:Hx; [|discriminate].
      destruct (Py.ints xs) as [ms|] eqn:Hxs; [|discriminate].
      intros [= <-]. constructor; [assumption|]. apply IH. reflexivity.
    + intros H. inversion H as [|? n ? ms Hn Hms]; subst.
      rewrite Hn. apply IH in Hms. rewrite Hms. reflexivity.
Qed.

Lemma ints_None (xs : list string) :
  Py.ints xs = None <-> Exists (fun x => Py.int x = None) xs.
Proof.
  induction xs as [|x xs IH]; simpl.
  - split; [discriminate|]. intros H. inversion H.
  - destruct (Py.int x) as [n|] eqn:Hx.
    + destruct (Py.ints xs) as [ms|] eqn:Hxs.
      * split; [discriminate|].
        intros H. inversion H as [? ? Hbad|? ? Hbad]; subst.
        -- congruence.
        -- apply IH in Hbad. discriminate.
      * split; [|reflexivity]. intros _. apply Exists_cons_tl.
        apply IH. reflexivity.
    + split; [|reflexivity]. intros _. apply Exists_cons_hd. assumption.
Qed.

Lemma parses_to_ints (s : string) (ns : list Z) :
  parses_to s ns <-> Py.ints (Py.split "."%char s) = Some ns.
Proof.
  unfold parses_to. rewrite ints_Some. split.
  - intros (xs & Hxs & Hns). apply split_spec in Hxs. rewrite Hxs.
    eapply Forall2_impl; [exact Hns|]. intros x n. apply int_spec.
  - intros Hns. exists (Py.split "."%char s). split; [apply split_components|].
    eapply Forall2_impl; [exact Hns|]. intros x n. apply int_spec.
Qed.

Lemma has_non_numeric_ints (s : string) :
  has_non_numeric s <-> Py.ints (Py.split "."%char s) = None.
Proof.
  assert (forall x, Py.int x = None <-> forall n, ~ int_literal x n) as Hnone.
  { intros x. split.
    - intros Hx n Hn. apply int_spec in Hn. congruence.
    - intros Hx. destruct (Py.int x) as [n|] eqn:Hn; [|reflexivity].
      apply int_spec in Hn. destruct (Hx n Hn). }
  unfold has_non_numeric. rewrite ints_None. split.
  - intros (xs & Hxs & Hbad). apply split_spec in Hxs. rewrite Hxs.
    eapply Exists_impl; [exact Hbad|]. intros x. apply Hnone.
  - intros Hbad. exists (Py.split "."%char s). split; [apply split_components|].
    eapply Exists_impl; [exact Hbad|]. intros x. apply Hnone.
Qed.

Lemma compare_loop_true (cs ls : list Z) :
  compare_loop (Py.zip cs ls) = true <-> first_difference_favours_latest cs ls.
Proof.
  unfold first_difference_favours_latest.
  revert ls. induction cs as [|c0 cs IH]; intros ls.
  - simpl. split; [discriminate|]. intros (i & c & l & Hc & _). discriminate.
  - destruct ls as [|l0 ls].
    + simpl. split; [discriminate|]. intros (i & c & l & _ & Hl & _). discriminate.
    + simpl. destruct (Z.gtb_spec l0 c0) as [Hgt|Hle].
      * split; [intros _|reflexivity].
        exists 0%nat, c0, l0. repeat split; try reflexivity; try lia.
      * destruct (Z.ltb_spec l0 c0) as [Hlt|Hge].
        -- split; [discriminate|].
           intros (i & c & l & Hc & Hl & Hcl & Hpre).
           destruct i as [|i].
           ++ simpl in Hc, Hl. injection Hc as ->. injection Hl as ->. lia.
           ++ specialize (Hpre 0%nat ltac:(lia)). simpl in Hpre.
              injection Hpre as ->. lia.
        -- assert (l0 = c0) as -> by lia. rewrite IH. split.
           ++ intros (i & c & l & Hc & Hl & Hcl & Hpre).
              exists (S i), c, l. repeat split; try assumption.
              intros [|j] Hj; [reflexivity|]. simpl. apply Hpre. lia.
           ++ intros (i & c & l & Hc & Hl & Hcl & Hpre).
              destruct i as [|i].
              ** simpl in Hc, Hl. injection Hc as ->. injection Hl as ->. lia.
              ** exists i, c, l. repeat split; try assumption.
                 intros j Hj. apply (Hpre (S j)). lia.
Qed.

Lemma compare_loop_no_difference (cs ls : list Z) :
  no_difference_in_prefix cs ls -> compare_loop (Py.zip cs ls) = false.
Proof.
  intros Hsame. apply not_true_is_false. rewrite compare_loop_true.
  intros (i & c & l & Hc & Hl & Hcl & _).
  specialize (Hsame i c l Hc Hl). lia.
Qed.

End VersionLemmas.

(** C2.  [compare_versions] splits both strings on ['.'] and parses every
    component with [int].  When all components are integer literals, the
    result is [true] exactly when the first position (within the shorter
    length) where the numbers differ holds a larger number in [latest],
    and it is [false] when no such position differs; in particular
    [("2.1", "2.1.0")] gives [false], [("2.1.0", "2.1.1")] gives [true]
    and [("2.1.1", "2.1.0")] gives [false].  When a component of either
    string is not an integer literal, the result is the string inequality
    [current != latest].  Every string falls under one of the two cases.
    An integer literal is what [int] accepts: blanks (tab to carriage
    return, and the space) at both ends, at most one sign, groups of
    digits separated by single underscores, and at most 4300 digits. *)
Theorem compare_versions_first_difference (current latest : string) :
  (forall cs ls : list Z,
      parses_to current cs -> parses_to latest ls ->
      (compare_versions current latest = true <->
         first_difference_favours_latest cs ls) /\
      (no_difference_in_prefix cs ls ->
         compare_versions current latest = false)) /\
  (has_non_numeric current \/ has_non_numeric latest ->
      compare_versions current latest = negb (String.eqb current latest)) /\
  (forall s, (exists ns, parses_to s ns) \/ has_non_numeric s) /\
  compare_versions "2.1" "2.1.0" = false /\
  compare_versions "2.1.0" "2.1.1" = true /\
  compare_versions "2.1.1" "2.1.0" = false.
Proof.
  split; [|split; [|split; [|repeat split; reflexivity]]].
  - intros cs ls Hc Hl.
    apply parses_to_ints in Hc. apply parses_to_ints in Hl.
    unfold compare_versions. rewrite Hc, Hl. split.
    + apply compare_loop_true.
    + apply compare_loop_no_difference.
  - unfold compare_versions.
    intros [H|H]; apply has_non_numeric_ints in H; rewrite H; [reflexivity|].
    destruct (Py.ints (Py.split "."%char current)); reflexivity.
  - intros s. destruct (Py.ints (Py.split "."%char s)) as [ns|] eqn:Hs.
    + left. exists ns. apply parses_to_ints, Hs.
    + right. apply has_non_numeric_ints, Hs.
Qed.

Lemma compare_versions_first_difference_witness :
  compare_versions "2.0.9" "2.1" = true /\
  compare_versions "3.1" "3.1.4" = false /\
  compare_versions "2.x" "2.1" = true /\
  compare_versions (String "028" "2") "1" = true.
Proof.
  split; [|split; [|split]].
  - apply (proj1 (compare_versions_first_difference "2.0.9" "2.1")
             [2; 0; 9] [2; 1]).
    + apply parses_to_ints. reflexivity.
    + apply parses_to_ints. reflexivity.
    + exists 1%nat, 0, 1. repeat split; try reflexivity.
      intros [|j] Hj; [reflexivity|lia].
  - apply (proj1 (compare_versions_first_difference "3.1" "3.1.4")
             [3; 1] [3; 1; 4]).
    + apply parses_to_ints. reflexivity.
    + apply parses_to_ints. reflexivity.
    + intros [|[|i]] c l Hc Hl; vm_compute in Hc, Hl; congruence.
  - apply (proj1 (proj2 (compare_versions_first_difference "2.x" "2.1"))).
    left. apply has_non_numeric_ints. reflexivity.
  - apply (proj1 (proj2 (compare_versions_first_difference (String "028" "2") "1"))).
    left. apply has_non_numeric_ints. reflexivity.
Defined.

(* ===================================================================== *)
(** ** The chunk sequence of a transfer *)
(* ===================================================================== *)

Section WorldLemmas.

Lemma sessions_with_written f w : sessions (with_written f w) = sessions w.
Proof. reflexivity. Qed.

Lemma sessions_emit e w : sessions (emit e w) = sessions w.
Proof. reflexivity. Qed.

Lemma wire_emit e w : wire (emit e w) = wire w.
Proof. reflexivity. Qed.

Lemma wire_with_written f w :
  link_up w -> wire (with_written f w) = f (wire w).
Proof.
  intros (_ & port & Hport & _). unfold wire, with_written. simpl.
  rewrite Hport. reflexivity.
Qed.

Lemma link_up_with_written f w : link_up w -> link_up (with_written f w).
Proof.
  intros (Hconn & port & Hport & Hok). split; [exact Hconn|].
  simpl. rewrite Hport. simpl. eexists. split; [reflexivity|]. exact Hok.
Qed.

Lemma link_up_emit e w : link_up w -> link_up (emit e w).
Proof. intros H. exact H. Qed.

Lemma send_command_link_up command w :
  link_up w ->
  send_command command w = (with_written (fun out => out ++ [command]) w, true).
Proof.
  intros (Hconn & port & Hport & Hok). unfold send_command.
  rewrite Hconn, Hport, Hok. reflexivity.
Qed.

Lemma send_command_sessions command w :
  sessions (fst (send_command command w)) = sessions w.
Proof.
  unfold send_command. destruct (connected _); [|reflexivity]. simpl.
  destruct (ser _) as [port|]; [|reflexivity].
  destruct (write_fails port); reflexivity.
Qed.

End WorldLemmas.

Section ChunkLemmas.

Lemma slice_in_range {A} (l : list A) (lo hi : Z) :
  0 <= lo <= hi -> hi <= Z.of_nat (length l) ->
  Py.slice l lo hi = take (Z.to_nat (hi - lo)) (drop (Z.to_nat lo) l).
Proof.
  intros Hlo Hhi. unfold Py.slice, Py.clamp_index.
  destruct (Z.ltb_spec lo 0); [lia|]. destruct (Z.ltb_spec hi 0); [lia|].
  rewrite !Z.min_l by lia. reflexivity.
Qed.

(** The slice that [send_ota_chunk] takes is the chunk of the index. *)
Lemma slice_chunk_bytes (F : list byte) (C idx : Z) :
  0 < C -> 0 <= idx -> idx * C < Z.of_nat (length F) ->
  Py.slice F (idx * C) (Z.min (idx * C + C) (Z.of_nat (length F)))
  = chunk_bytes F C idx.
Proof.
  intros HC Hidx Hlt. rewrite slice_in_range by nia.
  unfold chunk_bytes. do 2 f_equal. lia.
Qed.

(** A chunk is the next [C] bytes, or what is left of them. *)
Lemma chunk_bytes_take_drop (F : list byte) (c i : nat) :
  chunk_bytes F (Z.of_nat c) (Z.of_nat i) = take c (drop (i * c) F).
Proof.
  unfold chunk_bytes.
  replace (Z.to_nat (Z.of_nat i * Z.of_nat c)) with (i * c)%nat by lia.
  destruct (Z.le_gt_cases ((Z.of_nat i + 1) * Z.of_nat c) (Z.of_nat (length F)))
    as [Hfull|Hshort].
  - f_equal. lia.
  - rewrite Z.min_r by lia.
    rewrite !take_ge; [reflexivity| |]; rewrite length_drop; lia.
Qed.

Lemma concat_takes (c n : nat) (F : list byte) :
  (length F <= n * c)%nat ->
  concat (map (fun i => take c (drop (i * c) F)) (seq 0 n)) = F.
Proof.
  revert F. induction n as [|n IH]; intros F Hlen.
  - destruct F; [reflexivity|simpl in Hlen; lia].
  - rewrite <- cons_seq, <- seq_shift. cbn [map concat].
    rewrite map_map, Nat.mul_0_l, drop_0.
    rewrite <- (take_drop c F) at 2. f_equal.
    etrans; [|apply (IH (drop c F)); rewrite length_drop; lia].
    f_equal. apply map_ext. intros i.
    rewrite drop_drop. reflexivity.
Qed.

Lemma chunk_count_covers (F : list byte) (c : nat) :
  (0 < c)%nat ->
  (length F <= chunk_count F (Z.of_nat c) * c)%nat /\
  forall i, (i < chunk_count F (Z.of_nat c))%nat ->
            Z.of_nat i * Z.of_nat c < Z.of_nat (length F).
Proof.
  intros Hc. unfold chunk_count.
  set (len := Z.of_nat (length F)). set (C := Z.of_nat c).
  assert (0 < C) as HC by lia. assert (0 <= len) as Hlen by lia.
  pose proof (Z.div_mod (len + C - 1) C ltac:(lia)) as Hdm.
  pose proof (Z.mod_pos_bound (len + C - 1) C HC) as Hmod.
  assert (0 <= (len + C - 1) / C) as Hq by (apply Z.div_pos; lia).
  split.
  - apply Nat2Z.inj_le. rewrite Nat2Z.inj_mul, Z2Nat.id by lia. fold len C. nia.
  - intros i Hi. apply Nat2Z.inj_lt in Hi. rewrite Z2Nat.id in Hi by lia. nia.
Qed.

(** All chunks of a firmware, in ascending order, make the firmware. *)
Lemma concat_chunk_bytes (F : list byte) (C : Z) :
  0 < C ->
  concat (map (chunk_bytes F C) (map Z.of_nat (seq 0 (chunk_count F C)))) = F.
Proof.
  intros HC. rewrite map_map.
  rewrite <- (Z2Nat.id C) by lia. set (c := Z.to_nat C).
  rewrite (map_ext _ _ (chunk_bytes_take_drop F c)).
  apply concat_takes, chunk_count_covers. lia.
Qed.

End ChunkLemmas.

Section TransferLemmas.

Variables (node_id : Z) (session : Session).

Local Abbreviation F := (firmware_data session).
Local Abbreviation C := (chunk_size session).
Local Abbreviation len := (Z.of_nat (length (firmware_data session))).

Lemma send_ota_chunk_data (w : World) (idx : Z) :
  sessions w !! node_id = Some session -> 0 < C -> link_up w ->
  0 <= idx -> idx * C < len ->
  send_ota_chunk node_id idx w =
    (emit (ev_ota_progress (auto session) node_id idx
             (Z.min ((idx + 1) * C) len) len)
       (with_written (fun out => out ++ [chunk_frame node_id session idx]) w),
     Some true).
Proof.
  intros Hs HC Hup Hidx Hlt. unfold send_ota_chunk. rewrite Hs.
  destruct (Z.geb_spec (idx * C) len) as [Hge|_]; [lia|].
  rewrite send_command_link_up by exact Hup.
  rewrite slice_chunk_bytes by assumption.
  destruct (Z.eqb_spec len 0) as [Hzero|_]; [lia|].
  unfold chunk_frame. do 3 f_equal. lia.
Qed.

Lemma send_ota_chunk_end (w : World) (idx : Z) :
  sessions w !! node_id = Some session -> link_up w -> idx * C >= len ->
  send_ota_chunk node_id idx w =
    (with_written (fun out => out ++ [ota_end node_id]) w, Some true).
Proof.
  intros Hs Hup Hge. unfold send_ota_chunk. rewrite Hs.
  destruct (Z.geb_spec (idx * C) len) as [_|Hlt]; [|lia].
  rewrite send_command_link_up by exact Hup. reflexivity.
Qed.

Lemma request_chunks_wire (idxs : list Z) (w : World) :
  sessions w !! node_id = Some session -> 0 < C -> link_up w ->
  Forall (fun idx => 0 <= idx /\ idx * C < len) idxs ->
  let w' := request_chunks node_id idxs w in
  wire w' = wire w ++ map (chunk_frame node_id session) idxs /\
  sessions w' = sessions w /\ link_up w'.
Proof.
  intros Hs HC Hup Hall. revert w Hs Hup.
  induction Hall as [|idx idxs [Hidx Hlt] _ IH]; intros w Hs Hup; simpl.
  - rewrite app_nil_r. auto.
  - fold (request_chunks node_id idxs (handle_ota_next node_id idx w)).
    assert (handle_ota_next node_id idx w =
            emit (ev_ota_progress (auto session) node_id idx
                    (Z.min ((idx + 1) * C) len) len)
              (with_written
                 (fun out => out ++ [chunk_frame node_id session idx]) w))
      as ->.
    { unfold handle_ota_next. rewrite Hs.
      rewrite (send_ota_chunk_data w idx) by assumption. reflexivity. }
    set (w1 := emit _ _).
    assert (link_up w1) as Hup1
      by (apply link_up_emit, link_up_with_written, Hup).
    destruct (IH w1 Hs Hup1) as (Hwire & Hsess & Hup').
    split; [|split; [rewrite Hsess; reflexivity|exact Hup']].
    rewrite Hwire. unfold w1. rewrite wire_emit, wire_with_written by exact Hup.
    rewrite <- app_assoc. reflexivity.
Qed.

Lemma reassemble_chunk_frames (idxs : list Z) :
  reassemble (map (chunk_frame node_id session) idxs)
  = Some (concat (map (chunk_bytes F C) idxs)).
Proof.
  unfold reassemble.
  assert (mapM (fun f => payload f ≫= Base64.b64decode)
               (map (chunk_frame node_id session) idxs)
          = Some (map (chunk_bytes F C) idxs)) as ->; [|reflexivity].
  induction idxs as [|idx idxs IH]; [reflexivity|].
  cbn [map mapM]. rewrite IH. cbn [chunk_frame payload mbind option_bind].
  rewrite b64decode_b64encode. reflexivity.
Qed.

End TransferLemmas.

(** C1.  For a session of node [node_id] with firmware [F] and chunk size
    [C > 0] on a link that accepts writes: for an index [idx >= 0] with
    [idx*C < len(F)], [send_ota_chunk] writes the frame
    [ota_chunk{node_id, idx, data}] whose data is the base64 text of bytes
    [[idx*C, min((idx+1)*C, len(F)))] of [F]; for an index with
    [idx*C >= len(F)] it writes [ota_end{node_id}] and the session stays
    in the session store; and when the node asks for the indices
    [0 .. ceil(len(F)/C) - 1] in ascending order, the frames written are
    the chunk frames of these indices, and decoding and concatenating
    them gives [F], whether or not [len(F)] is a multiple of [C]. *)
Theorem chunk_round_trip (w : World) (node_id : Z) (session : Session) :
  sessions w !! node_id = Some session ->
  0 < chunk_size session ->
  link_up w ->
  let F := firmware_data session in
  let C := chunk_size session in
  let len := Z.of_nat (length F) in
  (forall idx, 0 <= idx -> idx * C < len ->
     send_ota_chunk node_id idx w =
       (emit (ev_ota_progress (auto session) node_id idx
                (Z.min ((idx + 1) * C) len) len)
          (with_written
             (fun out => out ++
                [ota_chunk node_id idx (Base64.b64encode (chunk_bytes F C idx))])
             w),
        Some true)) /\
  (forall idx, idx * C >= len ->
     send_ota_chunk node_id idx w =
       (with_written (fun out => out ++ [ota_end node_id]) w, Some true) /\
     sessions (fst (send_ota_chunk node_id idx w)) !! node_id = Some session) /\
  let idxs := map Z.of_nat (seq 0 (chunk_count F C)) in
  let w' := request_chunks node_id idxs w in
  wire w' =
    wire w ++
    map (fun idx => ota_chunk node_id idx (Base64.b64encode (chunk_bytes F C idx)))
        idxs /\
  sessions w' = sessions w /\
  reassemble (drop (length (wire w)) (wire w')) = Some F.
Proof.
  intros Hs HC Hup F C len. split; [|split].
  - intros idx Hidx Hlt. apply send_ota_chunk_data; assumption.
  - intros idx Hge.
    rewrite (send_ota_chunk_end node_id session w idx) by assumption.
    split; [reflexivity|]. exact Hs.
  - intros idxs w'.
    assert (Forall (fun idx => 0 <= idx /\ idx * C < len) idxs) as Hall.
    { apply Forall_forall. intros idx Hin.
      apply list_elem_of_In, in_map_iff in Hin. destruct Hin as (i & <- & Hi).
      apply in_seq in Hi. split; [lia|].
      pose proof (chunk_count_covers F (Z.to_nat C) ltac:(lia)) as [_ Hcov].
      rewrite Z2Nat.id in Hcov by lia. apply Hcov. lia. }
    destruct (request_chunks_wire node_id session idxs w Hs HC Hup Hall)
      as (Hwire & Hsess & _).
    fold w' in Hwire, Hsess. split; [exact Hwire|]. split; [exact Hsess|].
    rewrite Hwire, drop_app_length.
    change (map _ idxs) with (map (chunk_frame node_id session) idxs).
    rewrite reassemble_chunk_frames. f_equal.
    apply concat_chunk_bytes. exact HC.
Qed.

Lemma demo_link_up : link_up demo_world.
Proof. split; [reflexivity|]. eexists. split; reflexivity. Defined.

Lemma chunk_round_trip_witness :
  wire (request_chunks 7 [0; 1; 2] demo_world)
    = [ota_chunk 7 0 "AQI="; ota_chunk 7 1 "A/4="; ota_chunk 7 2 "/w=="] /\
  reassemble (wire (request_chunks 7 [0; 1; 2] demo_world)) = Some demo_firmware.
Proof.
  pose proof (chunk_round_trip demo_world 7 demo_session
                (lookup_singleton_eq 7 demo_session) eq_refl demo_link_up) as H.
  destruct H as (_ & _ & Hwire & _ & Hback).
  split; [exact Hwire|exact Hback].
Defined.

Example chunk_sizes_2600 :
  map (fun idx => length (chunk_bytes (repeat x00 2600) 1024 idx)) [0; 1; 2]
    = [1024; 1024; 552]%nat /\
  chunk_count (repeat x00 2600) 1024 = 3%nat /\
  chunk_count (repeat x00 2048) 1024 = 2%nat.
Proof. repeat split; vm_compute; reflexivity. Qed.

(* ===================================================================== *)
(** ** Triggers and the session store *)
(* ===================================================================== *)

(** C3, as stated, fails: a manual trigger for node 7, which has an active
    session holding [demo_firmware] for version 2.1.0, succeeds and leaves
    the store with a session holding the new file and version 9.9.9. *)
Lemma second_trigger_overwrites_session :
  sessions busy_world !! 7 = Some demo_session /\
  snd (ota_update_core 100 7 "9.9.9" "firmware_uploads/new.bin" "admin"
         busy_world) = http_ok 1 /\
  sessions (fst (ota_update_core 100 7 "9.9.9" "firmware_uploads/new.bin"
                   "admin" busy_world)) !! 7
    = Some (new_session 100 [xaa; xbb] "9.9.9" "Node_7" false) /\
  new_session 100 [xaa; xbb] "9.9.9" "Node_7" false <> demo_session.
Proof.
  split; [reflexivity|]. split; [reflexivity|]. split; [reflexivity|].
  discriminate.
Qed.

Section TriggerLemmas.

Variable sha256_hexdigest : list byte -> string.

Lemma link_up_with_sessions f w : link_up w -> link_up (with_sessions f w).
Proof. intros H. exact H. Qed.

Lemma link_up_with_files f w : link_up w -> link_up (with_files f w).
Proof. intros H. exact H. Qed.

(** The manual trigger on a link that accepts writes. *)
Lemma ota_update_core_sent (now node_id : Z) (version filepath initiated_by : string)
    (firmware : list byte) (node : Node) (w : World) :
  files w !! filepath = Some firmware ->
  find_node node_id (nodes w) = Some node ->
  link_up w ->
  sessions (fst (ota_update_core now node_id version filepath initiated_by w))
  = <[node_id := new_session now firmware version (n_name node) false]> (sessions w).
Proof.
  intros Hfile Hnode Hup. unfold ota_update_core. rewrite Hfile, Hnode.
  destruct Hup as (Hconn & Hport). rewrite Hconn. cbn [negb].
  rewrite send_command_link_up by (split; assumption). reflexivity.
Qed.

(** The send stage of the worker on a link that accepts writes. *)
Lemma auto_ota_send_sent (env : WorkerEnv) (now node_id : Z)
    (node_name version : string) (body : list byte) (w : World) :
  files w !! temp_path env = Some body ->
  read_raises env = false ->
  link_up w ->
  sessions (auto_ota_send env now node_id node_name version w)
  = <[node_id := new_session now body version node_name true]> (sessions w).
Proof.
  intros Hfile Hread Hup. unfold auto_ota_send. rewrite Hfile, Hread.
  rewrite send_command_link_up by (apply link_up_with_sessions, Hup).
  reflexivity.
Qed.

Lemma auto_ota_worker_sent (env : WorkerEnv) (now node_id : Z)
    (node_name firmware_url : string) (sha256_hash : option string)
    (version : string) (body : list byte) (w : World) :
  download env = stream_ends body ->
  read_raises env = false ->
  sha256_gate_open sha256_hexdigest env sha256_hash body ->
  link_up w ->
  sessions (auto_ota_worker sha256_hexdigest env now node_id node_name
              firmware_url sha256_hash version w)
  = <[node_id := new_session now body version node_name true]> (sessions w).
Proof.
  intros Hdl Hread Hgate Hup. unfold auto_ota_worker. rewrite Hdl.
  set (w1 := with_files _ _).
  assert (files w1 !! temp_path env = Some body) as Hfile
    by apply lookup_insert_eq.
  assert (link_up w1) as Hup1 by exact Hup.
  assert (sessions (auto_ota_send env now node_id node_name version w1)
          = <[node_id := new_session now body version node_name true]> (sessions w))
    as Hsend
    by (change (sessions w) with (sessions w1);
        apply auto_ota_send_sent; assumption).
  destruct sha256_hash as [h|]; [|exact Hsend].
  destruct (Py.truthy h) eqn:Htruthy; [|exact Hsend].
  destruct (Hgate Htruthy) as [Hdigest Heq].
  unfold auto_ota_verify. rewrite Hfile, Hdigest, Heq, String.eqb_refl.
  exact Hsend.
Qed.

End TriggerLemmas.

(** C3 (amended).  The session store is a map keyed by node id, so a node
    id has at most one session.  A trigger that reaches the offer for a
    node id that already has an active session, on a link that accepts the
    offer, replaces that session: afterwards the store holds for that id
    the session of the new trigger, with the new firmware buffer and the
    new version, the number of sessions is the same as before, and the
    sessions of the other ids are as before.  This holds for the manual
    trigger [ota_update_core] and for the worker [auto_ota_worker]. *)
Theorem trigger_replaces_session (sha256_hexdigest : list byte -> string)
    (now node_id : Z) (old : Session) (w : World) :
  sessions w !! node_id = Some old ->
  link_up w ->
  (forall (version filepath initiated_by : string) (firmware : list byte)
          (node : Node),
      files w !! filepath = Some firmware ->
      find_node node_id (nodes w) = Some node ->
      let w' := fst (ota_update_core now node_id version filepath initiated_by w) in
      sessions w' =
        <[node_id := new_session now firmware version (n_name node) false]>
          (sessions w) /\
      size (sessions w') = size (sessions w)) /\
  (forall (env : WorkerEnv) (node_name firmware_url : string)
          (sha256_hash : option string) (version : string) (body : list byte),
      download env = stream_ends body ->
      read_raises env = false ->
      sha256_gate_open sha256_hexdigest env sha256_hash body ->
      let w' := auto_ota_worker sha256_hexdigest env now node_id node_name
                  firmware_url sha256_hash version w in
      sessions w' =
        <[node_id := new_session now body version node_name true]> (sessions w) /\
      size (sessions w') = size (sessions w)).
Proof.
  intros Hold Hup. split.
  - intros version filepath initiated_by firmware node Hfile Hnode w'.
    assert (sessions w' =
            <[node_id := new_session now firmware version (n_name node) false]>
              (sessions w)) as Hs
      by (apply ota_update_core_sent; assumption).
    split; [exact Hs|]. rewrite Hs. apply map_size_insert_Some. exists old. exact Hold.
  - intros env node_name firmware_url sha256_hash version body Hdl Hread Hgate w'.
    assert (sessions w' =
            <[node_id := new_session now body version node_name true]>
              (sessions w)) as Hs
      by (apply auto_ota_worker_sent; assumption).
    split; [exact Hs|]. rewrite Hs. apply map_size_insert_Some. exists old. exact Hold.
Qed.

Lemma trigger_replaces_session_witness :
  sessions (fst (ota_update_core 100 7 "9.9.9" "firmware_uploads/new.bin"
                   "admin" busy_world))
    = <[7 := new_session 100 [xaa; xbb] "9.9.9" "Node_7" false]>
        (sessions busy_world) /\
  sessions (auto_ota_worker (fun _ => "00"%string) demo_env 100 7 "Node_7"
              "https://example.org/fw.bin" None "9.9.9" busy_world)
    = <[7 := new_session 100 [xaa; xbb] "9.9.9" "Node_7" true]>
        (sessions busy_world).
Proof.
  pose proof (trigger_replaces_session (fun _ => "00"%string) 100 7 demo_session
                busy_world (lookup_singleton_eq 7 demo_session) demo_link_up)
    as [Hmanual Hauto].
  split.
  - apply (Hmanual "9.9.9"%string "firmware_uploads/new.bin"%string
             "admin"%string [xaa; xbb] demo_node); reflexivity.
  - apply (Hauto demo_env "Node_7"%string "https://example.org/fw.bin"%string
             None "9.9.9"%string [xaa; xbb]); [reflexivity|reflexivity|exact I].
Defined.

(* ===================================================================== *)
(** ** Results *)
(* ===================================================================== *)

Section ResultLemmas.

Lemma sessions_drop_session node_id w :
  sessions (drop_session node_id w) = delete node_id (sessions w).
Proof.
  unfold drop_session. destruct (sessions w !! node_id) eqn:Hs; [reflexivity|].
  symmetry. apply delete_id, Hs.
Qed.

Lemma drop_session_absent node_id w :
  sessions w !! node_id = None -> drop_session node_id w = w.
Proof. intros Hs. unfold drop_session. rewrite Hs. reflexivity. Qed.

Lemma is_open_for_test node_id e :
  (h_node_id e =? node_id) && OtaStatus_eqb (h_status e) initiated = true
  <-> is_open_for node_id e.
Proof.
  unfold is_open_for. rewrite andb_true_iff, Z.eqb_eq.
  destruct (h_status e); simpl; intuition discriminate.
Qed.

(** The loop closes the first open entry of the node and nothing else. *)
Lemma close_first_open_split node_id st now before e after :
  Forall (fun x => ~ is_open_for node_id x) before ->
  is_open_for node_id e ->
  close_first_open node_id st now (before ++ e :: after)
  = before ++ close_entry st now e :: after.
Proof.
  intros Hbefore He. induction Hbefore as [|x before Hx _ IH]; simpl.
  - apply is_open_for_test in He. rewrite He. reflexivity.
  - destruct ((h_node_id x =? node_id) && OtaStatus_eqb (h_status x) initiated)
      eqn:Htest.
    + apply is_open_for_test in Htest. contradiction.
    + rewrite IH. reflexivity.
Qed.

(** Without an open entry of the node the loop changes nothing. *)
Lemma close_first_open_none node_id st now history :
  Forall (fun x => ~ is_open_for node_id x) history ->
  close_first_open node_id st now history = history.
Proof.
  intros Hall. induction Hall as [|x history Hx _ IH]; simpl; [reflexivity|].
  destruct ((h_node_id x =? node_id) && OtaStatus_eqb (h_status x) initiated)
    eqn:Htest.
  - apply is_open_for_test in Htest. contradiction.
  - rewrite IH. reflexivity.
Qed.

(** A result that is not a success skips the registry and the history. *)
Lemma handle_ota_result_not_ok now node_id msg_text new_version w :
  handle_ota_result now node_id false msg_text new_version w
  = emit (ev_ota_complete (session_is_auto node_id w) node_id false msg_text
            new_version now)
      (drop_session node_id w).
Proof. reflexivity. Qed.

(** A success for a node that the registry does not hold does the same. *)
Lemma handle_ota_result_unknown_node now node_id success msg_text new_version w :
  find_node node_id (nodes w) = None ->
  handle_ota_result now node_id success msg_text new_version w
  = emit (ev_ota_complete (session_is_auto node_id w) node_id success msg_text
            new_version now)
      (drop_session node_id w).
Proof.
  intros Hnode. unfold handle_ota_result. rewrite Hnode.
  destruct (success && Py.truthy new_version); reflexivity.
Qed.

(** A success with a version for a node of the registry. *)
Lemma handle_ota_result_ok now node_id msg_text new_version node w :
  Py.truthy new_version = true ->
  find_node node_id (nodes w) = Some node ->
  handle_ota_result now node_id true msg_text new_version w
  = emit (ev_ota_complete (session_is_auto node_id w) node_id true msg_text
            new_version now)
      (drop_session node_id
         (with_history (close_first_open node_id completed now)
            (with_nodes
               (update_node node_id
                  (fun n => set_status online (set_version new_version n)))
               w))).
Proof.
  intros Hv Hnode. unfold handle_ota_result. rewrite Hv, Hnode. reflexivity.
Qed.

End ResultLemmas.

(** C4.  What the code does on [ota_result{ok: false}]: whatever the
    world, the history log and the node registry come out as they went in,
    the session of the node is deleted and the completion event is
    emitted.  For node 7 with an open history entry, the entry is still
    ['initiated'] and has no ['completed_at'] afterwards: it is not marked
    ['failed']. *)
Theorem failed_result_leaves_entry_open :
  (forall (now node_id : Z) (msg_text new_version : string) (w : World),
      let w' := handle_ota_result now node_id false msg_text new_version w in
      ota_history w' = ota_history w /\
      nodes w' = nodes w /\
      sessions w' = delete node_id (sessions w) /\
      emitted w' =
        emitted w ++
        [ev_ota_complete (session_is_auto node_id w) node_id false msg_text
           new_version now]) /\
  let w' := handle_ota_result 200 7 false "flash write failed" "" pending_world in
  ota_history pending_world = [pending_entry] /\
  h_status pending_entry = initiated /\
  ota_history w' = [pending_entry] /\
  h_status <$> ota_history w' = [initiated] /\
  h_completed_at <$> ota_history w' = [None] /\
  n_status <$> nodes w' = [updating] /\
  sessions w' !! 7 = None.
Proof.
  split.
  - intros now node_id msg_text new_version w w'. subst w'.
    rewrite handle_ota_result_not_ok.
    repeat split; try reflexivity.
    + unfold drop_session. destruct (sessions w !! node_id); reflexivity.
    + unfold drop_session. destruct (sessions w !! node_id); reflexivity.
    + apply sessions_drop_session.
    + unfold drop_session. destruct (sessions w !! node_id); reflexivity.
  - repeat split; reflexivity.
Qed.

(** C5, as stated, fails: with two open entries of node 7 in the log, a
    successful result closes the older entry and leaves the one appended
    last open. *)
Lemma result_closes_oldest_not_newest :
  let w' := handle_ota_result 200 7 true "ok" "2.1.0" twice_triggered_world in
  ota_history twice_triggered_world = [older_entry; newer_entry] /\
  h_status older_entry = initiated /\ h_status newer_entry = initiated /\
  ota_history w' = [close_entry completed 200 older_entry; newer_entry] /\
  h_status <$> ota_history w' = [completed; initiated] /\
  h_completed_at <$> ota_history w' = [Some 200; None].
Proof. repeat split; reflexivity. Qed.

(** C5 (amended).  When [ota_result{ok: true, new_version}] with a
    non-empty [new_version] arrives for a node of the registry, the entry
    of the history log that is marked ['completed'], with its
    ['completed_at'] set, is the first open entry of the node in log
    order, that is the one appended earliest; every other entry, the
    later open entries of the node among them, is left as it was. *)
Theorem result_closes_first_open_entry (now node_id : Z)
    (msg_text new_version : string) (node : Node)
    (before after : list OtaEvent) (e : OtaEvent) (w : World) :
  Py.truthy new_version = true ->
  find_node node_id (nodes w) = Some node ->
  ota_history w = before ++ e :: after ->
  Forall (fun x => ~ is_open_for node_id x) before ->
  is_open_for node_id e ->
  ota_history (handle_ota_result now node_id true msg_text new_version w)
  = before ++ close_entry completed now e :: after /\
  h_status (close_entry completed now e) = completed /\
  h_completed_at (close_entry completed now e) = Some now.
Proof.
  intros Hv Hnode Hhist Hbefore He.
  rewrite (handle_ota_result_ok now node_id msg_text new_version node w Hv Hnode).
  split; [|split; reflexivity].
  transitivity (close_first_open node_id completed now (ota_history w)).
  - unfold drop_session. destruct (sessions _ !! node_id); reflexivity.
  - rewrite Hhist. apply close_first_open_split; assumption.
Qed.

Lemma result_closes_first_open_entry_witness :
  ota_history (handle_ota_result 200 7 true "ok" "2.1.0" twice_triggered_world)
  = [] ++ close_entry completed 200 older_entry :: [newer_entry] /\
  h_status (close_entry completed 200 older_entry) = completed /\
  h_completed_at (close_entry completed 200 older_entry) = Some 200.
Proof.
  apply (result_closes_first_open_entry 200 7 "ok" "2.1.0"
           (set_status updating demo_node) [] [newer_entry] older_entry
           twice_triggered_world).
  - reflexivity.
  - reflexivity.
  - reflexivity.
  - apply Forall_nil. exact I.
  - split; reflexivity.
Defined.

(** C10.  [ota_result] with [ok] true and a non-empty [new_version] for a
    node id that the registry does not hold: the registry and the history
    log are unchanged (no record is created or updated, no entry is
    closed), the session of the id, if there is one, is deleted, and the
    completion event is emitted. *)
Theorem result_for_unknown_node (now node_id : Z) (msg_text new_version : string)
    (w : World) :
  Py.truthy new_version = true ->
  find_node node_id (nodes w) = None ->
  let w' := handle_ota_result now node_id true msg_text new_version w in
  nodes w' = nodes w /\
  ota_history w' = ota_history w /\
  sessions w' = delete node_id (sessions w) /\
  sessions w' !! node_id = None /\
  emitted w' =
    emitted w ++
    [ev_ota_complete (session_is_auto node_id w) node_id true msg_text
       new_version now].
Proof.
  intros Hv Hnode w'. subst w'.
  rewrite handle_ota_result_unknown_node by exact Hnode.
  assert (sessions (emit (ev_ota_complete (session_is_auto node_id w) node_id
                            true msg_text new_version now)
                      (drop_session node_id w))
          = delete node_id (sessions w)) as Hs
    by apply sessions_drop_session.
  repeat split.
  - unfold drop_session. destruct (sessions w !! node_id); reflexivity.
  - unfold drop_session. destruct (sessions w !! node_id); reflexivity.
  - exact Hs.
  - rewrite Hs. apply lookup_delete_eq.
  - unfold drop_session. destruct (sessions w !! node_id); reflexivity.
Qed.

Lemma result_for_unknown_node_witness :
  let w' := handle_ota_result 200 9 true "ok" "2.1.0" unregistered_world in
  nodes w' = [] /\
  ota_history w' = [new_ota_event 100 9 "Node_9" "2.1.0" "AUTO_OTA" 5 []] /\
  sessions w' = delete 9 (sessions unregistered_world) /\
  sessions w' !! 9 = None /\
  emitted w' = [] ++ [ev_ota_complete false 9 true "ok" "2.1.0" 200].
Proof.
  apply (result_for_unknown_node 200 9 "ok" "2.1.0" unregistered_world).
  - reflexivity.
  - reflexivity.
Defined.

(* ===================================================================== *)
(** ** Messages for a node without a session *)
(* ===================================================================== *)

(** C6, as stated, fails: a stray [ota_result] with [ok] true and a
    version, for node 7 which has no session, rewrites the node record and
    closes the node's open history entry. *)
Lemma stray_result_changes_registry_and_history :
  let w' := process_gateway_message 200 None (ota_result 7 true "ok" "2.1.0")
              idle_world in
  sessions idle_world !! 7 = None /\
  nodes w' <> nodes idle_world /\
  ota_history w' <> ota_history idle_world /\
  n_version <$> nodes idle_world = ["2.0.0"%string] /\
  n_version <$> nodes w' = ["2.1.0"%string] /\
  n_status <$> nodes w' = [online] /\
  h_status <$> ota_history idle_world = [initiated] /\
  h_status <$> ota_history w' = [completed].
Proof. repeat split; try reflexivity; discriminate. Qed.

(** [handle_ota_result] for a node without a session: nothing to delete,
    and the event is the one of a manual transfer. *)
Lemma handle_ota_result_stray now node_id success msg_text new_version w :
  sessions w !! node_id = None ->
  handle_ota_result now node_id success msg_text new_version w
  = emit (ev_ota_complete false node_id success msg_text new_version now)
      (if success && Py.truthy new_version then
         match find_node node_id (nodes w) with
         | Some _ =>
             with_history (close_first_open node_id completed now)
               (with_nodes
                  (update_node node_id
                     (fun n => set_status online (set_version new_version n)))
                  w)
         | None => w
         end
       else w).
Proof.
  intros Hs. unfold handle_ota_result, session_is_auto. rewrite Hs.
  destruct success, (Py.truthy new_version), (find_node node_id (nodes w));
    cbn [andb];
    try change (sessions (with_history _ (with_nodes _ w))) with (sessions w);
    rewrite Hs; reflexivity.
Qed.

(** C6 (amended).  A stray [ota_accept], [ota_next], [ota_result] or
    [ota_error], one whose source node has no session, never changes the
    gateway object: the session map stays as it is and no frame is
    written; and no exception escapes from its handler.  For
    [ota_accept] and [ota_next] the world is unchanged but
    for the mirror event; for [ota_error] an error event is emitted
    besides.  For [ota_result] a completion event is emitted, and the node
    registry and the history log are unchanged unless [ok] is true, the
    new version is non-empty and the node is in the registry; in that case
    the node record takes the new version and the status [online], and the
    first open history entry of the node is closed as ['completed'], as
    for a result that ends a session. *)
Theorem stray_ack_effects (now : Z) (net : option Manifest) (m : Message)
    (w : World) :
  is_ack m ->
  sessions w !! source_of m = None ->
  let w' := process_gateway_message now net m w in
  gateway_connection w' = gateway_connection w /\
  handler_raises m w = false /\
  match m with
  | ota_result node_id ok msg_text new_version =>
      emitted w' =
        emitted w ++ [ev_ota_complete false node_id ok msg_text new_version now;
                      ev_gateway_message m] /\
      (ok = false \/ Py.truthy new_version = false \/
       find_node node_id (nodes w) = None ->
         nodes w' = nodes w /\ ota_history w' = ota_history w) /\
      (ok = true -> Py.truthy new_version = true ->
       is_Some (find_node node_id (nodes w)) ->
         nodes w' =
           update_node node_id
             (fun n => set_status online (set_version new_version n)) (nodes w) /\
         ota_history w' =
           close_first_open node_id completed now (ota_history w))
  | ota_error node_id error_msg =>
      w' = emit (ev_gateway_message m) (emit (ev_ota_error false node_id error_msg now) w)
  | _ => w' = emit (ev_gateway_message m) w
  end.
Proof.
  intros Hack Hs w'. subst w'.
  destruct m as [| node_id name | node_id idx | node_id ok msg_text new_version
                 | node_id error_msg]; simpl in Hack, Hs; [contradiction| | | |].
  - unfold process_gateway_message, handler_raises, handle_ota_accept.
    rewrite Hs. repeat split; reflexivity.
  - unfold process_gateway_message, handler_raises, handle_ota_next.
    rewrite Hs. repeat split; reflexivity.
  - unfold process_gateway_message, handler_raises.
    rewrite handle_ota_result_stray by exact Hs.
    destruct ok, (Py.truthy new_version) eqn:Hv,
      (find_node node_id (nodes w)) as [node|] eqn:Hnode;
      cbn [andb]; (split; [reflexivity|]); (split; [reflexivity|]);
      (split; [cbn [emitted emit with_history with_nodes];
               rewrite <- app_assoc; reflexivity|]);
      (split; [intros [H|[H|H]]; try discriminate; split; reflexivity
              | intros H1 H2 H3; try discriminate;
                try (destruct H3 as [? H3]; discriminate);
                split; reflexivity]).
  - unfold process_gateway_message, handler_raises, handle_ota_error,
      session_is_auto.
    rewrite Hs. repeat split; reflexivity.
Qed.

Lemma stray_ack_effects_witness :
  let w1 := process_gateway_message 200 None (ota_result 7 false "failed" "")
              idle_world in
  let w2 := process_gateway_message 200 None (ota_next 7 3) idle_world in
  (gateway_connection w1 = gateway_connection idle_world /\
   nodes w1 = nodes idle_world /\ ota_history w1 = ota_history idle_world) /\
  w2 = emit (ev_gateway_message (ota_next 7 3)) idle_world.
Proof.
  split.
  - destruct (stray_ack_effects 200 None (ota_result 7 false "failed" "")
                idle_world I eq_refl) as (Hgw & _ & _ & Hsame & _).
    split; [exact Hgw|]. apply Hsame. left. reflexivity.
  - apply (stray_ack_effects 200 None (ota_next 7 3) idle_world I eq_refl).
Defined.

(* ===================================================================== *)
(** ** The cooldown table *)
(* ===================================================================== *)

Section CooldownLemmas.

(** A manifest lookup may fill the cache and touches nothing else. *)
Lemma get_firmware_url_for_role_frame now net role w :
  let w1 := fst (get_firmware_url_for_role now net role w) in
  gateway_connection w1 = gateway_connection w /\
  nodes w1 = nodes w /\ ota_history w1 = ota_history w /\
  last_auto_ota w1 = last_auto_ota w /\ threads w1 = threads w /\
  files w1 = files w /\ emitted w1 = emitted w.
Proof.
  unfold get_firmware_url_for_role, fetch_manifest.
  destruct (manifest_cache w) as [cached|], net as [m|];
    try destruct (now - manifest_last_fetch w <? 300);
    cbn [fst];
    repeat match goal with
           | |- context [match ?x !! role with _ => _ end] =>
               destruct (x !! role) as [url|]
           | |- context [if Py.truthy ?u then _ else _] =>
               destruct (Py.truthy u)
           end;
    repeat split; reflexivity.
Qed.

End CooldownLemmas.

(** C7, as stated, fails: node 7 is not in cooldown and the manifest
    cannot be fetched (or has no asset for the role); afterwards the
    cooldown table has no entry for node 7. *)
Lemma manifest_failure_records_no_cooldown :
  let w1 := handle_ota_check_auto 1000 None 7 "sensor_node" "2.0.0" demo_world in
  let w2 := handle_ota_check_auto 1000 (Some demo_manifest) 7 "relay_node" "2.0.0"
              demo_world in
  AUTO_OTA_ENABLED demo_world = true /\
  (1000 - default 0 (last_auto_ota demo_world !! 7) <? AUTO_OTA_COOLDOWN) = false /\
  snd (get_firmware_url_for_role 1000 None "sensor_node" demo_world) = None /\
  snd (get_firmware_url_for_role 1000 (Some demo_manifest) "relay_node" demo_world)
    = None /\
  last_auto_ota w1 !! 7 = None /\
  last_auto_ota w2 !! 7 = None.
Proof. repeat split; reflexivity. Qed.

(** C7 (amended).  For an [ota_check_forward] from a node that is not in
    cooldown: if no firmware URL is available for the node's role (the
    manifest cannot be fetched, or has no asset for the role), then no
    session, no history entry, no node record and no worker are created,
    and the cooldown table is left as it was: no time is recorded for the
    node.  The cooldown time is recorded only by a check that starts a
    worker, that is when auto-OTA is enabled, a URL is available and the
    manifest version is newer: then the table holds the time of the check
    for the node.  In the two cases that are left, auto-OTA disabled or a
    URL available with a manifest version that is not newer, nothing is
    created and the table is left as it was; so a table that differs after
    the check tells that the check started a worker for the node. *)
Theorem cooldown_only_when_worker_starts (now : Z) (net : option Manifest)
    (node_id : Z) (node_role current_fw : string) (w : World) :
  (now - default 0 (last_auto_ota w !! node_id) <? AUTO_OTA_COOLDOWN) = false ->
  let w' := handle_ota_check_auto now net node_id node_role current_fw w in
  (snd (get_firmware_url_for_role now net node_role w) = None ->
     sessions w' = sessions w /\
     ota_history w' = ota_history w /\
     nodes w' = nodes w /\
     threads w' = threads w /\
     last_auto_ota w' = last_auto_ota w) /\
  (forall firmware_url sha256_hash latest_version,
     AUTO_OTA_ENABLED w = true ->
     snd (get_firmware_url_for_role now net node_role w)
       = Some (firmware_url, sha256_hash, latest_version) ->
     compare_versions current_fw latest_version = true ->
     last_auto_ota w' = <[node_id := now]> (last_auto_ota w) /\
     exists node_name,
       threads w' =
         threads w ++
         [{| wa_node_id := node_id; wa_node_name := node_name;
             wa_firmware_url := firmware_url; wa_sha256_hash := sha256_hash;
             wa_version := latest_version |}]) /\
  (AUTO_OTA_ENABLED w = false \/
   (exists firmware_url sha256_hash latest_version,
      snd (get_firmware_url_for_role now net node_role w)
        = Some (firmware_url, sha256_hash, latest_version) /\
      compare_versions current_fw latest_version = false) ->
     sessions w' = sessions w /\
     ota_history w' = ota_history w /\
     nodes w' = nodes w /\
     threads w' = threads w /\
     last_auto_ota w' = last_auto_ota w) /\
  (last_auto_ota w' <> last_auto_ota w ->
     last_auto_ota w' = <[node_id := now]> (last_auto_ota w) /\
     exists args,
       threads w' = threads w ++ [args] /\ wa_node_id args = node_id).
Proof.
  intros Hcool w'. subst w'. unfold handle_ota_check_auto. rewrite Hcool.
  pose proof (get_firmware_url_for_role_frame now net node_role w) as Hframe.
  destruct (get_firmware_url_for_role now net node_role w) as [w1 info].
  cbn [fst snd] in *.
  destruct Hframe as (Hgw & Hnodes & Hhist & Hlast & Hthreads & _ & _).
  assert (sessions w1 = sessions w) as Hsess by (unfold sessions; rewrite Hgw; reflexivity).
  split; [|split; [|split]].
  - intros ->. destruct (AUTO_OTA_ENABLED w); cbn [negb]; [|repeat split; reflexivity].
    repeat split; assumption.
  - intros firmware_url sha256_hash latest_version Hon -> Hnewer.
    rewrite Hon, Hnewer. cbn [negb].
    destruct (find_node node_id (nodes w1)) as [node|];
      cbn [last_auto_ota with_last_auto_ota start_thread threads with_nodes];
      rewrite Hlast, Hthreads; (split; [reflexivity|]); eexists; reflexivity.
  - intros [Hoff|(firmware_url & sha256_hash & latest_version & -> & Hsame)].
    + rewrite Hoff. cbn [negb]. repeat split; reflexivity.
    + rewrite Hsame. cbn [negb].
      destruct (AUTO_OTA_ENABLED w); cbn [negb]; [|repeat split; reflexivity].
      repeat split; assumption.
  - destruct (AUTO_OTA_ENABLED w); cbn [negb]; [|intros H; destruct H; reflexivity].
    destruct info as [[[firmware_url sha256_hash] latest_version]|];
      [|intros H; destruct H; exact Hlast].
    destruct (compare_versions current_fw latest_version); cbn [negb];
      [|intros H; destruct H; exact Hlast].
    intros _.
    destruct (find_node node_id (nodes w1)) as [node|];
      cbn [last_auto_ota with_last_auto_ota start_thread threads with_nodes];
      rewrite Hlast, Hthreads; (split; [reflexivity|]);
      eexists; (split; [reflexivity|reflexivity]).
Qed.

Lemma cooldown_only_when_worker_starts_witness :
  let w1 := handle_ota_check_auto 1000 None 7 "sensor_node" "2.0.0" demo_world in
  let w2 := handle_ota_check_auto 1000 (Some demo_manifest) 7 "sensor_node"
              "2.0.0" demo_world in
  let w3 := handle_ota_check_auto 1000 (Some demo_manifest) 7 "sensor_node"
              "2.1.0" demo_world in
  last_auto_ota w1 = last_auto_ota demo_world /\
  last_auto_ota w2 = <[7 := 1000]> (last_auto_ota demo_world) /\
  (last_auto_ota w3 = last_auto_ota demo_world /\ threads w3 = threads demo_world) /\
  exists args, threads w2 = threads demo_world ++ [args] /\ wa_node_id args = 7.
Proof.
  split; [|split; [|split]].
  - apply (proj1 (cooldown_only_when_worker_starts 1000 None 7 "sensor_node" "2.0.0"
                    demo_world eq_refl)).
    reflexivity.
  - apply (proj1 (proj2 (cooldown_only_when_worker_starts 1000 (Some demo_manifest) 7
                    "sensor_node" "2.0.0" demo_world eq_refl))
             "https://example.org/sensor.bin"%string None "2.1.0"%string);
      reflexivity.
  - assert (AUTO_OTA_ENABLED demo_world = false \/
            exists firmware_url sha256_hash latest_version,
              snd (get_firmware_url_for_role 1000 (Some demo_manifest)
                     "sensor_node" demo_world)
                = Some (firmware_url, sha256_hash, latest_version) /\
              compare_versions "2.1.0" latest_version = false) as Hcase.
    { right. exists "https://example.org/sensor.bin"%string, None, "2.1.0"%string.
      split; reflexivity. }
    destruct (proj1 (proj2 (proj2 (cooldown_only_when_worker_starts 1000
                (Some demo_manifest) 7 "sensor_node" "2.1.0" demo_world eq_refl)))
                Hcase)
      as (_ & _ & _ & Hthreads & Hlast).
    split; [exact Hlast|exact Hthreads].
  - apply (proj2 (proj2 (proj2 (cooldown_only_when_worker_starts 1000
                    (Some demo_manifest) 7 "sensor_node" "2.0.0" demo_world eq_refl)))).
    vm_compute. intros H. discriminate H.
Defined.

(* ===================================================================== *)
(** ** The temporary file of the worker *)
(* ===================================================================== *)

Section WorkerLemmas.

Variable sha256_hexdigest : list byte -> string.

(** The [finally] clause: whatever the send stage does, the file is gone. *)
Lemma auto_ota_send_removes env now node_id node_name version w :
  files (auto_ota_send env now node_id node_name version w) !! temp_path env = None.
Proof. unfold auto_ota_send. cbn [files with_files]. apply lookup_delete_eq. Qed.

(** Both ways out of the SHA256 gate remove the file, and passing it
    leads to the send stage. *)
Lemma auto_ota_verify_removes env now node_id node_name version h content w :
  files w !! temp_path env = Some content ->
  files (auto_ota_verify sha256_hexdigest env now node_id node_name version h w)
    !! temp_path env = None.
Proof.
  intros Hfile. unfold auto_ota_verify. rewrite Hfile.
  destruct (digest_raises env).
  - cbn [files with_files]. apply lookup_delete_eq.
  - destruct (negb _).
    + cbn [files with_files emit]. apply lookup_delete_eq.
    + apply auto_ota_send_removes.
Qed.

(** Once the download has ended, every way out removes the file. *)
Lemma auto_ota_worker_removes_after_download env now node_id node_name
    firmware_url sha256_hash version body w :
  download env = stream_ends body ->
  files (auto_ota_worker sha256_hexdigest env now node_id node_name firmware_url
           sha256_hash version w) !! temp_path env = None.
Proof.
  intros Hdl. unfold auto_ota_worker. rewrite Hdl.
  destruct sha256_hash as [h|]; [|apply auto_ota_send_removes].
  destruct (Py.truthy h); [|apply auto_ota_send_removes].
  apply (auto_ota_verify_removes _ _ _ _ _ _ body).
  cbn [files with_files]. apply lookup_insert_eq.
Qed.

End WorkerLemmas.

(** C8.  What the code does when the download raises after [mkstemp]
    (part-way through the body, or while reading the headers): the worker
    emits [auto_ota_failed] and returns, and the temporary file is still
    there, holding what was received.  The store of sessions is
    unchanged. *)
Theorem broken_download_leaves_temp_file (sha256_hexdigest : list byte -> string)
    (path : string) (received : list byte) (d r : bool) (now node_id : Z)
    (node_name firmware_url : string) (sha256_hash : option string)
    (version : string) (w : World) :
  let env := {| temp_path := path; download := stream_breaks received;
                digest_raises := d; read_raises := r |} in
  let w' := auto_ota_worker sha256_hexdigest env now node_id node_name
              firmware_url sha256_hash version w in
  files w' !! path = Some received /\
  sessions w' = sessions w /\
  emitted w' =
    emitted w ++ [ev_auto_ota_started node_id node_name version now;
                  ev_auto_ota_failed node_id download_failed now].
Proof.
  intros env w'. subst w' env. unfold auto_ota_worker. cbn [download temp_path].
  split; [|split].
  - cbn [files emit with_files]. apply lookup_insert_eq.
  - reflexivity.
  - cbn [emitted emit with_files]. rewrite <- app_assoc. reflexivity.
Qed.

(** The same on a concrete run: two bytes arrive, then the stream breaks. *)
Example broken_download_demo :
  let env := {| temp_path := "/tmp/auto_ota_demo.bin";
                download := stream_breaks [xaa; xbb];
                digest_raises := false; read_raises := false |} in
  let w' := auto_ota_worker (fun _ => "00"%string) env 100 7 "Node_7"
              "https://example.org/sensor.bin" None "2.1.0" demo_world in
  files demo_world !! temp_path env = None /\
  files w' !! temp_path env = Some [xaa; xbb].
Proof. split; reflexivity. Qed.

(** C9.  In the worker, after a complete download and with a digest to
    check: when computing the digest raises, the temporary file is
    removed, no session and no history entry are created, nothing is
    written to the gateway, and the only event of the run is
    [auto_ota_started]; when instead the digest is computed and differs,
    the file is removed and no session is created as well, but the run
    also emits [auto_ota_failed]. *)
Theorem digest_error_aborts_silently (sha256_hexdigest : list byte -> string)
    (env : WorkerEnv) (now node_id : Z) (node_name firmware_url h version : string)
    (body : list byte) (w : World) :
  download env = stream_ends body ->
  Py.truthy h = true ->
  let w' := auto_ota_worker sha256_hexdigest env now node_id node_name
              firmware_url (Some h) version w in
  (digest_raises env = true ->
     files w' !! temp_path env = None /\
     gateway_connection w' = gateway_connection w /\
     ota_history w' = ota_history w /\
     nodes w' = nodes w /\
     emitted w' = emitted w ++ [ev_auto_ota_started node_id node_name version now]) /\
  (digest_raises env = false ->
   Py.lower (sha256_hexdigest body) <> Py.lower h ->
     files w' !! temp_path env = None /\
     gateway_connection w' = gateway_connection w /\
     ota_history w' = ota_history w /\
     nodes w' = nodes w /\
     emitted w' =
       emitted w ++ [ev_auto_ota_started node_id node_name version now;
                     ev_auto_ota_failed node_id sha256_verification_failed now]).
Proof.
  intros Hdl Hh w'. subst w'. unfold auto_ota_worker. rewrite Hdl, Hh.
  unfold auto_ota_verify. cbn [files with_files emit].
  rewrite lookup_insert_eq. split.
  - intros ->. cbn. rewrite lookup_delete_eq. repeat split; reflexivity.
  - intros -> Hne. apply String.eqb_neq in Hne. rewrite Hne. cbn.
    rewrite lookup_delete_eq, <- app_assoc. repeat split; reflexivity.
Qed.

Lemma digest_error_aborts_silently_witness :
  let run env :=
    auto_ota_worker (fun _ => "00"%string) env 100 7 "Node_7"
      "https://example.org/sensor.bin" (Some "AB"%string) "2.1.0" demo_world in
  (files (run raising_env) !! temp_path raising_env = None /\
   gateway_connection (run raising_env) = gateway_connection demo_world /\
   ota_history (run raising_env) = ota_history demo_world /\
   nodes (run raising_env) = nodes demo_world /\
   emitted (run raising_env) =
     emitted demo_world ++ [ev_auto_ota_started 7 "Node_7" "2.1.0" 100]) /\
  (files (run demo_env) !! temp_path demo_env = None /\
   gateway_connection (run demo_env) = gateway_connection demo_world /\
   ota_history (run demo_env) = ota_history demo_world /\
   nodes (run demo_env) = nodes demo_world /\
   emitted (run demo_env) =
     emitted demo_world ++
     [ev_auto_ota_started 7 "Node_7" "2.1.0" 100;
      ev_auto_ota_failed 7 sha256_verification_failed 100]).
Proof.
  split.
  - apply (digest_error_aborts_silently (fun _ => "00"%string) raising_env
             100 7 "Node_7" "https://example.org/sensor.bin" "AB" "2.1.0"
             [xaa; xbb] demo_world); reflexivity.
  - apply (proj2 (digest_error_aborts_silently (fun _ => "00"%string) demo_env
                    100 7 "Node_7" "https://example.org/sensor.bin" "AB" "2.1.0"
                    [xaa; xbb] demo_world eq_refl eq_refl)).
    + reflexivity.
    + discriminate.
Defined.

(* ===================================================================== *)
(** * Part IV.  Further properties of the program *)
(* ===================================================================== *)

(* ===================================================================== *)
(** ** The read loop *)
(* ===================================================================== *)

Section FramingLemmas.

Lemma split_once_length sep s line rest :
  split_once sep s = Some (line, rest) ->
  String.length s = S (String.length line + String.length rest).
Proof.
  revert line. induction s as [|c s IH]; intros line; simpl; [discriminate|].
  destruct (Ascii.eqb c sep).
  - intros [= <- <-]. reflexivity.
  - destruct (split_once sep s) as [[l r]|]; [|discriminate].
    intros [= <- <-]. simpl. rewrite (IH l eq_refl). reflexivity.
Qed.

Lemma split_once_app sep s t line rest :
  split_once sep s = Some (line, rest) ->
  split_once sep (String.append s t) = Some (line, String.append rest t).
Proof.
  revert line. induction s as [|c s IH]; intros line; simpl; [discriminate|].
  destruct (Ascii.eqb c sep).
  - intros [= <- <-]. reflexivity.
  - destruct (split_once sep s) as [[l r]|]; [|discriminate].
    intros [= <- <-]. rewrite (IH l eq_refl). reflexivity.
Qed.




Lemma string_app_assoc (a b c : string) :
  String.append (String.append a b) c = String.append a (String.append b c).
Proof.
  induction a as [|x a IH]; [reflexivity|].
  change (String x (String.append (String.append a b) c)
          = String x (String.append a (String.append b c))).
  rewrite IH. reflexivity.
Qed.

End FramingLemmas.

Section StripLemmas.

(** The list does not begin with white space. *)
Local Abbreviation no_lead l :=
  (match l with c :: _ => Py.is_space c = false | [] => True end).










End StripLemmas.

Section DrainLemmas.

Context {State : Type}.
Variable handler : string -> State -> State * bool.

(** The drain of a whole buffer, with the fuel the loop needs. *)
Local Abbreviation drain_all s := (drain handler (String.length s) s).

(** More fuel than the length of the buffer changes nothing. *)
Lemma drain_fuel (f1 f2 : nat) (s : string) (st : State) :
  (String.length s <= f1)%nat -> (String.length s <= f2)%nat ->
  drain handler f1 s st = drain handler f2 s st.
Proof.
  revert f2 s st. induction f1 as [|f1 IH]; intros f2 s st H1 H2.
  - destruct s; [|simpl in H1; lia]. destruct f2; reflexivity.
  - destruct f2 as [|f2].
    + destruct s; [reflexivity|simpl in H2; lia].
    + simpl. destruct (split_once LF s) as [[line rest]|] eqn:Hsplit;
        [|reflexivity].
      apply split_once_length in Hsplit.
      destruct (Py.truthy (str_strip line)).
      * destruct (handler (str_strip line) st) as [st' [|]]; [reflexivity|].
        rewrite (IH f2 rest) by lia. reflexivity.
      * apply IH; lia.
Qed.

Lemma drain_all_none s st :
  split_once LF s = None ->
  drain_all s st =
    {| handed := []; kept := s; state_after := st; raised := false |}.
Proof. intros H. destruct s; [reflexivity|]. simpl in *. rewrite H. reflexivity. Qed.

Lemma drain_all_step s line rest st :
  split_once LF s = Some (line, rest) ->
  drain_all s st =
    if Py.truthy (str_strip line) then
      let '(st', exception) := handler (str_strip line) st in
      if exception then
        {| handed := [str_strip line]; kept := rest; state_after := st';
           raised := true |}
      else push (str_strip line) (drain_all rest st')
    else drain_all rest st.
Proof.
  intros H. pose proof (split_once_length _ _ _ _ H) as Hlen.
  rewrite Hlen. simpl. rewrite H.
  destruct (Py.truthy (str_strip line)).
  - destruct (handler (str_strip line) st) as [st' [|]]; [reflexivity|].
    rewrite (drain_fuel _ (String.length rest) rest) by lia. reflexivity.
  - apply drain_fuel; lia.
Qed.

(** Draining [s ++ t]: what draining [s] does, and then, unless an
    exception ended it, the drain of what it kept followed by [t]. *)
Lemma drain_all_app_below (n : nat) (s t : string) (st : State) :
  (String.length s < n)%nat ->
  drain_all (String.append s t) st =
    let r1 := drain_all s st in
    if raised r1 then
      {| handed := handed r1; kept := String.append (kept r1) t;
         state_after := state_after r1; raised := true |}
    else
      let r2 := drain_all (String.append (kept r1) t) (state_after r1) in
      {| handed := handed r1 ++ handed r2; kept := kept r2;
         state_after := state_after r2; raised := raised r2 |}.
Proof.
  revert s st. induction n as [|n IH]; intros s st Hn; [lia|].
  destruct (split_once LF s) as [[line rest]|] eqn:Hsplit.
  - rewrite (drain_all_step _ _ _ _ (split_once_app _ _ t _ _ Hsplit)).
    rewrite (drain_all_step _ _ _ _ Hsplit).
    apply split_once_length in Hsplit.
    destruct (Py.truthy (str_strip line)).
    + destruct (handler (str_strip line) st) as [st' [|]]; [reflexivity|].
      rewrite (IH rest) by lia. cbv zeta.
      destruct (drain_all rest st') as [l1 k1 s1 [|]]; reflexivity.
    + apply IH. lia.
  - rewrite (drain_all_none s st Hsplit). cbv zeta. cbn [raised kept state_after handed].
    destruct (drain_all (String.append s t) st); reflexivity.
Qed.



End DrainLemmas.

(** X1.  How the serial stream is cut into reads matters only when an
    exception escapes from the handler.  If reading [d1] ends without
    one, then reading [d1] and [d2] one after the other hands on the lines,
    and leaves the buffer and the state, that reading [d1 ++ d2] at once
    does.  If an exception ends the read of [d1], reading [d1 ++ d2] at
    once stops at the same line in the same state, with [d2] behind what
    [d1] left in the buffer: whatever was complete there is not handed on
    in this turn. *)
Theorem read_chunk_split {State : Type} (handler : string -> State -> State * bool)
    (buffer d1 d2 : string) (st : State) :
  let first := read_chunk handler buffer d1 st in
  let at_once := read_chunk handler buffer (String.append d1 d2) st in
  (raised first = false ->
     let second := read_chunk handler (kept first) d2 (state_after first) in
     at_once =
       {| handed := handed first ++ handed second; kept := kept second;
          state_after := state_after second; raised := raised second |}) /\
  (raised first = true ->
     at_once =
       {| handed := handed first; kept := String.append (kept first) d2;
          state_after := state_after first; raised := true |}).
Proof.
  cbv zeta. unfold read_chunk. rewrite <- string_app_assoc.
  rewrite (drain_all_app_below handler
             (S (String.length (String.append buffer d1)))
             (String.append buffer d1) d2 st) by lia.
  cbv zeta. split; intros ->; reflexivity.
Qed.


(* ===================================================================== *)
(** ** What every operation keeps *)
(* ===================================================================== *)

Section MoveLemmas.

Lemma send_command_cases command w :
  send_command command w = (w, false) \/
  send_command command w = (with_written (fun out => out ++ [command]) w, true).
Proof.
  unfold send_command. destruct (connected _); [|left; reflexivity].
  destruct (ser _) as [port|]; [|left; reflexivity].
  destruct (write_fails port); [left|right]; reflexivity.
Qed.

Lemma ota_update_core_moves now node_id version filepath initiated_by w :
  let w' := fst (ota_update_core now node_id version filepath initiated_by w) in
  history_move (ota_history w) (ota_history w') /\
  sessions_move (sessions w) (sessions w') /\
  nodes_move (nodes w) (nodes w').
Proof.
  unfold ota_update_core.
  destruct (files w !! filepath) as [fw|]; [|repeat split; constructor].
  destruct (find_node node_id (nodes w)) as [node|]; [|repeat split; constructor].
  destruct (connected (gateway_connection w)); [|repeat split; constructor].
  cbn [negb].
  destruct (send_command_cases (ota_offer node_id version (Z.of_nat (length fw)) 1024)
              (with_sessions (insert node_id
                 (new_session now fw version (n_name node) false)) w))
    as [-> | ->]; cbn [negb fst].
  - repeat split; try constructor.
    change (sessions_move (sessions w)
              (delete node_id (<[node_id := new_session now fw version (n_name node) false]> (sessions w)))).
    rewrite delete_insert_eq. constructor.
  - repeat split.
    + apply history_append.
    + apply sessions_insert.
    + eapply nodes_update; [|apply nodes_same]. reflexivity.
Qed.


Lemma auto_ota_send_moves env now node_id node_name version w :
  let w' := auto_ota_send env now node_id node_name version w in
  history_move (ota_history w) (ota_history w') /\
  sessions_move (sessions w) (sessions w') /\
  nodes_move (nodes w) (nodes w').
Proof.
  unfold auto_ota_send.
  destruct (files w !! temp_path env) as [fw|]; [|repeat split; constructor].
  destruct (read_raises env); [repeat split; constructor|].
  destruct (send_command_cases (ota_offer node_id version (Z.of_nat (length fw)) 1024)
              (with_sessions (insert node_id
                 (new_session now fw version node_name true)) w))
    as [-> | ->].
  - repeat split; try constructor.
    change (sessions_move (sessions w)
              (delete node_id (<[node_id := new_session now fw version node_name true]> (sessions w)))).
    rewrite delete_insert_eq. constructor.
  - repeat split.
    + apply history_append.
    + apply sessions_insert.
    + eapply nodes_update; [|apply nodes_same]. reflexivity.
Qed.

Lemma auto_ota_worker_moves sha env now node_id node_name url sha256_hash version w :
  let w' := auto_ota_worker sha env now node_id node_name url sha256_hash version w in
  history_move (ota_history w) (ota_history w') /\
  sessions_move (sessions w) (sessions w') /\
  nodes_move (nodes w) (nodes w').
Proof.
  unfold auto_ota_worker.
  destruct (download env) as [|received|body]; try (repeat split; constructor).
  set (w1 := with_files _ _).
  pose proof (auto_ota_send_moves env now node_id node_name version w1) as Hsend.
  destruct sha256_hash as [h|]; [|exact Hsend].
  destruct (Py.truthy h); [|exact Hsend].
  unfold auto_ota_verify. destruct (files w1 !! temp_path env);
    [|repeat split; constructor].
  destruct (digest_raises env); [repeat split; constructor|].
  destruct (negb _); [repeat split; constructor|exact Hsend].
Qed.

Lemma send_ota_chunk_moves node_id idx w :
  let w' := fst (send_ota_chunk node_id idx w) in
  ota_history w' = ota_history w /\ sessions w' = sessions w /\
  nodes w' = nodes w.
Proof.
  unfold send_ota_chunk. destruct (sessions w !! node_id) as [s|];
    [|repeat split; reflexivity].
  destruct (_ >=? _).
  - destruct (send_command_cases (ota_end node_id) w) as [-> | ->];
      repeat split; reflexivity.
  - match goal with |- context [send_command ?c w] =>
      destruct (send_command_cases c w) as [-> | ->] end;
      try destruct (_ =? 0); repeat split; reflexivity.
Qed.

Lemma handle_ota_result_moves now node_id success msg_text new_version w :
  let w' := handle_ota_result now node_id success msg_text new_version w in
  history_move (ota_history w) (ota_history w') /\
  sessions_move (sessions w) (sessions w') /\
  nodes_move (nodes w) (nodes w').
Proof.
  unfold handle_ota_result.
  destruct (success && Py.truthy new_version) eqn:Hok.
  - destruct (find_node node_id (nodes w)) as [node|].
    + apply andb_true_iff in Hok. destruct Hok as [-> _].
      change (sessions (with_history _ (with_nodes _ w))) with (sessions w).
      destruct (sessions w !! node_id); repeat split;
        try apply history_close; try apply sessions_delete;
        try apply sessions_same;
        (eapply nodes_update; [|apply nodes_same]; reflexivity).
    + destruct (sessions w !! node_id); repeat split; constructor.
  - destruct (sessions w !! node_id); repeat split; constructor.
Qed.

Lemma handle_ota_check_auto_moves now net node_id role fw w :
  let w' := handle_ota_check_auto now net node_id role fw w in
  ota_history w' = ota_history w /\ sessions w' = sessions w /\
  nodes_move (nodes w) (nodes w').
Proof.
  unfold handle_ota_check_auto.
  destruct (AUTO_OTA_ENABLED w); cbn [negb]; [|repeat split; constructor].
  destruct (_ <? _); [repeat split; constructor|].
  pose proof (get_firmware_url_for_role_frame now net role w) as Hframe.
  destruct (get_firmware_url_for_role now net role w) as [w1 info].
  cbn [fst] in Hframe.
  destruct Hframe as (Hgw & Hnodes & Hhist & _).
  assert (sessions w1 = sessions w) as Hsess by (unfold sessions; rewrite Hgw; reflexivity).
  destruct info as [[[url sha] latest]|];
    [|rewrite Hnodes; repeat split; try assumption; constructor].
  destruct (compare_versions fw latest); cbn [negb];
    [|rewrite Hnodes; repeat split; try assumption; constructor].
  destruct (find_node node_id (nodes w1)) as [node|] eqn:Hfind.
  - cbn. rewrite Hnodes. repeat split; try assumption. constructor.
  - cbn. repeat split; try assumption. rewrite <- Hnodes.
    eapply nodes_append; [|apply nodes_same]. exact Hfind.
Qed.

Lemma ota_history_emit e w : ota_history (emit e w) = ota_history w.
Proof. reflexivity. Qed.

Lemma nodes_emit e w : nodes (emit e w) = nodes w.
Proof. reflexivity. Qed.

Lemma handler_moves now net m w :
  let w' :=
    match m with
    | ota_check_forward source_node role fw_version =>
        handle_ota_check_auto now net source_node role fw_version w
    | ota_accept source_node device_name =>
        handle_ota_accept source_node device_name w
    | ota_next source_node idx => handle_ota_next source_node idx w
    | ota_result source_node ok msg new_version =>
        handle_ota_result now source_node ok msg new_version w
    | ota_error source_node message =>
        handle_ota_error now source_node message w
    end in
  history_move (ota_history w) (ota_history w') /\
  sessions_move (sessions w) (sessions w') /\
  nodes_move (nodes w) (nodes w').
Proof.
  cbv zeta.
  destruct m as [id role fw|id name|id idx|id ok msg nv|id msg].
  - destruct (handle_ota_check_auto_moves now net id role fw w) as (Hh & Hs & Hn).
    rewrite Hh, Hs. repeat split; try constructor. exact Hn.
  - unfold handle_ota_accept. destruct (sessions w !! id);
      [|repeat split; constructor].
    destruct (send_ota_chunk_moves id 0 w) as (Hh & Hs & Hn).
    rewrite Hh, Hs, Hn. repeat split; constructor.
  - unfold handle_ota_next. destruct (sessions w !! id);
      [|repeat split; constructor].
    destruct (send_ota_chunk_moves id idx w) as (Hh & Hs & Hn).
    rewrite Hh, Hs, Hn. repeat split; constructor.
  - apply (handle_ota_result_moves now id ok msg nv w).
  - unfold handle_ota_error. destruct (sessions w !! id);
      repeat split; constructor.
Qed.

Lemma process_gateway_message_moves now net m w :
  let w' := process_gateway_message now net m w in
  history_move (ota_history w) (ota_history w') /\
  sessions_move (sessions w) (sessions w') /\
  nodes_move (nodes w) (nodes w').
Proof.
  unfold process_gateway_message. cbv zeta.
  destruct (handler_raises m w);
    [|rewrite ota_history_emit, sessions_emit, nodes_emit];
    apply handler_moves.
Qed.

Lemma update_nodes_from_gateway_moves now active_nodes ns :
  nodes_move ns (fst (update_nodes_from_gateway now active_nodes ns)).
Proof.
  revert ns. induction active_nodes as [|r rest IH]; intros ns; simpl;
    [constructor|].
  destruct (find_node (r_node_id r) ns) as [existing|] eqn:Hfind.
  - eapply nodes_update; [|apply IH]. reflexivity.
  - specialize (IH (ns ++ [new_reported_node now r])).
    destruct (update_nodes_from_gateway now rest _) as [ns' added].
    eapply nodes_append; [|exact IH]. exact Hfind.
Qed.

Lemma ota_update_core_json_moves now node_id version filepath initiated_by w :
  let w' := fst (ota_update_core_json now node_id version filepath initiated_by w) in
  history_move (ota_history w) (ota_history w') /\
  sessions_move (sessions w) (sessions w') /\
  nodes_move (nodes w) (nodes w').
Proof.
  unfold ota_update_core_json.
  destruct (files w !! filepath); [|repeat split; constructor].
  destruct (json_int node_id) as [id|]; [|repeat split; constructor].
  apply ota_update_core_moves.
Qed.

Lemma ota_from_github_moves sha env now user node_id version url sha256 w :
  let w' := fst (ota_from_github sha env now user node_id version url sha256 w) in
  history_move (ota_history w) (ota_history w') /\
  sessions_move (sessions w) (sessions w') /\
  nodes_move (nodes w) (nodes w').
Proof.
  unfold ota_from_github.
  destruct (negb _); [repeat split; constructor|].
  destruct (download env) as [|received|body]; try (repeat split; constructor).
  set (w1 := with_files _ w).
  set (core := let '(w2, resp) := ota_update_core_json _ _ _ _ _ w1 in _).
  assert (history_move (ota_history w) (ota_history (fst core)) /\
          sessions_move (sessions w) (sessions (fst core)) /\
          nodes_move (nodes w) (nodes (fst core))) as Hcore.
  { subst core.
    pose proof (ota_update_core_json_moves now node_id
                  (str_strip (default ""%string version)) (temp_path env) user w1)
      as Hm.
    destruct (ota_update_core_json _ _ _ _ _ w1) as [w2 resp]. exact Hm. }
  destruct (Py.truthy _); [|exact Hcore].
  destruct (digest_raises env); [repeat split; constructor|].
  destruct (negb _); [repeat split; constructor|exact Hcore].
Qed.

(** Every operation moves the log, the store and the registry in one of
    the ways above. *)
Lemma step_moves w w' :
  step w w' ->
  history_move (ota_history w) (ota_history w') /\
  sessions_move (sessions w) (sessions w') /\
  nodes_move (nodes w) (nodes w').
Proof.
  intros Hstep. destruct Hstep.
  - apply process_gateway_message_moves.
  - repeat split; try constructor. apply update_nodes_from_gateway_moves.
  - apply ota_update_core_moves.
  - apply auto_ota_worker_moves.
  - unfold initiate_ota. destruct (_ && _); [|repeat split; constructor].
    apply ota_update_core_json_moves.
  - apply ota_from_github_moves.
  - unfold refresh_manifest, fetch_manifest. cbn [manifest_cache with_manifest_cache].
    destruct net; repeat split; constructor.
  - repeat split; constructor.
  - repeat split; constructor.
  - unfold connect_gateway. destruct (connected _); repeat split; constructor.
Qed.

End MoveLemmas.

Section InvariantLemmas.

Lemma close_first_open_ids node_id st now h :
  h_id <$> close_first_open node_id st now h = h_id <$> h.
Proof.
  induction h as [|e h IH]; [reflexivity|]. cbn [close_first_open].
  destruct (_ && _); [reflexivity|]. rewrite !fmap_cons, IH. reflexivity.
Qed.

Lemma close_first_open_length node_id st now h :
  length (close_first_open node_id st now h) = length h.
Proof.
  induction h as [|e h IH]; simpl; [reflexivity|].
  destruct (_ && _); simpl; [reflexivity|]. rewrite IH. reflexivity.
Qed.

Lemma history_move_numbered h h' :
  history_move h h' ->
  h_id <$> h = (fun i => Z.of_nat i) <$> seq 1 (length h) ->
  h_id <$> h' = (fun i => Z.of_nat i) <$> seq 1 (length h').
Proof.
  intros Hmove Hnum. destruct Hmove.
  - exact Hnum.
  - rewrite fmap_app, length_app, seq_app, fmap_app, Hnum. simpl.
    do 2 f_equal. lia.
  - rewrite close_first_open_ids, close_first_open_length. exact Hnum.
Qed.

Lemma close_first_open_without_failed node_id now h :
  Forall (fun e => h_status e <> failed) h ->
  Forall (fun e => h_status e <> failed) (close_first_open node_id completed now h).
Proof.
  induction 1 as [|e h He Hh IH]; simpl; [constructor|].
  destruct (_ && _); constructor; try assumption. discriminate.
Qed.

Lemma history_move_without_failed h h' :
  history_move h h' ->
  Forall (fun e => h_status e <> failed) h ->
  Forall (fun e => h_status e <> failed) h'.
Proof.
  intros Hmove Hh. destruct Hmove.
  - exact Hh.
  - apply Forall_app. split; [exact Hh|]. repeat constructor. discriminate.
  - apply close_first_open_without_failed, Hh.
Qed.

Lemma close_first_open_lookup node_id now h (i : nat) e :
  h !! i = Some e ->
  exists e', close_first_open node_id completed now h !! i = Some e' /\
    same_identity e e' /\
    (e' = e \/ (h_status e = initiated /\ h_status e' = completed /\
                h_completed_at e' = Some now)).
Proof.
  revert i. induction h as [|x h IH]; intros i Hi; [discriminate|].
  simpl. destruct ((h_node_id x =? node_id) && OtaStatus_eqb (h_status x) initiated)
    eqn:Htest.
  - destruct i as [|i]; simpl in *.
    + injection Hi as ->. eexists. split; [reflexivity|].
      split; [repeat split|]. right.
      apply andb_true_iff in Htest. destruct Htest as [_ Hst].
      destruct (h_status e); try discriminate. repeat split.
    + exists e. split; [exact Hi|]. split; [repeat split|]. left. reflexivity.
  - destruct i as [|i]; simpl in *.
    + injection Hi as ->. exists e. split; [reflexivity|].
      split; [repeat split|]. left. reflexivity.
    + apply IH, Hi.
Qed.

Lemma history_move_lookup h h' (i : nat) e :
  history_move h h' -> h !! i = Some e ->
  exists e', h' !! i = Some e' /\ same_identity e e' /\
    (e' = e \/ (h_status e = initiated /\ h_status e' = completed /\
                is_Some (h_completed_at e'))).
Proof.
  intros Hmove Hi. destruct Hmove.
  - exists e. split; [exact Hi|]. split; [repeat split|]. left. reflexivity.
  - exists e. split; [apply lookup_app_l_Some, Hi|].
    split; [repeat split|]. left. reflexivity.
  - destruct (close_first_open_lookup node_id now h i e Hi)
      as (e' & Hlook & Hid & [->|(H1 & H2 & H3)]).
    + exists e. split; [exact Hlook|]. split; [exact Hid|]. left. reflexivity.
    + exists e'. split; [exact Hlook|]. split; [exact Hid|]. right.
      repeat split; try assumption. rewrite H3. eexists. reflexivity.
Qed.

Lemma history_move_length h h' :
  history_move h h' -> (length h <= length h')%nat.
Proof.
  intros Hmove. destruct Hmove.
  - lia.
  - rewrite length_app. simpl. lia.
  - rewrite close_first_open_length. lia.
Qed.

Lemma sessions_move_well_formed (m m' : gmap Z Session) :
  sessions_move m m' ->
  map_Forall (fun _ s => chunk_size s = 1024 /\
                         s_size s = Z.of_nat (length (firmware_data s))) m ->
  map_Forall (fun _ s => chunk_size s = 1024 /\
                         s_size s = Z.of_nat (length (firmware_data s))) m'.
Proof.
  intros Hmove Hm. destruct Hmove.
  - exact Hm.
  - apply map_Forall_insert_2; [split; reflexivity|exact Hm].
  - apply map_Forall_delete, Hm.
  - apply map_Forall_empty.
Qed.

Lemma update_node_ids node_id f ns :
  (forall n, n_id (f n) = n_id n) ->
  n_id <$> update_node node_id f ns = n_id <$> ns.
Proof.
  intros Hf. induction ns as [|n ns IH]; [reflexivity|]. cbn [update_node].
  destruct (n_id n =? node_id); rewrite !fmap_cons; [rewrite Hf|rewrite IH];
    reflexivity.
Qed.

Lemma find_node_None node_id ns :
  find_node node_id ns = None <-> node_id ∉ (n_id <$> ns).
Proof.
  induction ns as [|n ns IH]; simpl.
  - split; [intros _; apply not_elem_of_nil|reflexivity].
  - rewrite not_elem_of_cons. destruct (Z.eqb_spec (n_id n) node_id) as [Heq|Hne].
    + split; [discriminate|]. intros [H _]. congruence.
    + rewrite IH. split; [intros H; split; [congruence|exact H]|intros [_ H]; exact H].
Qed.

Lemma nodes_move_unique ns ns' :
  nodes_move ns ns' -> NoDup (n_id <$> ns) -> NoDup (n_id <$> ns').
Proof.
  induction 1 as [|ns node_id f ns' Hf _ IH|ns n ns' Hfind _ IH]; intros Hnd.
  - exact Hnd.
  - apply IH. rewrite update_node_ids by exact Hf. exact Hnd.
  - apply IH. rewrite fmap_app. apply NoDup_app. split; [exact Hnd|].
    split.
    + intros x Hx Hin. simpl in Hin. apply list_elem_of_singleton in Hin. subst x.
      apply find_node_None in Hfind. contradiction.
    + simpl. apply NoDup_singleton.
Qed.

(** What holds at the start and is kept by every operation holds in every
    world that the operations can reach. *)
Lemma reachable_ind (P : World -> Prop) :
  P initial_world ->
  (forall w w', P w -> step w w' -> P w') ->
  forall w, rtc step initial_world w -> P w.
Proof.
  intros Hstart Hkeep w Hreach.
  eapply (rtc_ind_r (R := step) P initial_world Hstart); [|exact Hreach].
  intros y z _ Hstep Hy. exact (Hkeep y z Hy Hstep).
Qed.

End InvariantLemmas.

(** X3.  The entries of the history log are numbered 1, 2, 3, ... in log
    order: this holds when the module is loaded and every operation keeps
    it, so it holds in every world the program can reach. *)
Theorem history_numbered_invariant :
  history_numbered initial_world /\
  (forall w w', history_numbered w -> step w w' -> history_numbered w') /\
  (forall w, rtc step initial_world w -> history_numbered w).
Proof.
  assert (forall w w', history_numbered w -> step w w' -> history_numbered w')
    as Hkeep.
  { intros w w' Hw Hstep. apply step_moves in Hstep. destruct Hstep as (Hh & _).
    unfold history_numbered in *. eapply history_move_numbered; eassumption. }
  split; [reflexivity|]. split; [exact Hkeep|].
  apply reachable_ind; [reflexivity|exact Hkeep].
Qed.

Lemma history_numbered_invariant_witness :
  history_numbered
    (fst (ota_update_core 100 7 "9.9.9" "firmware_uploads/new.bin" "admin"
            busy_world)).
Proof.
  apply (proj1 (proj2 history_numbered_invariant) busy_world).
  - reflexivity.
  - apply step_ota_update_core.
Defined.

(** X4.  No operation writes the status ['failed'] into the history log:
    a log without a failed entry stays without one, and no world that the
    program can reach has one. *)
Theorem history_never_failed :
  (forall w w', history_without_failed w -> step w w' -> history_without_failed w') /\
  (forall w, rtc step initial_world w -> history_without_failed w).
Proof.
  assert (forall w w', history_without_failed w -> step w w' ->
                       history_without_failed w') as Hkeep.
  { intros w w' Hw Hstep. apply step_moves in Hstep. destruct Hstep as (Hh & _).
    unfold history_without_failed in *.
    eapply history_move_without_failed; eassumption. }
  split; [exact Hkeep|]. apply reachable_ind; [|exact Hkeep].
  apply Forall_nil. exact I.
Qed.

Lemma history_never_failed_witness :
  history_without_failed
    (process_gateway_message 200 None (ota_result 7 false "flash write failed" "")
       pending_world).
Proof.
  apply (proj1 history_never_failed pending_world).
  - repeat constructor. discriminate.
  - apply step_message.
Defined.

(** X5.  The history log only grows and its entries keep their place and
    their identity: after any operation every entry is still at its
    index with the same id, node, version, initiator, time and size, and
    it is either unchanged or went from ['initiated'] to ['completed']
    with a completion time. *)
Theorem history_append_only (w w' : World) (i : nat) (e : OtaEvent) :
  step w w' ->
  ota_history w !! i = Some e ->
  (length (ota_history w) <= length (ota_history w'))%nat /\
  exists e', ota_history w' !! i = Some e' /\ same_identity e e' /\
    (e' = e \/ (h_status e = initiated /\ h_status e' = completed /\
                is_Some (h_completed_at e'))).
Proof.
  intros Hstep Hi. apply step_moves in Hstep. destruct Hstep as (Hh & _).
  split; [apply history_move_length, Hh|].
  eapply history_move_lookup; eassumption.
Qed.

Lemma history_append_only_witness :
  let w' := process_gateway_message 200 None (ota_result 7 true "ok" "2.1.0")
              twice_triggered_world in
  (length (ota_history twice_triggered_world) <= length (ota_history w'))%nat /\
  exists e', ota_history w' !! 1%nat = Some e' /\ same_identity newer_entry e' /\
    (e' = newer_entry \/
     (h_status newer_entry = initiated /\ h_status e' = completed /\
      is_Some (h_completed_at e'))).
Proof.
  apply (history_append_only twice_triggered_world).
  - apply step_message.
  - reflexivity.
Defined.

(** X6.  Every session has chunks of 1024 bytes and a size field equal to
    the length of its firmware buffer: every operation keeps this, and it
    holds in every world that the program can reach. *)
Theorem sessions_well_formed_invariant :
  (forall w w', sessions_well_formed w -> step w w' -> sessions_well_formed w') /\
  (forall w, rtc step initial_world w -> sessions_well_formed w).
Proof.
  assert (forall w w', sessions_well_formed w -> step w w' ->
                       sessions_well_formed w') as Hkeep.
  { intros w w' Hw Hstep. apply step_moves in Hstep.
    destruct Hstep as (_ & Hs & _). unfold sessions_well_formed in *.
    eapply sessions_move_well_formed; eassumption. }
  split; [exact Hkeep|]. apply reachable_ind; [|exact Hkeep].
  apply map_Forall_empty.
Qed.

Lemma sessions_well_formed_invariant_witness :
  sessions_well_formed
    (auto_ota_worker (fun _ => "00"%string) demo_env 100 7 "Node_7"
       "https://example.org/fw.bin" None "9.9.9" initial_world).
Proof.
  apply (proj1 sessions_well_formed_invariant initial_world).
  - apply map_Forall_empty.
  - apply step_auto_ota_worker.
Defined.

(** X7.  The mesh report, the OTA check, the triggers and the protocol
    handlers never give the registry a second record for an id: a
    registry without duplicate ids stays without them, and so is every
    registry that these operations can reach. *)
Theorem registry_unique_invariant :
  (forall w w', registry_unique w -> step w w' -> registry_unique w') /\
  (forall w, rtc step initial_world w -> registry_unique w).
Proof.
  assert (forall w w', registry_unique w -> step w w' -> registry_unique w')
    as Hkeep.
  { intros w w' Hw Hstep. apply step_moves in Hstep.
    destruct Hstep as (_ & _ & Hn). unfold registry_unique in *.
    eapply nodes_move_unique; eassumption. }
  split; [exact Hkeep|]. apply reachable_ind; [|exact Hkeep].
  apply NoDup_nil. exact I.
Qed.

Lemma registry_unique_invariant_witness :
  registry_unique
    (process_gateway_message 1000 (Some demo_manifest)
       (ota_check_forward 8 "sensor_node" "2.0.0") busy_world).
Proof.
  apply (proj1 registry_unique_invariant busy_world).
  - apply NoDup_singleton.
  - apply step_message.
Defined.

(* ===================================================================== *)
(** ** Version comparison, once more *)
(* ===================================================================== *)

Section VersionOrderLemmas.

Lemma compare_loop_same (cs : list Z) : compare_loop (Py.zip cs cs) = false.
Proof.
  induction cs as [|c cs IH]; simpl; [reflexivity|].
  rewrite Z.gtb_ltb, Z.ltb_irrefl. exact IH.
Qed.

Lemma compare_loop_one_direction (cs ls : list Z) :
  compare_loop (Py.zip cs ls) = true -> compare_loop (Py.zip ls cs) = false.
Proof.
  revert ls. induction cs as [|c cs IH]; intros [|l ls]; simpl;
    try discriminate.
  rewrite !Z.gtb_ltb.
  destruct (Z.ltb_spec c l), (Z.ltb_spec l c); try reflexivity; try lia;
    try discriminate.
  apply IH.
Qed.

Lemma compare_versions_fallback (a b : string) :
  has_non_numeric a \/ has_non_numeric b ->
  compare_versions a b = negb (String.eqb a b).
Proof.
  unfold compare_versions.
  intros [H|H]; apply has_non_numeric_ints in H; rewrite H; [reflexivity|].
  destruct (Py.ints (Py.split "."%char a)); reflexivity.
Qed.

End VersionOrderLemmas.

(** X8.  A version is never newer than itself, whatever the string is:
    a node that reports exactly the version of the manifest is not
    updated. *)
Theorem compare_versions_same (v : string) : compare_versions v v = false.
Proof.
  unfold compare_versions.
  destruct (Py.ints (Py.split "."%char v)) as [cs|].
  - apply compare_loop_same.
  - rewrite String.eqb_refl. reflexivity.
Qed.

(** X9.  When all components of both versions are integers, at most one
    of the two versions is newer than the other.  When some component is
    not an integer, the comparison is symmetric: two different strings are
    each newer than the other. *)
Theorem compare_versions_directions (a b : string) :
  (forall cs ls, parses_to a cs -> parses_to b ls ->
     compare_versions a b = true -> compare_versions b a = false) /\
  (has_non_numeric a \/ has_non_numeric b ->
     compare_versions a b = compare_versions b a /\
     (compare_versions a b = true <-> a <> b)).
Proof.
  split.
  - intros cs ls Ha Hb.
    apply parses_to_ints in Ha. apply parses_to_ints in Hb.
    unfold compare_versions. rewrite Ha, Hb. apply compare_loop_one_direction.
  - intros Hbad.
    assert (compare_versions a b = negb (String.eqb a b)) as Hab
      by (apply compare_versions_fallback; exact Hbad).
    assert (compare_versions b a = negb (String.eqb b a)) as Hba
      by (apply compare_versions_fallback; tauto).
    rewrite Hab, Hba. split.
    + rewrite (String.eqb_sym a b). reflexivity.
    + rewrite negb_true_iff. apply String.eqb_neq.
Qed.

Lemma compare_versions_directions_witness :
  compare_versions "2.1.0" "2.0.9" = false /\
  compare_versions "2.x" "2.1" = compare_versions "2.1" "2.x" /\
  compare_versions "1" (String "028" "2") = true /\
  compare_versions (String "028" "2") "1" = true.
Proof.
  assert (has_non_numeric "1" \/ has_non_numeric (String "028" "2")) as Hsep
    by (right; apply has_non_numeric_ints; reflexivity).
  destruct (proj2 (compare_versions_directions "1" (String "028" "2")) Hsep)
    as [Hsym Hdiff].
  split; [|split; [|split;
    [apply Hdiff; discriminate|rewrite <- Hsym; apply Hdiff; discriminate]]].
  - apply (proj1 (compare_versions_directions "2.0.9" "2.1.0")
             [2; 0; 9] [2; 1; 0]).
    + apply parses_to_ints. reflexivity.
    + apply parses_to_ints. reflexivity.
    + reflexivity.
  - refine (proj1 (proj2 (compare_versions_directions "2.x" "2.1") _)).
    left. apply has_non_numeric_ints. reflexivity.
Defined.

(* ===================================================================== *)
(** ** The manifest cache *)
(* ===================================================================== *)

(** X10.  The cache of [fetch_manifest]: a cached manifest younger than
    300 seconds is returned without asking the network and nothing
    changes; otherwise the network decides: a failed request returns
    nothing, even when an older manifest is cached, and leaves the cache
    as it is, and a successful one replaces the cache and is then served
    from it for the next 300 seconds whatever the network does. *)
Theorem fetch_manifest_cache_rules (now : Z) (net : option Manifest) (w : World) :
  (forall cached, manifest_cache w = Some cached ->
     now - manifest_last_fetch w < 300 ->
     fetch_manifest now net w = (w, Some cached)) /\
  (manifest_cache w = None \/ 300 <= now - manifest_last_fetch w ->
     match net with
     | None => fetch_manifest now net w = (w, None)
     | Some m =>
         fetch_manifest now net w = (with_manifest m now w, Some m) /\
         forall now' net', now' - now < 300 ->
           fetch_manifest now' net' (with_manifest m now w)
           = (with_manifest m now w, Some m)
     end).
Proof.
  split.
  - intros cached Hc Hfresh. unfold fetch_manifest. rewrite Hc.
    destruct (Z.ltb_spec (now - manifest_last_fetch w) 300); [|lia].
    destruct net; reflexivity.
  - intros Hstale.
    assert (fetch_manifest now net w =
            match net with
            | Some m => (with_manifest m now w, Some m)
            | None => (w, None)
            end) as Hfetch.
    { unfold fetch_manifest. destruct Hstale as [-> | Hold]; [reflexivity|].
      destruct (manifest_cache w); [|reflexivity].
      destruct (Z.ltb_spec (now - manifest_last_fetch w) 300); [lia|reflexivity]. }
    destruct net as [m|]; [|exact Hfetch]. split; [exact Hfetch|].
    intros now' net' Hsoon. unfold fetch_manifest.
    cbn [manifest_cache manifest_last_fetch with_manifest].
    destruct (Z.ltb_spec (now' - now) 300); [|lia]. destruct net'; reflexivity.
Qed.

Lemma fetch_manifest_cache_rules_witness :
  fetch_manifest 1000 None cached_world = (cached_world, Some demo_manifest) /\
  fetch_manifest 1300 None cached_world = (cached_world, None).
Proof.
  split.
  - apply (proj1 (fetch_manifest_cache_rules 1000 None cached_world) demo_manifest).
    + reflexivity.
    + reflexivity.
  - refine (proj2 (fetch_manifest_cache_rules 1300 None cached_world) _).
    right. discriminate.
Defined.

(** X11.  [refresh_manifest] drops the cache before it asks the network:
    when the request fails, a manifest that was cached and still fresh is
    gone, and every later lookup of a firmware URL fails for as long as the
    network does, although the same lookup succeeded before the refresh. *)
Theorem refresh_manifest_loses_cache (now now' : Z) (role url : string)
    (cached : Manifest) (w : World) :
  manifest_cache w = Some cached ->
  now - manifest_last_fetch w < 300 ->
  m_assets cached !! role = Some url ->
  Py.truthy url = true ->
  let w1 := fst (refresh_manifest now None w) in
  snd (get_firmware_url_for_role now None role w)
    = Some (url, m_sha256 cached !! role, m_version cached) /\
  snd (refresh_manifest now None w) = None /\
  manifest_cache w1 = None /\
  snd (get_firmware_url_for_role now' None role w1) = None.
Proof.
  intros Hc Hfresh Hurl Htruthy w1. subst w1. repeat split.
  - unfold get_firmware_url_for_role, fetch_manifest. rewrite Hc.
    destruct (Z.ltb_spec (now - manifest_last_fetch w) 300); [|lia].
    rewrite Hurl, Htruthy. reflexivity.
Qed.

Lemma refresh_manifest_loses_cache_witness :
  snd (get_firmware_url_for_role 1000 None "sensor_node" cached_world)
    = Some ("https://example.org/sensor.bin"%string, None, "2.1.0"%string) /\
  snd (refresh_manifest 1000 None cached_world) = None /\
  manifest_cache (fst (refresh_manifest 1000 None cached_world)) = None /\
  snd (get_firmware_url_for_role 1001 None "sensor_node"
         (fst (refresh_manifest 1000 None cached_world))) = None.
Proof.
  apply (refresh_manifest_loses_cache 1000 1001 "sensor_node"
           "https://example.org/sensor.bin" demo_manifest cached_world);
    reflexivity.
Defined.

(* ===================================================================== *)
(** ** The auto-update decision *)
(* ===================================================================== *)

Section CheckLemmas.

(** A check that starts a worker. *)
Lemma handle_ota_check_auto_starts now net node_id role fw url sha latest w :
  AUTO_OTA_ENABLED w = true ->
  (now - default 0 (last_auto_ota w !! node_id) <? AUTO_OTA_COOLDOWN) = false ->
  snd (get_firmware_url_for_role now net role w) = Some (url, sha, latest) ->
  compare_versions fw latest = true ->
  let w1 := fst (get_firmware_url_for_role now net role w) in
  handle_ota_check_auto now net node_id role fw w =
    with_last_auto_ota (insert node_id now)
      (match find_node node_id (nodes w1) with
       | Some node =>
           start_thread
             {| wa_node_id := node_id; wa_node_name := n_name node;
                wa_firmware_url := url; wa_sha256_hash := sha;
                wa_version := latest |} w1
       | None =>
           start_thread
             {| wa_node_id := node_id;
                wa_node_name := n_name (new_checked_node now node_id fw role);
                wa_firmware_url := url; wa_sha256_hash := sha;
                wa_version := latest |}
             (with_nodes (fun ns => ns ++ [new_checked_node now node_id fw role]) w1)
       end).
Proof.
  intros Hon Hcool Hinfo Hnewer. unfold handle_ota_check_auto.
  rewrite Hon, Hcool. cbn [negb].
  destruct (get_firmware_url_for_role now net role w) as [w1 info].
  cbn [fst snd] in *. subst info. rewrite Hnewer. cbn [negb].
  destruct (find_node node_id (nodes w1)); reflexivity.
Qed.

End CheckLemmas.

(** X12.  The cooldown: once a check has started a worker for a node at
    time [now], every further check for that node less than 300 seconds
    later changes nothing at all, whatever it reports and whatever the
    manifest says: one worker per node and window. *)
Theorem check_within_cooldown_is_ignored (now : Z) (net : option Manifest)
    (node_id : Z) (role fw url : string) (sha : option string) (latest : string)
    (w : World) :
  AUTO_OTA_ENABLED w = true ->
  (now - default 0 (last_auto_ota w !! node_id) <? AUTO_OTA_COOLDOWN) = false ->
  snd (get_firmware_url_for_role now net role w) = Some (url, sha, latest) ->
  compare_versions fw latest = true ->
  let w1 := handle_ota_check_auto now net node_id role fw w in
  length (threads w1) = S (length (threads w)) /\
  forall now' net' role' fw',
    now' - now < 300 ->
    handle_ota_check_auto now' net' node_id role' fw' w1 = w1.
Proof.
  intros Hon Hcool Hinfo Hnewer w1. subst w1.
  rewrite (handle_ota_check_auto_starts now net node_id role fw url sha latest w)
    by assumption.
  pose proof (get_firmware_url_for_role_frame now net role w)
    as (_ & _ & _ & _ & Hthreads & _).
  set (w0 := fst (get_firmware_url_for_role now net role w)) in *.
  destruct (find_node node_id (nodes w0)); (split;
    [cbn [threads with_last_auto_ota start_thread with_nodes];
     rewrite length_app, Hthreads; simpl; lia|]);
    intros now' net' role' fw' Hsoon; unfold handle_ota_check_auto;
    match goal with
    | |- context [negb (AUTO_OTA_ENABLED ?x)] => destruct (AUTO_OTA_ENABLED x)
    end; try reflexivity; cbn [negb];
    cbn [last_auto_ota with_last_auto_ota]; rewrite lookup_insert_eq;
    change (default 0 (Some now)) with now; unfold AUTO_OTA_COOLDOWN;
    (destruct (Z.ltb_spec (now' - now) 300); [reflexivity|lia]).
Qed.

Lemma check_within_cooldown_is_ignored_witness :
  let w1 := handle_ota_check_auto 1000 (Some demo_manifest) 7 "sensor_node"
              "2.0.0" busy_world in
  length (threads w1) = S (length (threads busy_world)) /\
  forall now' net' role' fw',
    now' - 1000 < 300 ->
    handle_ota_check_auto now' net' 7 role' fw' w1 = w1.
Proof.
  apply (check_within_cooldown_is_ignored 1000 (Some demo_manifest) 7
           "sensor_node" "2.0.0" "https://example.org/sensor.bin" None "2.1.0"
           busy_world); reflexivity.
Defined.

(** X13.  A check never touches the gateway, the history log, the files
    or the event log, it starts at most one worker, and it leaves the
    cooldown times of all other nodes alone. *)
Theorem check_leaves_the_rest_alone (now : Z) (net : option Manifest)
    (node_id : Z) (role fw : string) (w : World) :
  let w' := handle_ota_check_auto now net node_id role fw w in
  gateway_connection w' = gateway_connection w /\
  ota_history w' = ota_history w /\
  files w' = files w /\
  emitted w' = emitted w /\
  (threads w' = threads w \/ exists a, threads w' = threads w ++ [a]) /\
  forall other, other <> node_id ->
    last_auto_ota w' !! other = last_auto_ota w !! other.
Proof.
  unfold handle_ota_check_auto.
  destruct (AUTO_OTA_ENABLED w); cbn [negb];
    [|repeat split; auto].
  destruct (_ <? _); [repeat split; auto|].
  pose proof (get_firmware_url_for_role_frame now net role w) as Hframe.
  destruct (get_firmware_url_for_role now net role w) as [w1 info].
  cbn [fst] in Hframe.
  destruct Hframe as (Hgw & _ & Hhist & Hlast & Hthreads & Hfiles & Hemit).
  destruct info as [[[url sha] latest]|];
    [|rewrite Hlast; repeat split; auto].
  destruct (compare_versions fw latest); cbn [negb];
    [|rewrite Hlast; repeat split; auto].
  destruct (find_node node_id (nodes w1));
    cbn [gateway_connection ota_history files emitted threads last_auto_ota
         with_last_auto_ota start_thread with_nodes];
    rewrite Hthreads, Hlast;
    (repeat split; auto; [right; eexists; reflexivity|]);
    intros other Hne; apply lookup_insert_ne; congruence.
Qed.

Lemma check_leaves_the_rest_alone_witness :
  last_auto_ota
    (handle_ota_check_auto 1000 (Some demo_manifest) 7 "sensor_node" "2.0.0"
       busy_world) !! 8
  = last_auto_ota busy_world !! 8.
Proof.
  apply (check_leaves_the_rest_alone 1000 (Some demo_manifest) 7 "sensor_node"
           "2.0.0" busy_world).
  discriminate.
Defined.

(** X14.  A node that reports the version of the manifest is left alone:
    no worker is started, no record is added to the registry and no
    cooldown time is written, so its next check is looked at again. *)
Theorem up_to_date_node_is_left_alone (now : Z) (net : option Manifest)
    (node_id : Z) (role fw url : string) (sha : option string) (w : World) :
  snd (get_firmware_url_for_role now net role w) = Some (url, sha, fw) ->
  let w' := handle_ota_check_auto now net node_id role fw w in
  threads w' = threads w /\ nodes w' = nodes w /\
  last_auto_ota w' = last_auto_ota w.
Proof.
  intros Hinfo. unfold handle_ota_check_auto.
  destruct (AUTO_OTA_ENABLED w); cbn [negb]; [|repeat split; reflexivity].
  destruct (_ <? _); [repeat split; reflexivity|].
  pose proof (get_firmware_url_for_role_frame now net role w) as Hframe.
  destruct (get_firmware_url_for_role now net role w) as [w1 info].
  cbn [fst snd] in *. subst info.
  destruct Hframe as (_ & Hnodes & _ & Hlast & Hthreads & _).
  rewrite compare_versions_same. cbn [negb]. repeat split; assumption.
Qed.

Lemma up_to_date_node_is_left_alone_witness :
  let w' := handle_ota_check_auto 1000 (Some demo_manifest) 7 "sensor_node"
              "2.1.0" busy_world in
  threads w' = threads busy_world /\ nodes w' = nodes busy_world /\
  last_auto_ota w' = last_auto_ota busy_world.
Proof.
  apply (up_to_date_node_is_left_alone 1000 (Some demo_manifest) 7 "sensor_node"
           "2.1.0" "https://example.org/sensor.bin" None busy_world).
  reflexivity.
Defined.

(** X15.  A check that starts a worker for an id that the registry does
    not hold appends a record for it, named [Node_<id>], online, with the
    reported version and role, and the worker gets that name; for a known
    id the registry is unchanged and the worker gets the registered
    name. *)
Theorem check_registers_unknown_node (now : Z) (net : option Manifest)
    (node_id : Z) (role fw url : string) (sha : option string) (latest : string)
    (w : World) :
  AUTO_OTA_ENABLED w = true ->
  (now - default 0 (last_auto_ota w !! node_id) <? AUTO_OTA_COOLDOWN) = false ->
  snd (get_firmware_url_for_role now net role w) = Some (url, sha, latest) ->
  compare_versions fw latest = true ->
  let w' := handle_ota_check_auto now net node_id role fw w in
  match find_node node_id (nodes w) with
  | None =>
      nodes w' = nodes w ++ [new_checked_node now node_id fw role] /\
      find_node node_id (nodes w') = Some (new_checked_node now node_id fw role) /\
      wa_node_name <$> last (threads w')
        = Some (String.append "Node_" (Py.str_of_int node_id))
  | Some node =>
      nodes w' = nodes w /\
      wa_node_name <$> last (threads w') = Some (n_name node)
  end.
Proof.
  intros Hon Hcool Hinfo Hnewer w'. subst w'.
  rewrite (handle_ota_check_auto_starts now net node_id role fw url sha latest w)
    by assumption.
  pose proof (get_firmware_url_for_role_frame now net role w)
    as (_ & Hnodes & _).
  set (w0 := fst (get_firmware_url_for_role now net role w)) in *.
  rewrite Hnodes.
  destruct (find_node node_id (nodes w)) as [node|] eqn:Hfind;
    cbn [nodes threads with_last_auto_ota start_thread with_nodes];
    rewrite ?Hnodes, last_snoc.
  - split; reflexivity.
  - repeat split; try reflexivity.
    clear -Hfind. induction (nodes w) as [|n ns IH]; simpl in *.
    + rewrite Z.eqb_refl. reflexivity.
    + destruct (n_id n =? node_id); [discriminate|]. apply IH, Hfind.
Qed.

Lemma check_registers_unknown_node_witness :
  let w' := handle_ota_check_auto 1000 (Some demo_manifest) 8 "sensor_node"
              "2.0.0" busy_world in
  nodes w' = nodes busy_world ++ [new_checked_node 1000 8 "2.0.0" "sensor_node"] /\
  find_node 8 (nodes w') = Some (new_checked_node 1000 8 "2.0.0" "sensor_node") /\
  wa_node_name <$> last (threads w') = Some "Node_8"%string.
Proof.
  apply (check_registers_unknown_node 1000 (Some demo_manifest) 8 "sensor_node"
           "2.0.0" "https://example.org/sensor.bin" None "2.1.0" busy_world);
    reflexivity.
Defined.

(* ===================================================================== *)
(** ** The transfer, end to end and at its edges *)
(* ===================================================================== *)

Section TransferEdgeLemmas.

Lemma send_command_link_down command w :
  link_down w -> send_command command w = (w, false).
Proof.
  unfold send_command. intros [H|[H|(port & Hp & Hf)]].
  - rewrite H. reflexivity.
  - rewrite H. destruct (connected _); reflexivity.
  - rewrite Hp, Hf. destruct (connected _); reflexivity.
Qed.

Lemma emitted_with_written f w : emitted (with_written f w) = emitted w.
Proof. reflexivity. Qed.

Lemma request_chunks_emitted (node_id : Z) (session : Session) (idxs : list Z)
    (w : World) :
  sessions w !! node_id = Some session -> 0 < chunk_size session -> link_up w ->
  Forall (fun idx => 0 <= idx /\
            idx * chunk_size session
              < Z.of_nat (length (firmware_data session))) idxs ->
  emitted (request_chunks node_id idxs w)
  = emitted w ++ (progress_event node_id session <$> idxs).
Proof.
  intros Hs HC Hup Hall. revert w Hs Hup.
  induction Hall as [|idx idxs [Hidx Hlt] _ IH]; intros w Hs Hup.
  - simpl. rewrite app_nil_r. reflexivity.
  - cbn [request_chunks foldl].
    fold (request_chunks node_id idxs (handle_ota_next node_id idx w)).
    assert (handle_ota_next node_id idx w =
            emit (progress_event node_id session idx)
              (with_written
                 (fun out => out ++ [chunk_frame node_id session idx]) w))
      as ->.
    { unfold handle_ota_next. rewrite Hs.
      rewrite (send_ota_chunk_data node_id session w idx) by assumption.
      reflexivity. }
    rewrite IH.
    + cbn [emitted emit]. rewrite emitted_with_written, fmap_cons, <- app_assoc.
      reflexivity.
    + exact Hs.
    + apply link_up_emit, link_up_with_written, Hup.
Qed.

Lemma seq_indices_in_range (F : list byte) (C : Z) :
  0 < C ->
  Forall (fun idx => 0 <= idx /\ idx * C < Z.of_nat (length F))
         ((fun i => Z.of_nat i) <$> seq 0 (chunk_count F C)).
Proof.
  intros HC. apply Forall_forall. intros idx Hin.
  apply list_elem_of_fmap in Hin. destruct Hin as (i & -> & Hi).
  apply list_elem_of_In, in_seq in Hi. split; [lia|].
  pose proof (chunk_count_covers F (Z.to_nat C) ltac:(lia)) as [_ Hcov].
  rewrite Z2Nat.id in Hcov by lia. apply Hcov. lia.
Qed.

Lemma chunk_count_reaches_end (F : list byte) (C : Z) :
  0 < C -> Z.of_nat (chunk_count F C) * C >= Z.of_nat (length F).
Proof.
  intros HC.
  pose proof (chunk_count_covers F (Z.to_nat C) ltac:(lia)) as [Hcov _].
  rewrite Z2Nat.id in Hcov by lia.
  apply Nat2Z.inj_le in Hcov. rewrite Nat2Z.inj_mul, Z2Nat.id in Hcov by lia.
  lia.
Qed.

End TransferEdgeLemmas.

(** X16.  When the link does not take the frame, [send_ota_chunk] changes
    nothing: for an index inside the firmware it reports failure and emits
    no progress event; for an index past the end it reports success
    although no [ota_end] went out. *)
Theorem send_ota_chunk_link_down (node_id idx : Z) (session : Session) (w : World) :
  sessions w !! node_id = Some session ->
  link_down w ->
  let start := idx * chunk_size session in
  let total := Z.of_nat (length (firmware_data session)) in
  (start < total -> send_ota_chunk node_id idx w = (w, Some false)) /\
  (start >= total -> send_ota_chunk node_id idx w = (w, Some true)).
Proof.
  intros Hs Hdown start total. unfold send_ota_chunk. rewrite Hs.
  fold start total. rewrite !send_command_link_down by exact Hdown.
  split; intros H.
  - destruct (Z.geb_spec start total); [lia|reflexivity].
  - destruct (Z.geb_spec start total); [reflexivity|lia].
Qed.

Lemma send_ota_chunk_link_down_witness :
  send_ota_chunk 7 0 (disconnect_gateway demo_world)
    = (disconnect_gateway demo_world, Some false) /\
  send_ota_chunk 7 3 (disconnect_gateway demo_world)
    = (disconnect_gateway demo_world, Some true).
Proof.
  assert (link_down (disconnect_gateway demo_world)) as Hdown
    by (left; reflexivity).
  pose proof (send_ota_chunk_link_down 7 0 demo_session
                (disconnect_gateway demo_world) eq_refl Hdown) as [H0 _].
  pose proof (send_ota_chunk_link_down 7 3 demo_session
                (disconnect_gateway demo_world) eq_refl Hdown) as [_ H3].
  split; [apply H0; reflexivity|apply H3; simpl; lia].
Defined.

(** X17.  A whole transfer on a link that takes every frame: the node
    accepts and then asks for the indices 1 to [n], where [n] is the
    number of chunks.  What goes out is the chunk frames 0 to [n - 1] in
    order and then one [ota_end]; one progress event is emitted per chunk;
    and the session is still in the store, waiting for the result.  An
    empty firmware is answered by [ota_end] alone. *)
Theorem protocol_run_frames (node_id : Z) (device_name : string)
    (session : Session) (w : World) :
  sessions w !! node_id = Some session ->
  0 < chunk_size session ->
  link_up w ->
  let n := chunk_count (firmware_data session) (chunk_size session) in
  let idxs := (fun i => Z.of_nat i) <$> seq 0 n in
  let w' := protocol_run node_id device_name n w in
  wire w' = wire w ++ (chunk_frame node_id session <$> idxs) ++ [ota_end node_id] /\
  emitted w' = emitted w ++ (progress_event node_id session <$> idxs) /\
  sessions w' = sessions w.
Proof.
  intros Hs HC Hup n idxs w'.
  pose proof (seq_indices_in_range (firmware_data session) (chunk_size session) HC)
    as Hall. fold n idxs in Hall.
  assert (w' = handle_ota_next node_id (Z.of_nat n)
                 (request_chunks node_id idxs w)) as ->.
  { subst w' idxs. unfold protocol_run, request_chunks.
    change (handle_ota_accept node_id device_name w)
      with (foldl (fun w idx => handle_ota_next node_id idx w) w [Z.of_nat 0]).
    rewrite <- foldl_app.
    change ([Z.of_nat 0] ++ ((fun i => Z.of_nat i) <$> seq 1 n))
      with ((fun i => Z.of_nat i) <$> seq 0 (S n)).
    rewrite seq_S, fmap_app, foldl_app. reflexivity. }
  destruct (request_chunks_wire node_id session idxs w Hs HC Hup Hall)
    as (Hwire & Hsess & Hup').
  pose proof (request_chunks_emitted node_id session idxs w Hs HC Hup Hall)
    as Hemit.
  set (w1 := request_chunks node_id idxs w) in *.
  assert (sessions w1 !! node_id = Some session) as Hs1
    by (rewrite Hsess; exact Hs).
  unfold handle_ota_next. rewrite Hs1.
  rewrite (send_ota_chunk_end node_id session w1 (Z.of_nat n) Hs1 Hup')
    by (apply chunk_count_reaches_end, HC).
  cbn [fst]. rewrite wire_with_written by exact Hup'.
  rewrite Hwire, <- app_assoc. repeat split; assumption.
Qed.

Lemma protocol_run_frames_witness :
  let w' := protocol_run 7 "Node_7" 3 demo_world in
  wire w' = [ota_chunk 7 0 "AQI="; ota_chunk 7 1 "A/4="; ota_chunk 7 2 "/w==";
             ota_end 7] /\
  emitted w' = [ev_ota_progress false 7 0 2 5; ev_ota_progress false 7 1 4 5;
                ev_ota_progress false 7 2 5 5] /\
  sessions w' = sessions demo_world.
Proof.
  exact (protocol_run_frames 7 "Node_7" demo_session demo_world
           (lookup_singleton_eq 7 demo_session) eq_refl demo_link_up).
Defined.



(** An exception escapes from the handler of an OTA message in one case
    only: [ota_next] for a session with an empty firmware, at an index
    whose start [idx * chunk_size] is negative, on a link that takes the
    frame.  So [ota_accept], which asks for index 0, never raises. *)
Lemma handler_raises_only (m : Message) (w : World) :
  handler_raises m w = true <->
  exists node_id idx session,
    m = ota_next node_id idx /\
    sessions w !! node_id = Some session /\
    firmware_data session = [] /\
    idx * chunk_size session < 0 /\
    link_up w.
Proof.
  assert (forall node_id idx,
            match sessions w !! node_id with
            | None => false
            | Some _ =>
                match snd (send_ota_chunk node_id idx w) with
                | None => true
                | Some _ => false
                end
            end = true <->
            exists session,
              sessions w !! node_id = Some session /\
              firmware_data session = [] /\
              idx * chunk_size session < 0 /\ link_up w) as Hchunk.
  { intros node_id idx. unfold send_ota_chunk.
    destruct (sessions w !! node_id) as [session|];
      [|split; [discriminate|intros (? & ? & _); discriminate]].
    set (len := Z.of_nat (length (firmware_data session))).
    split.
    - destruct (Z.geb_spec (idx * chunk_size session) len) as [Hge|Hlt].
      { destruct (send_command _ w); discriminate. }
      unfold send_command.
      destruct (connected (gateway_connection w)) eqn:Hc; [|discriminate].
      destruct (ser (gateway_connection w)) as [port|] eqn:Hp; [|discriminate].
      destruct (write_fails port) eqn:Hf; [discriminate|]. cbn [negb].
      destruct (Z.eqb_spec len 0) as [Hzero|]; [|discriminate]. intros _.
      exists session. split; [reflexivity|].
      split; [|split; [lia|]].
      + subst len. destruct (firmware_data session); [reflexivity|].
        simpl in Hzero. lia.
      + split; [exact Hc|]. exists port. split; [exact Hp|exact Hf].
    - intros (session' & [= <-] & Hempty & Hneg & Hup).
      assert (len = 0) as Hlen by (subst len; rewrite Hempty; reflexivity).
      destruct (Z.geb_spec (idx * chunk_size session) len) as [Hge|_]; [lia|].
      rewrite send_command_link_up by exact Hup.
      destruct (Z.eqb_spec len 0) as [_|]; [reflexivity|contradiction]. }
  destruct m as [id role fw|id name|id idx|id ok msg nv|id msg];
    cbn [handler_raises];
    try (split; [discriminate|intros (? & ? & ? & ? & _); discriminate]).
  - rewrite Hchunk. split.
    + intros (session & _ & _ & Hneg & _). lia.
    + intros (? & ? & ? & ? & _). discriminate.
  - rewrite Hchunk. split.
    + intros (session & H). exists id, idx, session. split; [reflexivity|exact H].
    + intros (? & ? & session & [= <- <-] & H). exists session. exact H.
Qed.

(* ===================================================================== *)
(** ** The handlers of the terminal messages *)
(* ===================================================================== *)

Section RegistryLemmas.

Lemma find_node_update_eq node_id f ns node :
  (forall n, n_id (f n) = n_id n) ->
  find_node node_id ns = Some node ->
  find_node node_id (update_node node_id f ns) = Some (f node).
Proof.
  intros Hf. induction ns as [|n ns IH]; simpl; [discriminate|].
  destruct (n_id n =? node_id) eqn:Hn.
  - intros [= ->]. simpl. rewrite Hf, Hn. reflexivity.
  - intros Hfind. simpl. rewrite Hn. apply IH, Hfind.
Qed.

Lemma find_node_update_ne node_id other f ns :
  (forall n, n_id (f n) = n_id n) ->
  other <> node_id ->
  find_node other (update_node node_id f ns) = find_node other ns.
Proof.
  intros Hf Hne. induction ns as [|n ns IH]; simpl; [reflexivity|].
  destruct (Z.eqb_spec (n_id n) node_id) as [Heq|Hn]; simpl.
  - rewrite Hf. destruct (Z.eqb_spec (n_id n) other); [congruence|reflexivity].
  - destruct (n_id n =? other); [reflexivity|exact IH].
Qed.

Lemma update_node_length node_id f ns :
  length (update_node node_id f ns) = length ns.
Proof.
  induction ns as [|n ns IH]; simpl; [reflexivity|].
  destruct (n_id n =? node_id); simpl; [reflexivity|]. rewrite IH. reflexivity.
Qed.

Lemma find_node_id node_id ns node :
  find_node node_id ns = Some node -> n_id node = node_id.
Proof.
  induction ns as [|n ns IH]; simpl; [discriminate|].
  destruct (Z.eqb_spec (n_id n) node_id); [intros [= <-]; assumption|exact IH].
Qed.

End RegistryLemmas.

(** X19.  [ota_error] ends the session and nothing else: the session of
    the node is deleted, the sessions of other nodes, the registry, the
    history log and the wire are untouched (an open history entry of the
    node stays open), and one error event is emitted.  The event carries
    the [auto] flag of the session that was there; a second error for the
    same node finds no session and is reported as a manual one. *)
Theorem error_ends_session_only (now now2 node_id : Z) (error_msg msg2 : string)
    (w : World) :
  let w' := handle_ota_error now node_id error_msg w in
  sessions w' = delete node_id (sessions w) /\
  nodes w' = nodes w /\
  ota_history w' = ota_history w /\
  wire w' = wire w /\
  emitted w' = emitted w ++ [ev_ota_error (session_is_auto node_id w) node_id
                               error_msg now] /\
  emitted (handle_ota_error now2 node_id msg2 w')
    = emitted w' ++ [ev_ota_error false node_id msg2 now2].
Proof.
  cbv zeta.
  assert (sessions (handle_ota_error now node_id error_msg w)
          = delete node_id (sessions w)) as Hs.
  { unfold handle_ota_error. destruct (sessions w !! node_id) eqn:Hq;
      [reflexivity|]. cbn. symmetry. apply delete_id, Hq. }
  split; [exact Hs|].
  repeat split;
    try (unfold handle_ota_error; destruct (sessions w !! node_id); reflexivity).
  unfold handle_ota_error at 1. unfold session_is_auto at 1.
  rewrite Hs, lookup_delete_eq. reflexivity.
Qed.

(** X20.  A successful result with a version, for a node of the registry:
    afterwards the registry lookup of the node gives its record with the
    new version and the status [online], the lookups of all other ids
    and the length of the registry are unchanged, and the session is
    gone.  A success that names no version (the key is missing or empty)
    updates nothing: the registry and the history log stay as they
    were, and only the session is deleted. *)
Theorem result_updates_the_node (now node_id : Z) (msg_text new_version : string)
    (node : Node) (w : World) :
  find_node node_id (nodes w) = Some node ->
  (Py.truthy new_version = true ->
     let w' := handle_ota_result now node_id true msg_text new_version w in
     find_node node_id (nodes w')
       = Some (set_status online (set_version new_version node)) /\
     (forall other, other <> node_id ->
        find_node other (nodes w') = find_node other (nodes w)) /\
     length (nodes w') = length (nodes w) /\
     sessions w' = delete node_id (sessions w)) /\
  (let w' := handle_ota_result now node_id true msg_text "" w in
   nodes w' = nodes w /\ ota_history w' = ota_history w /\
   sessions w' = delete node_id (sessions w)).
Proof.
  intros Hnode. split.
  - intros Hv w'. subst w'.
    rewrite (handle_ota_result_ok now node_id msg_text new_version node w Hv Hnode).
    set (f := fun n => set_status online (set_version new_version n)).
    assert (forall n, n_id (f n) = n_id n) as Hf by reflexivity.
    assert (forall w0 e, nodes (emit e (drop_session node_id w0)) = nodes w0)
      as Hn.
    { intros w0 e. unfold drop_session.
      destruct (sessions w0 !! node_id); reflexivity. }
    rewrite Hn. cbn [nodes with_history with_nodes].
    split; [exact (find_node_update_eq node_id f (nodes w) node Hf Hnode)|].
    split; [intros other Hne; apply find_node_update_ne; assumption|].
    split; [apply update_node_length|].
    apply (sessions_drop_session node_id
             (with_history (close_first_open node_id completed now)
                (with_nodes (update_node node_id f) w))).
  - cbv zeta. unfold handle_ota_result. cbn [Py.truthy andb].
    repeat split; try (destruct (sessions w !! node_id); reflexivity).
    destruct (sessions w !! node_id) eqn:Hq; [reflexivity|].
    cbn. symmetry. apply delete_id, Hq.
Qed.

Lemma result_updates_the_node_witness :
  let w' := handle_ota_result 200 7 true "ok" "2.1.0" pending_world in
  find_node 7 (nodes w')
    = Some (set_status online (set_version "2.1.0" (set_status updating demo_node))) /\
  (forall other, other <> 7 ->
     find_node other (nodes w') = find_node other (nodes pending_world)) /\
  length (nodes w') = length (nodes pending_world) /\
  sessions w' = delete 7 (sessions pending_world).
Proof.
  apply (result_updates_the_node 200 7 "ok" "2.1.0"
           (set_status updating demo_node) pending_world); reflexivity.
Defined.

(* ===================================================================== *)
(** ** The triggers, way by way *)
(* ===================================================================== *)

Section TriggerOutcomeLemmas.






End TriggerOutcomeLemmas.



(** X22.  A manual trigger whose offer is not taken by the link, although
    the gateway counts as connected, answers 500 and deletes the session
    of the node: not only the one it has just stored, but with it the
    session of a transfer that was under way.  No history entry is
    written and the node's status is not changed. *)
Theorem failed_offer_deletes_session (now node_id : Z)
    (version filepath initiated_by : string) (firmware : list byte) (node : Node)
    (w : World) :
  files w !! filepath = Some firmware ->
  find_node node_id (nodes w) = Some node ->
  connected (gateway_connection w) = true ->
  link_down w ->
  let w' := fst (ota_update_core now node_id version filepath initiated_by w) in
  snd (ota_update_core now node_id version filepath initiated_by w)
    = http_error 500 "Failed to send OTA offer" /\
  sessions w' = delete node_id (sessions w) /\
  sessions w' !! node_id = None /\
  ota_history w' = ota_history w /\
  nodes w' = nodes w.
Proof.
  intros Hfile Hnode Hconn Hdown. unfold ota_update_core.
  rewrite Hfile, Hnode, Hconn. cbn [negb].
  rewrite send_command_link_down by exact Hdown. cbn [negb fst snd].
  assert (sessions (with_sessions (delete node_id)
            (with_sessions
               (insert node_id
                  (new_session now firmware version (n_name node) false)) w))
          = delete node_id (sessions w)) as Hs
    by apply delete_insert_eq.
  repeat split; try exact Hs. rewrite Hs. apply lookup_delete_eq.
Qed.

Lemma failed_offer_deletes_session_witness :
  let w' := fst (ota_update_core 100 7 "9.9.9" "firmware_uploads/new.bin" "admin"
                   failing_port_world) in
  sessions failing_port_world !! 7 = Some demo_session /\
  snd (ota_update_core 100 7 "9.9.9" "firmware_uploads/new.bin" "admin"
         failing_port_world) = http_error 500 "Failed to send OTA offer" /\
  sessions w' !! 7 = None.
Proof.
  split; [reflexivity|].
  destruct (failed_offer_deletes_session 100 7 "9.9.9" "firmware_uploads/new.bin"
              "admin" [xaa; xbb] demo_node failing_port_world eq_refl eq_refl
              eq_refl)
    as (Hresp & _ & Hgone & _).
  - right. right. eexists. split; reflexivity.
  - split; [exact Hresp|exact Hgone].
Defined.

Section WorkerOutcomeLemmas.

Variable sha256_hexdigest : list byte -> string.

(** When the download has ended and the gate is open, the worker is its
    send stage on the world that holds the file. *)
Lemma auto_ota_worker_reaches_send env now node_id node_name url sha256_hash
    version body w :
  download env = stream_ends body ->
  sha256_gate_open sha256_hexdigest env sha256_hash body ->
  auto_ota_worker sha256_hexdigest env now node_id node_name url sha256_hash
    version w
  = auto_ota_send env now node_id node_name version
      (with_files (insert (temp_path env) body)
         (emit (ev_auto_ota_started node_id node_name version now) w)).
Proof.
  intros Hdl Hgate. unfold auto_ota_worker. rewrite Hdl.
  destruct sha256_hash as [h|]; [|reflexivity].
  destruct (Py.truthy h) eqn:Htruthy; [|reflexivity].
  destruct (Hgate Htruthy) as [Hdigest Heq].
  unfold auto_ota_verify. cbn [files with_files].
  rewrite lookup_insert_eq, Hdigest, Heq, String.eqb_refl. reflexivity.
Qed.

End WorkerOutcomeLemmas.

(** X23.  When the worker has the firmware but the link does not take the
    offer, it gives up without a word: the session of the node is deleted
    (a transfer that was under way for the node included), nothing is
    written to the history log, the temporary file is removed, and the only
    event of the run is [auto_ota_started]; no [auto_ota_failed] follows. *)
Theorem worker_send_failure_is_silent (sha256_hexdigest : list byte -> string)
    (env : WorkerEnv) (now node_id : Z) (node_name url : string)
    (sha256_hash : option string) (version : string) (body : list byte)
    (w : World) :
  download env = stream_ends body ->
  read_raises env = false ->
  sha256_gate_open sha256_hexdigest env sha256_hash body ->
  link_down w ->
  let w' := auto_ota_worker sha256_hexdigest env now node_id node_name url
              sha256_hash version w in
  sessions w' = delete node_id (sessions w) /\
  ota_history w' = ota_history w /\
  nodes w' = nodes w /\
  files w' !! temp_path env = None /\
  emitted w' = emitted w ++ [ev_auto_ota_started node_id node_name version now].
Proof.
  intros Hdl Hread Hgate Hdown w'. subst w'.
  rewrite (auto_ota_worker_reaches_send sha256_hexdigest env now node_id
             node_name url sha256_hash version body w Hdl Hgate).
  unfold auto_ota_send. cbn [files with_files]. rewrite lookup_insert_eq, Hread.
  rewrite send_command_link_down by exact Hdown.
  repeat split.
  - apply delete_insert_eq.
  - cbn [files with_files]. apply lookup_delete_eq.
Qed.

Lemma worker_send_failure_is_silent_witness :
  let w' := auto_ota_worker (fun _ => "00"%string) demo_env 100 7 "Node_7"
              "https://example.org/fw.bin" None "9.9.9" failing_port_world in
  sessions w' = delete 7 (sessions failing_port_world) /\
  ota_history w' = ota_history failing_port_world /\
  nodes w' = nodes failing_port_world /\
  files w' !! temp_path demo_env = None /\
  emitted w' = emitted failing_port_world ++
               [ev_auto_ota_started 7 "Node_7" "9.9.9" 100].
Proof.
  apply (worker_send_failure_is_silent (fun _ => "00"%string) demo_env 100 7
           "Node_7" "https://example.org/fw.bin" None "9.9.9" [xaa; xbb]
           failing_port_world).
  - reflexivity.
  - reflexivity.
  - exact I.
  - right. right. eexists. split; reflexivity.
Defined.

(** X24.  A run of the worker that gets through: the body is downloaded,
    the digest (if one is given) matches, and the link takes the offer.
    Then the session of the node holds exactly the downloaded bytes, is
    marked automatic and has chunks of 1024 bytes; the offer that went out
    names the length of the body; the history log has a new open entry by
    [AUTO_OTA], numbered after the length of the log; and the temporary
    file is gone although the session keeps the bytes. *)
Theorem worker_success (sha256_hexdigest : list byte -> string)
    (env : WorkerEnv) (now node_id : Z) (node_name url : string)
    (sha256_hash : option string) (version : string) (body : list byte)
    (w : World) :
  download env = stream_ends body ->
  read_raises env = false ->
  sha256_gate_open sha256_hexdigest env sha256_hash body ->
  link_up w ->
  let w' := auto_ota_worker sha256_hexdigest env now node_id node_name url
              sha256_hash version w in
  sessions w' !! node_id = Some (new_session now body version node_name true) /\
  wire w' = wire w ++ [ota_offer node_id version (Z.of_nat (length body)) 1024] /\
  ota_history w' =
    ota_history w ++
    [new_ota_event now node_id node_name version "AUTO_OTA"
       (Z.of_nat (length body)) (ota_history w)] /\
  files w' !! temp_path env = None /\
  emitted w' =
    emitted w ++ [ev_auto_ota_started node_id node_name version now;
                  ev_node_status_change node_id updating].
Proof.
  intros Hdl Hread Hgate Hup w'. subst w'.
  rewrite (auto_ota_worker_reaches_send sha256_hexdigest env now node_id
             node_name url sha256_hash version body w Hdl Hgate).
  unfold auto_ota_send. cbn [files with_files]. rewrite lookup_insert_eq, Hread.
  rewrite send_command_link_up by exact Hup.
  repeat split.
  - apply lookup_insert_eq.
  - destruct Hup as (_ & port & Hport & _). unfold wire. simpl.
    rewrite Hport. reflexivity.
  - cbn [files with_files]. apply lookup_delete_eq.
  - simpl. rewrite <- app_assoc. reflexivity.
Qed.

Lemma worker_success_witness :
  let w' := auto_ota_worker (fun _ => "00"%string) demo_env 100 7 "Node_7"
              "https://example.org/fw.bin" None "9.9.9" busy_world in
  sessions w' !! 7 = Some (new_session 100 [xaa; xbb] "9.9.9" "Node_7" true) /\
  wire w' = wire busy_world ++ [ota_offer 7 "9.9.9" 2 1024] /\
  ota_history w' =
    ota_history busy_world ++
    [new_ota_event 100 7 "Node_7" "9.9.9" "AUTO_OTA" 2 (ota_history busy_world)] /\
  files w' !! temp_path demo_env = None /\
  emitted w' =
    emitted busy_world ++ [ev_auto_ota_started 7 "Node_7" "9.9.9" 100;
                           ev_node_status_change 7 updating].
Proof.
  apply (worker_success (fun _ => "00"%string) demo_env 100 7 "Node_7"
           "https://example.org/fw.bin" None "9.9.9" [xaa; xbb] busy_world).
  - reflexivity.
  - reflexivity.
  - exact I.
  - exact demo_link_up.
Defined.

Section LowerLemmas.

Lemma lower_char_idempotent (c : ascii) :
  Py.lower_char (Py.lower_char c) = Py.lower_char c.
Proof. destruct c as [[] [] [] [] [] [] [] []]; reflexivity. Qed.

Lemma lower_idempotent (s : string) : Py.lower (Py.lower s) = Py.lower s.
Proof.
  induction s as [|c s IH]; [reflexivity|].
  cbn [Py.lower]. rewrite lower_char_idempotent, IH. reflexivity.
Qed.

Lemma truthy_lower (s : string) : Py.truthy (Py.lower s) = Py.truthy s.
Proof. destruct s; reflexivity. Qed.

End LowerLemmas.

(** X25.  The digest check of the worker does not look at the case of the
    expected digest: the run with a digest and the run with the same
    digest in lower case end in the same world. *)
Theorem worker_digest_case_insensitive (sha256_hexdigest : list byte -> string)
    (env : WorkerEnv) (now node_id : Z) (node_name url h version : string)
    (w : World) :
  auto_ota_worker sha256_hexdigest env now node_id node_name url (Some h)
    version w
  = auto_ota_worker sha256_hexdigest env now node_id node_name url
      (Some (Py.lower h)) version w.
Proof.
  unfold auto_ota_worker, auto_ota_verify.
  rewrite truthy_lower, lower_idempotent. reflexivity.
Qed.

(* ===================================================================== *)
(** ** The mesh report *)
(* ===================================================================== *)

Section MeshLemmas.











End MeshLemmas.



Example mesh_report_demo :
  let '(ns', added) := update_nodes_from_gateway 500 demo_reports [demo_node] in
  n_name <$> ns' = ["Node_7"; "Node_12"]%string /\
  n_status <$> ns' = [offline; online] /\
  n_version <$> ns' = ["2.0.1"; "unknown"]%string /\
  n_id <$> added = [12].
Proof. repeat split; reflexivity. Qed.

(* ===================================================================== *)
(** ** The manual endpoints and the gateway switch *)
(* ===================================================================== *)



(** X28.  [ota_from_github] and its temporary file.  Once the body is
    downloaded, the file is gone when the endpoint answers, whatever the
    answer is.  A digest that does not match answers 400 and leaves
    sessions, registry and history as they were.  With no digest given,
    the answer and the sessions are those of the trigger run on the
    downloaded file for the node [int(node_id)], and when [int(node_id)]
    raises the answer is 400 and the sessions are left as they were.  When
    the download breaks after the file was created, the answer is 502 and
    the file stays, holding what was received. *)
Theorem ota_from_github_temp_file (sha256_hexdigest : list byte -> string)
    (env : WorkerEnv) (now : Z) (current_user : string) (node_id : Json)
    (version firmware_url : string) (sha256 : option string) (w : World) :
  json_truthy node_id = true ->
  Py.truthy (str_strip version) = true ->
  Py.truthy (str_strip firmware_url) = true ->
  let run := ota_from_github sha256_hexdigest env now current_user node_id
               (Some version) (Some firmware_url) sha256 w in
  (forall body, download env = stream_ends body ->
     files (fst run) !! temp_path env = None) /\
  (forall body h, download env = stream_ends body ->
     sha256 = Some h ->
     Py.truthy h = true ->
     Py.truthy (str_strip (Py.lower h)) = true ->
     digest_raises env = false ->
     Py.lower (sha256_hexdigest body) <> str_strip (Py.lower h) ->
     snd run = http_error 400 "SHA256 mismatch" /\
     sessions (fst run) = sessions w /\ nodes (fst run) = nodes w /\
     ota_history (fst run) = ota_history w) /\
  (forall body, download env = stream_ends body -> sha256 = None ->
     match json_int node_id with
     | Some id =>
         let core := ota_update_core now id (str_strip version) (temp_path env)
                       current_user
                       (with_files (insert (temp_path env) body) w) in
         snd run = snd core /\ sessions (fst run) = sessions (fst core)
     | None =>
         snd run = http_error 400 "Invalid node_id" /\
         sessions (fst run) = sessions w
     end) /\
  (forall received, download env = stream_breaks received ->
     snd run = http_error 502 "Download failed" /\
     files (fst run) !! temp_path env = Some received).
Proof.
  intros Hid Hv Hurl run. subst run. unfold ota_from_github.
  change (default ""%string (Some version)) with version.
  change (default ""%string (Some firmware_url)) with firmware_url.
  rewrite Hid, Hv, Hurl. cbn [negb andb].
  split; [|split; [|split]].
  - intros body ->.
    destruct (ota_update_core_json now node_id (str_strip version) (temp_path env)
                current_user (with_files (insert (temp_path env) body) w))
      as [w2 resp].
    set (expected := if truthy_str sha256 then _ else _).
    destruct (Py.truthy expected); [|cbn; apply lookup_delete_eq].
    destruct (digest_raises env); [cbn; apply lookup_delete_eq|].
    destruct (negb _); cbn; apply lookup_delete_eq.
  - intros body h -> -> Hh Hstrip Hdigest Hne.
    cbn [truthy_str]. change (default ""%string (Some h)) with h.
    rewrite Hh, Hstrip, Hdigest.
    apply String.eqb_neq in Hne. rewrite Hne. cbn [negb fst snd].
    repeat split.
  - intros body -> ->. cbn [truthy_str Py.truthy].
    unfold ota_update_core_json. cbn [files with_files].
    rewrite lookup_insert_eq.
    destruct (json_int node_id) as [id|]; [|split; reflexivity].
    destruct (ota_update_core now id (str_strip version) (temp_path env)
                current_user (with_files (insert (temp_path env) body) w))
      as [w2 resp].
    split; reflexivity.
  - intros received ->. cbn [fst snd files with_files].
    split; [reflexivity|apply lookup_insert_eq].
Qed.

Lemma ota_from_github_temp_file_witness :
  let run := ota_from_github (fun _ => "00"%string) demo_env 100 "admin" (JInt 7)
               (Some "9.9.9"%string) (Some "https://example.org/fw.bin"%string)
               (Some "AB"%string) busy_world in
  files (fst run) !! temp_path demo_env = None /\
  snd run = http_error 400 "SHA256 mismatch" /\
  sessions (fst run) = sessions busy_world.
Proof.
  destruct (ota_from_github_temp_file (fun _ => "00"%string) demo_env 100 "admin"
              (JInt 7) "9.9.9" "https://example.org/fw.bin" (Some "AB"%string)
              busy_world eq_refl eq_refl eq_refl)
    as (Hgone & Hbad & _ & _).
  split; [apply (Hgone [xaa; xbb]); reflexivity|].
  destruct (Hbad [xaa; xbb] "AB"%string eq_refl eq_refl eq_refl eq_refl eq_refl
              ltac:(discriminate)) as (Hresp & Hsess & _).
  split; [exact Hresp|exact Hsess].
Defined.

(** X29.  Disconnecting and connecting.  After [disconnect_gateway] the
    sessions are still in the store, but no frame goes out any more: every
    send fails and a request for a chunk writes nothing.  A later
    [connect_gateway] makes a new gateway object, so the store is empty
    afterwards, whether the port opens (status 200) or not (status 500);
    while the gateway is connected, [connect_gateway] answers 400 and
    changes nothing. *)
Theorem disconnect_keeps_connect_drops_sessions (port_opens : bool) (w : World) :
  let w1 := disconnect_gateway w in
  let w2 := fst (connect_gateway port_opens w1) in
  sessions w1 = sessions w /\
  active_ota_sessions w1 = active_ota_sessions w /\
  (forall command, send_command command w1 = (w1, false)) /\
  (forall node_id idx, wire (handle_ota_next node_id idx w1) = wire w1) /\
  sessions w2 = ∅ /\
  active_ota_sessions w2 = 0%nat /\
  snd (connect_gateway port_opens w1) = (if port_opens then 200 else 500) /\
  (connected (gateway_connection w) = true ->
     connect_gateway port_opens w = (w, 400)).
Proof.
  cbv zeta.
  assert (forall command,
            send_command command (disconnect_gateway w)
            = (disconnect_gateway w, false)) as Hsend by reflexivity.
  repeat split; try reflexivity.
  - intros node_id idx. unfold handle_ota_next.
    destruct (sessions (disconnect_gateway w) !! node_id) as [s|] eqn:Hs;
      [|reflexivity].
    unfold send_ota_chunk. rewrite Hs, !Hsend.
    destruct (_ >=? _); reflexivity.
  - intros Hconn. unfold connect_gateway. rewrite Hconn. reflexivity.
Qed.

Lemma disconnect_keeps_connect_drops_sessions_witness :
  connect_gateway true demo_world = (demo_world, 400) /\
  sessions (disconnect_gateway demo_world) !! 7 = Some demo_session /\
  sessions (fst (connect_gateway false (disconnect_gateway demo_world))) = ∅.
Proof.
  destruct (disconnect_keeps_connect_drops_sessions true demo_world)
    as (_ & _ & _ & _ & _ & _ & _ & Hbusy).
  destruct (disconnect_keeps_connect_drops_sessions false demo_world)
    as (Hkeep & _ & _ & _ & Hempty & _).
  split; [apply Hbusy; reflexivity|]. split; [|exact Hempty].
  rewrite Hkeep. reflexivity.
Defined.

(* ===================================================================== *)
(** ** The names of the packaged artifacts *)
(* ===================================================================== *)

Section SanitizeLemmas.

Lemma sanitize_chars_kept (in_run : bool) (l : list ascii) :
  Forall (fun c => keeps c = true) (sanitize_chars in_run l).
Proof.
  revert in_run. induction l as [|c l IH]; intros in_run; simpl; [constructor|].
  destruct (keeps c) eqn:Hc.
  - constructor; [exact Hc|apply IH].
  - destruct in_run; [apply IH|]. constructor; [reflexivity|apply IH].
Qed.

Lemma sanitize_chars_clean (in_run : bool) (l : list ascii) :
  Forall (fun c => keeps c = true) l -> sanitize_chars in_run l = l.
Proof.
  intros Hall. revert in_run.
  induction Hall as [|c l Hc _ IH]; intros in_run; simpl; [reflexivity|].
  rewrite Hc, IH. reflexivity.
Qed.

Lemma sanitize_chars_length (in_run : bool) (l : list ascii) :
  (length (sanitize_chars in_run l) <= length l)%nat.
Proof.
  revert in_run. induction l as [|c l IH]; intros in_run; simpl; [lia|].
  destruct (keeps c); simpl.
  - specialize (IH false). lia.
  - destruct in_run; simpl; specialize (IH true); lia.
Qed.

Lemma all_kept_append (a b : string) :
  all_kept a -> all_kept b -> all_kept (String.append a b).
Proof.
  unfold all_kept. intros Ha Hb. induction a as [|c a IH]; [exact Hb|].
  change (list_ascii_of_string (String.append (String c a) b))
    with (c :: list_ascii_of_string (String.append a b)).
  change (list_ascii_of_string (String c a)) with (c :: list_ascii_of_string a)
    in Ha.
  apply Forall_cons in Ha. destruct Ha as [Hc Ha].
  constructor; [exact Hc|apply IH, Ha].
Qed.

Lemma string_length_chars (s : string) :
  String.length s = length (list_ascii_of_string s).
Proof. induction s as [|c s IH]; simpl; [reflexivity|]. rewrite IH. reflexivity. Qed.

Lemma sanitize_all_kept (s : string) : all_kept (_sanitize s).
Proof.
  unfold all_kept, _sanitize. rewrite list_ascii_of_string_of_list_ascii.
  apply sanitize_chars_kept.
Qed.

End SanitizeLemmas.

(** X30.  [_sanitize] of the packaging script: its result holds only
    letters, digits, underscore, dot and dash, and is never longer than
    its argument; a string of such characters is returned as it is, so
    sanitizing twice is sanitizing once.  The two file names that
    [package_one] builds from an environment name and a version are made
    of such characters only, so neither holds a slash or a backslash,
    whatever the two strings are. *)
Theorem sanitize_names (s env_name fw_version : string) :
  all_kept (_sanitize s) /\
  (String.length (_sanitize s) <= String.length s)%nat /\
  (all_kept s -> _sanitize s = s) /\
  _sanitize (_sanitize s) = _sanitize s /\
  all_kept (fst (package_names env_name fw_version)) /\
  all_kept (snd (package_names env_name fw_version)) /\
  (forall c, In c (list_ascii_of_string (fst (package_names env_name fw_version)))
             \/ In c (list_ascii_of_string (snd (package_names env_name fw_version)))
             -> c <> "/"%char /\ c <> "\"%char).
Proof.
  assert (forall t, all_kept t -> _sanitize t = t) as Hclean.
  { intros t Ht. unfold _sanitize. rewrite sanitize_chars_clean by exact Ht.
    apply string_of_list_ascii_of_string. }
  assert (all_kept (fst (package_names env_name fw_version))) as Hfst.
  { unfold package_names. cbn [fst].
    repeat apply all_kept_append; try apply sanitize_all_kept;
      repeat constructor. }
  assert (all_kept (snd (package_names env_name fw_version))) as Hsnd.
  { unfold package_names. cbn [snd].
    repeat apply all_kept_append; try apply sanitize_all_kept;
      repeat constructor. }
  split; [apply sanitize_all_kept|]. split.
  - unfold _sanitize.
    rewrite !string_length_chars, list_ascii_of_string_of_list_ascii.
    apply sanitize_chars_length.
  - split; [apply Hclean|]. split; [apply Hclean, sanitize_all_kept|].
    split; [exact Hfst|]. split; [exact Hsnd|].
    intros c [Hin|Hin].
    + unfold all_kept in Hfst. rewrite Forall_forall in Hfst.
      apply list_elem_of_In, Hfst in Hin.
      split; intros ->; discriminate.
    + unfold all_kept in Hsnd. rewrite Forall_forall in Hsnd.
      apply list_elem_of_In, Hsnd in Hin.
      split; intros ->; discriminate.
Qed.

Lemma sanitize_names_witness : _sanitize "esp32-c3_v2.1.0" = "esp32-c3_v2.1.0"%string.
Proof.
  refine (proj1 (proj2 (proj2 (sanitize_names "esp32-c3_v2.1.0" "" ""))) _).
  repeat constructor.
Defined.

Example sanitize_demo :
  _sanitize "../my env//2.1 beta" = ".._my_env_2.1_beta"%string /\
  package_names "sensor node" "2.1.0/rc" =
    ("sensor_node_v2.1.0_rc.bin"%string, "sensor_node_latest.bin"%string).
Proof. split; reflexivity. Qed.

(* ===================================================================== *)
(** ** The read loop on concrete data *)
(* ===================================================================== *)

Lemma read_chunk_split_witness :
  read_chunk counting_handler ""
    (String.append (frame "{a}") (String.append (frame "{b}") "{c")) 0%nat
  = {| handed := ["{a}"; "{b}"]%string; kept := "{c"; state_after := 2%nat;
       raised := false |} /\
  read_chunk counting_handler "" (String.append (frame "5") (frame "{a}")) 0%nat
  = {| handed := ["5"%string]; kept := frame "{a}"; state_after := 1%nat;
       raised := true |}.
Proof.
  split.
  - exact (proj1 (read_chunk_split counting_handler "" (frame "{a}")
                    (String.append (frame "{b}") "{c") 0%nat) eq_refl).
  - exact (proj2 (read_chunk_split counting_handler "" (frame "5")
                    (frame "{a}") 0%nat) eq_refl).
Defined.


(** A frame that arrives in two pieces, with white space around it and a
    blank line behind it. *)
Example read_chunk_demo :
  let r1 := read_chunk counting_handler "" " {type:" 0%nat in
  let r2 :=
    read_chunk counting_handler (kept r1)
      (String.append "x} " (String LF (String LF "{ty"))) (state_after r1) in
  handed r1 = [] /\ kept r1 = " {type:"%string /\
  handed r2 = ["{type:x}"%string] /\ kept r2 = "{ty"%string.
Proof. repeat split; reflexivity. Qed.

(** The cut of the stream matters once an exception escapes: read one
    after the other, the line behind the offending one is handed on by the
    second read; read at once, it stays in the buffer, and is handed on
    only by the next read that finds data waiting. *)
Example read_chunk_after_exception :
  let r1 := read_chunk counting_handler "" (frame "5") 0%nat in
  let r2 := read_chunk counting_handler (kept r1) (frame "{a}") (state_after r1) in
  let at_once :=
    read_chunk counting_handler "" (String.append (frame "5") (frame "{a}")) 0%nat in
  let later := read_chunk counting_handler (kept at_once) "{b" (state_after at_once) in
  (raised r1 = true /\ kept r1 = ""%string) /\
  (handed r2 = ["{a}"%string] /\ kept r2 = ""%string) /\
  (handed at_once = ["5"%string] /\ kept at_once = frame "{a}") /\
  (handed later = ["{a}"%string] /\ kept later = "{b"%string).
Proof. repeat split; reflexivity. Qed.
